(** * Form scripts of the ERP portal: Asset, Sales Order, TaxJar Settings

    A shallow embedding of the client scripts
      - erpnext/assets/doctype/asset/asset.js  (Asset form, Asset Finance
        Book and Depreciation Schedule child tables, and the Sales Order
        controller that shares the file), and
      - erpnext/erpnext_integrations/doctype/taxjar_settings/taxjar_settings.js.

    Conventions of the embedding.
      - A JS number is a double.  The finite doubles are rationals ([Q]);
        [flt(v)] on a number is the number itself, and [flt(v, decimals)]
        is the framework's rounding.  Where the scripts round a result
        with [flt(.., decimals)] at once, the exact result stands for the
        double.  Where they use a sum unrounded (the accumulated
        depreciation), the addition of doubles is a parameter [add], and
        [Examples.double_add] is the one of IEEE 754.  Where they can
        compute a number that is not finite from an ordinary document (a
        division by [gross_purchase_amount]), numbers are of the type
        [Frappe.number], which has NaN and the infinities.
      - A document ([frm.doc]) is a JS object: a finite map from field name
        to value; a field that was never set is absent and reads as
        [undefined], which is falsy.  Rows of child tables are records.
      - The form object [frm] is a record holding the document, its child
        tables, the properties of its fields, [frappe.flags], and the trace
        of what the handlers did to the outside world: messages printed,
        remote calls issued, buttons added, graphs rendered.
      - An uncaught JS exception is an explicit outcome of the function.
      - Functions of the host framework ([flt] with decimals, [precision],
        date formatting, [frappe.scrub], the dispatch of change handlers)
        are the members of the class [Frappe.Framework].

    The definitions come first, one module per form; the properties
    follow, one section per subject. *)

From Stdlib Require Import ZArith QArith Qround Qabs Qpower List String Bool Lia Lqa.
From stdpp Require Import gmap strings.
Import ListNotations.
Open Scope string_scope.

(** ** Framework vocabulary shared by the three forms *)

Module Frappe.

(** A field value of a document: a number or a string.  A field that is
    not set on the JS object ([undefined]) is the absence of a key. *)
Inductive value := VNum (q : Q) | VStr (s : string).

(** JS truthiness of a string: only the empty string is falsy. *)
Definition truthy_str (s : string) : bool := negb (s =? "").

(** JS truthiness of a number (no NaN in the rational model). *)
Definition truthy_num (q : Q) : bool := negb (Qeq_bool q 0).

(** JS truthiness of a field read [doc.fieldname]. *)
Definition truthy (v : option value) : bool :=
  match v with
  | Some (VNum q) => truthy_num q
  | Some (VStr s) => truthy_str s
  | None => false
  end.

(** [flt(v)]: the number itself, 0 for anything that is not a number
    (number fields are not held as strings in a loaded document). *)
Definition flt (v : option value) : Q :=
  match v with Some (VNum q) => q | _ => 0 end.

(** A string-valued read, [""] when the field is not a string. *)
Definition str_of (v : option value) : string :=
  match v with Some (VStr s) => s | _ => "" end.

(** [a === b] *)
Definition strict_eq (a b : option value) : bool :=
  match a, b with
  | None, None => true
  | Some (VNum p), Some (VNum q) => Qeq_bool p q
  | Some (VStr s), Some (VStr t) => s =? t
  | _, _ => false
  end.

(** [in_list(list, v)] *)
Definition in_list (l : list string) (v : string) : bool :=
  existsb (String.eqb v) l.

(** [a < b] and [a > b] on numbers. *)
Definition num_lt (a b : Q) : bool := negb (Qle_bool b a).
Definition num_gt (a b : Q) : bool := num_lt b a.

(** A JS number that need not be finite: a finite one, NaN, or
    [Infinity] / [-Infinity].  The rationals have one zero; it stands for
    the positive zero. *)
Inductive number := Fin (q : Q) | NaN | Inf (negative : bool).

(** JS truthiness of a number: zero and NaN are falsy. *)
Definition truthy_number (n : number) : bool :=
  match n with
  | Fin q => truthy_num q
  | NaN => false
  | Inf _ => true
  end.

(** A field read [doc.fieldname] used as a number in arithmetic:
    [undefined] converts to NaN (number fields are not held as strings in
    a loaded document). *)
Definition number_of (v : option value) : number :=
  match v with Some (VNum q) => Fin q | _ => NaN end.

(** [a * b]: zero times an infinity is NaN. *)
Definition num_mul (a b : number) : number :=
  match a, b with
  | NaN, _ | _, NaN => NaN
  | Fin p, Fin q => Fin (p * q)
  | Fin p, Inf s | Inf s, Fin p =>
      if Qeq_bool p 0 then NaN else Inf (xorb s (num_lt p 0))
  | Inf s, Inf t => Inf (xorb s t)
  end.

(** [a / b]: a number other than zero divided by zero is an infinity,
    zero divided by zero is NaN. *)
Definition num_div (a b : number) : number :=
  match a, b with
  | NaN, _ | _, NaN => NaN
  | Fin p, Fin q =>
      if Qeq_bool q 0
      then (if Qeq_bool p 0 then NaN else Inf (num_lt p 0))
      else Fin (p / q)
  | Fin _, Inf _ => Fin 0
  | Inf s, Fin q => Inf (xorb s (num_lt q 0))
  | Inf _, Inf _ => NaN
  end.

(** [a === b] on numbers: NaN equals nothing, itself included. *)
Definition number_strict_eq (a b : number) : bool :=
  match a, b with
  | Fin p, Fin q => Qeq_bool p q
  | Inf s, Inf t => Bool.eqb s t
  | _, _ => false
  end.

(** The argument of [frappe.msgprint] / [frappe.throw]. *)
Record msg := Msg { title : string; message : string; indicator : string }.

(** [__('... {0} ...', [arg])] for the one-placeholder templates used here:
    the text before the placeholder, the argument, the text after it.
    Translation itself is the identity. *)
Definition fmt1 (before arg after : string) : string :=
  before ++ arg ++ after.

(** What a handler does to the outside world, in the order it does it. *)
Inductive effect :=
| Msgprint (m : msg)                               (* frappe.msgprint *)
| GetDoc (doctype name : string)                   (* frappe.db.get_doc *)
| GetValue (doctype name fieldname : string)       (* frappe.db.get_value *)
| Call (method : string) (row : nat)               (* frappe.call on a row *)
| ModelSetValue (row : nat) (fieldname : string) (v : number)
                                                   (* frappe.model.set_value *)
| AddCustomButton (label group : string)           (* frm.add_custom_button *)
| HeadlineAlert                                    (* dashboard.set_headline_alert *)
| HidePrimaryAction                                (* $('.primary-action') *)
| FormMessage (text : string)                      (* $('.form-message') *)
| RenderGraph (labels : list string) (values : list (option Q)).
                                                   (* dashboard.render_graph *)

(** The [frappe.model.set_value] calls of a trace. *)
Definition is_update (e : effect) : bool :=
  match e with ModelSetValue _ _ _ => true | _ => false end.

Definition updates (l : list effect) : list effect := List.filter is_update l.

(** Functions of the framework whose code is not part of the scripts. *)
Class Framework := {
  (** [flt(v, decimals)]: rounding to [decimals] places *)
  flt_round : Q -> nat -> Q;
  (** [precision(fieldname)] *)
  precision : string -> nat;
  (** [frappe.format(v, { fieldtype: 'Date' })] *)
  format_date : string -> string;
  (** [frappe.datetime.add_months(date, months)] *)
  add_months : string -> Q -> string;
  (** [frappe.scrub(txt)]: the field name for a document type *)
  scrub : string -> string;
  (** whether setting a field from [old] to [new] runs the field's
      change handler (always, or only when the value changes) *)
  fires : option value -> value -> bool;
  (** the same for a number field of a child table row *)
  fires_number : number -> number -> bool;
  (** [flt(v, decimals)] for a [v] that is NaN or an infinity *)
  flt_not_finite : number -> nat -> number
}.

(** [flt(v, decimals)] on a number that need not be finite. *)
Definition flt_number `{Framework} (v : number) (decimals : nat) : number :=
  match v with
  | Fin q => Fin (flt_round q decimals)
  | _ => flt_not_finite v decimals
  end.

End Frappe.

(** ** TaxJar Settings form (taxjar_settings.js) *)

Module TaxJarSettings.
Import Frappe.

(** The form: the document and the [reqd] property of its fields. *)
Record form := Form { doc : gmap string value; df_reqd : gmap string bool }.

(** [frm.toggle_reqd(fieldname, flag)] *)
Definition toggle_reqd (fieldname : string) (flag : bool) (frm : form) : form :=
  {| doc := doc frm; df_reqd := <[fieldname := flag]> (df_reqd frm) |}.

(** The [is_sandbox] field-change handler. *)
Definition on_is_sandbox (frm : form) : form :=
  let frm := toggle_reqd "api_key" (negb (truthy (doc frm !! "is_sandbox"))) frm in
  toggle_reqd "sandbox_api_key" (truthy (doc frm !! "is_sandbox")) frm.

(** A field is required when its [reqd] property is set. *)
Definition required (frm : form) (fieldname : string) : Prop :=
  df_reqd frm !! fieldname = Some true.

End TaxJarSettings.

(** ** Asset form (asset.js): data *)

Module Asset.
Import Frappe.

(** A row of the Asset Finance Book child table. The three fields the
    script computes and sets itself are numbers that need not be finite. *)
Record finance_book := FinanceBook {
  depreciation_method : string;
  shift_based : Q;
  total_number_of_depreciations : Q;
  frequency_of_depreciation : Q;
  expected_value_after_useful_life : number;
  salvage_value_percentage : number;
  rate_of_depreciation : number;
  depreciation_start_date : string
}.

(** A row of the Depreciation Schedule child table.  [finance_book_id] is
    the 1-based position of the row's finance book; [journal_entry] is the
    empty string until the depreciation entry has been posted. *)
Record schedule := Schedule {
  finance_book_id : Z;
  schedule_date : string;
  depreciation_amount : Q;
  accumulated_depreciation_amount : Q;
  journal_entry : string
}.

(** The form [frm]. [df] holds the field properties set through
    [set_df_property] (key: field name and property name); [flags] is
    [frappe.flags]; [trace] lists the effects, oldest first. *)
Record form := Form {
  doc : gmap string value;
  finance_books : list finance_book;
  schedules : list schedule;
  df : gmap (string * string) bool;
  flags : gmap string bool;
  trace : list effect
}.

Definition set_doc (d : gmap string value) (frm : form) : form :=
  {| doc := d; finance_books := finance_books frm; schedules := schedules frm;
     df := df frm; flags := flags frm; trace := trace frm |}.

Definition set_finance_books (l : list finance_book) (frm : form) : form :=
  {| doc := doc frm; finance_books := l; schedules := schedules frm;
     df := df frm; flags := flags frm; trace := trace frm |}.

Definition set_schedules (l : list schedule) (frm : form) : form :=
  {| doc := doc frm; finance_books := finance_books frm; schedules := l;
     df := df frm; flags := flags frm; trace := trace frm |}.

Definition set_df (m : gmap (string * string) bool) (frm : form) : form :=
  {| doc := doc frm; finance_books := finance_books frm; schedules := schedules frm;
     df := m; flags := flags frm; trace := trace frm |}.

Definition set_flag (name : string) (b : bool) (frm : form) : form :=
  {| doc := doc frm; finance_books := finance_books frm; schedules := schedules frm;
     df := df frm; flags := <[name := b]> (flags frm); trace := trace frm |}.

(** Append one effect to the trace. *)
Definition emit (e : effect) (frm : form) : form :=
  {| doc := doc frm; finance_books := finance_books frm; schedules := schedules frm;
     df := df frm; flags := flags frm; trace := trace frm ++ [e] |}.

(** [frappe.flags.name] read as a condition: unset is falsy. *)
Definition flag (frm : form) (name : string) : bool :=
  match flags frm !! name with Some b => b | None => false end.

(** The outcome of running a handler: it returned, it threw a TypeError
    (with the form as it was at the throw), or the budget of nested
    handler runs was used up. *)
Inductive result := Ok (frm : form) | Thrown (frm : form) | OutOfFuel.

Definition bind (r : result) (k : form -> result) : result :=
  match r with Ok frm => k frm | Thrown frm => Thrown frm | OutOfFuel => OutOfFuel end.

Notation "'let*' x := r 'in' k" := (bind r (fun x => k))
  (at level 10, x name, r at level 200, k at level 200).

(** *** Field properties *)

Definition set_df_property (fieldname property : string) (v : bool) (frm : form) : form :=
  set_df (<[(fieldname, property) := v]> (df frm)) frm.

Definition toggle_reqd (fieldname : string) (mandatory : bool) (frm : form) : form :=
  set_df_property fieldname "reqd" mandatory frm.

Definition toggle_display (fieldname : string) (show : bool) (frm : form) : form :=
  set_df_property fieldname "hidden" (negb show) frm.

Definition toggle_enable (fieldname : string) (enable : bool) (frm : form) : form :=
  set_df_property fieldname "read_only" (negb enable) frm.

(** [toggle_reference_doc] *)
Definition toggle_reference_doc (frm : form) : form :=
  if truthy (doc frm !! "purchase_receipt") && truthy (doc frm !! "purchase_invoice")
     && strict_eq (doc frm !! "docstatus") (Some (VNum 1))
  then
    set_df_property "purchase_receipt" "read_only" true
      (set_df_property "purchase_invoice" "read_only" true frm)
  else if truthy (doc frm !! "is_existing_asset") || truthy (doc frm !! "is_composite_asset")
  then
    toggle_reqd "purchase_invoice" false (toggle_reqd "purchase_receipt" false frm)
  else if truthy (doc frm !! "purchase_receipt")
  then
    set_df_property "purchase_invoice" "read_only" true
      (toggle_reqd "purchase_invoice" false frm)
  else if truthy (doc frm !! "purchase_invoice")
  then
    set_df_property "purchase_receipt" "read_only" true
      (toggle_reqd "purchase_receipt" false frm)
  else
    set_df_property "purchase_invoice" "read_only" false
      (toggle_reqd "purchase_invoice" true
        (set_df_property "purchase_receipt" "read_only" false
          (toggle_reqd "purchase_receipt" true frm))).

(** Purchase documents as [frappe.db.get_doc] returns them. A field the
    document type does not have ([bill_date] on a Purchase Receipt) is
    the empty string. *)
Record purchase_item := PurchaseItem {
  item_code : string;
  qty : Q;
  valuation_rate : Q;
  cost_center : string;
  asset_location : string
}.

Record purchase_doc := PurchaseDoc {
  company : string;
  bill_date : string;
  posting_date : string;
  doc_cost_center : string;
  items : list purchase_item
}.

(** *** Handlers of the Asset form and of its child tables

    The handlers call [frm.set_value] and [frappe.model.set_value] of the
    framework, which write the field and run the change handler registered
    for it, which may set further fields.  The handlers are therefore
    written against the setter they are given ([frm_sv] for fields of the
    document, [model_sv] for fields of a finance book row); the setters
    themselves are defined afterwards, with a budget of nested handler
    runs. *)

Section Handlers.
Context `{Framework}.

Variable frm_sv : string -> value -> form -> result.

(** [set_depreciation_rate(frm, row)], the row given by its position. The
    remote call is recorded; its answer comes back through
    [get_depreciation_rate_callback]. *)
Definition set_depreciation_rate (i : nat) (frm : form) : result :=
  match finance_books frm !! i with
  | None => Thrown frm
  | Some row =>
      if truthy_num (total_number_of_depreciations row)
         && truthy_num (frequency_of_depreciation row)
         && truthy_number (expected_value_after_useful_life row)
      then Ok (emit (Call "get_depreciation_rate" i) frm)
      else Ok frm
  end.

(** [frm.doc.finance_books.forEach(d => set_depreciation_rate(frm, d))] *)
Fixpoint for_each_row (rows : list nat) (frm : form) : result :=
  match rows with
  | [] => Ok frm
  | i :: rest => let* frm := set_depreciation_rate i frm in for_each_row rest frm
  end.

(** The [gross_purchase_amount] field-change handler. *)
Definition on_gross_purchase_amount (frm : form) : result :=
  for_each_row (seq 0 (length (finance_books frm))) frm.

(** The [purchase_receipt] and [purchase_invoice] field-change handlers
    have the same body up to the document type and the field name. *)
Definition reference_changed (doctype fieldname : string) (frm : form) : result :=
  let frm := toggle_reference_doc frm in
  if truthy (doc frm !! fieldname) then
    if truthy (doc frm !! "item_code") then
      Ok (emit (GetDoc doctype (str_of (doc frm !! fieldname))) frm)
    else
      let* frm := frm_sv fieldname (VStr "") frm in
      Ok (emit (Msgprint {| title := "Not Allowed";
                            message := "Please select Item Code first";
                            indicator := "" |}) frm)
  else Ok frm.

Definition on_purchase_receipt : form -> result :=
  reference_changed "Purchase Receipt" "purchase_receipt".

Definition on_purchase_invoice : form -> result :=
  reference_changed "Purchase Invoice" "purchase_invoice".

(** [set_values_from_purchase_doc(frm, doctype, purchase_doc)], up to the
    request for the item's [is_grouped_asset]. When no item of the
    purchase document matches, [item] is [undefined] and reading
    [item.item_code] for the request throws. *)
Definition set_values_from_purchase_doc
    (frm : form) (doctype : string) (purchase_doc : purchase_doc) : result :=
  let* frm := frm_sv "company" (VStr (company purchase_doc)) frm in
  let* frm := (if truthy_str (bill_date purchase_doc)
              then frm_sv "purchase_date" (VStr (bill_date purchase_doc)) frm
              else frm_sv "purchase_date" (VStr (posting_date purchase_doc)) frm) in
  let* frm := (if negb (truthy (doc frm !! "is_existing_asset"))
                 && negb (truthy (doc frm !! "available_for_use_date"))
              then frm_sv "available_for_use_date"
                     (VStr (str_of (doc frm !! "purchase_date"))) frm
              else Ok frm) in
  match find (fun item => strict_eq (Some (VStr (item_code item))) (doc frm !! "item_code"))
             (items purchase_doc) with
  | None =>
      let doctype_field := scrub doctype in
      let* frm := frm_sv doctype_field (VStr "") frm in
      let frm := emit (Msgprint {| title := fmt1 "Invalid " doctype "";
                                   message := fmt1 "The selected " doctype
                                     " does not contain the selected Asset Item.";
                                   indicator := "red" |}) frm in
      Thrown frm
  | Some item =>
      Ok (emit (GetValue "Item" (item_code item) "is_grouped_asset") frm)
  end.

(** The callback of that request, for the matching [item] and the value
    [r.is_grouped_asset] the server answered. *)
Definition is_grouped_asset_callback
    (frm : form) (purchase_doc : purchase_doc) (item : purchase_item)
    (is_grouped_asset : option value) : result :=
  let asset_quantity := if truthy is_grouped_asset then qty item else 1%Q in
  let purchase_amount :=
    flt_round (valuation_rate item * asset_quantity) (precision "gross_purchase_amount") in
  let* frm := frm_sv "gross_purchase_amount" (VNum purchase_amount) frm in
  let* frm := frm_sv "purchase_receipt_amount" (VNum purchase_amount) frm in
  let* frm := frm_sv "asset_quantity" (VNum asset_quantity) frm in
  let* frm := frm_sv "cost_center"
               (VStr (if truthy_str (cost_center item) then cost_center item
                      else doc_cost_center purchase_doc)) frm in
  if truthy_str (asset_location item)
  then frm_sv "location" (VStr (asset_location item)) frm
  else Ok frm.

(** The handler the form registers for a field of the document, for the
    fields the functions above set. Fields without a handler in the
    script, and [company], whose handler only updates the accounting
    dimension filters, leave the form as it is. (The handlers of
    [item_code], [calculate_depreciation] and [is_composite_asset] are not
    reached: nothing above sets those fields.) *)
Definition asset_handler (fieldname : string) (frm : form) : result :=
  if fieldname =? "purchase_receipt" then on_purchase_receipt frm
  else if fieldname =? "purchase_invoice" then on_purchase_invoice frm
  else if fieldname =? "gross_purchase_amount" then on_gross_purchase_amount frm
  else if fieldname =? "is_existing_asset" then Ok (toggle_reference_doc frm)
  else Ok frm.

End Handlers.

(** Modelled from the spec: [frm.set_value(fieldname, value)] belongs to
    the host framework, whose code is not part of the scripts. It writes
    the field and then runs the field's change handler inside the call
    (the re-entrant field-change handlers of the spec's section 5), when
    [fires] says so. [fuel] bounds the depth of handlers setting fields in
    turn. *)
Fixpoint frm_set_value `{Framework} (fuel : nat) (fieldname : string) (v : value)
    (frm : form) : result :=
  match fuel with
  | O => OutOfFuel
  | S fuel =>
      let old := doc frm !! fieldname in
      let frm := set_doc (<[fieldname := v]> (doc frm)) frm in
      if fires old v
      then asset_handler (frm_set_value fuel) fieldname frm
      else Ok frm
  end.

(** *** Handlers of the Asset Finance Book rows *)

(** The fields of a finance book row that the script sets itself. *)
Inductive fb_field :=
| SalvageValuePercentage
| ExpectedValueAfterUsefulLife
| RateOfDepreciation.

Definition fb_field_name (f : fb_field) : string :=
  match f with
  | SalvageValuePercentage => "salvage_value_percentage"
  | ExpectedValueAfterUsefulLife => "expected_value_after_useful_life"
  | RateOfDepreciation => "rate_of_depreciation"
  end.

Definition fb_get (f : fb_field) (row : finance_book) : number :=
  match f with
  | SalvageValuePercentage => salvage_value_percentage row
  | ExpectedValueAfterUsefulLife => expected_value_after_useful_life row
  | RateOfDepreciation => rate_of_depreciation row
  end.

Definition fb_set (f : fb_field) (v : number) (row : finance_book) : finance_book :=
  {| depreciation_method := depreciation_method row;
     shift_based := shift_based row;
     total_number_of_depreciations := total_number_of_depreciations row;
     frequency_of_depreciation := frequency_of_depreciation row;
     expected_value_after_useful_life :=
       match f with ExpectedValueAfterUsefulLife => v
                  | _ => expected_value_after_useful_life row end;
     salvage_value_percentage :=
       match f with SalvageValuePercentage => v
                  | _ => salvage_value_percentage row end;
     rate_of_depreciation :=
       match f with RateOfDepreciation => v
                  | _ => rate_of_depreciation row end;
     depreciation_start_date := depreciation_start_date row |}.

(** The two entries of [frappe.flags] the script uses. *)
Definition from_set_salvage : string :=
  "from_set_salvage_value_percentage_or_expected_value_after_useful_life".
Definition dont_change_rate : string := "dont_change_rate".

Section FinanceBookHandlers.
Context `{Framework}.

Variable model_sv : nat -> fb_field -> number -> form -> result.

(** [set_salvage_value_percentage_or_expected_value_after_useful_life] *)
Definition set_salvage_value_percentage_or_expected_value_after_useful_life
    (frm : form) (i : nat)
    (salvage_value_percentage_changed expected_value_after_useful_life_changed : bool)
    : result :=
  if expected_value_after_useful_life_changed then
    let frm := set_flag from_set_salvage true frm in
    match finance_books frm !! i with
    | None => Thrown frm
    | Some row =>
        let new_salvage_value_percentage :=
          flt_number
            (num_div (num_mul (expected_value_after_useful_life row) (Fin 100))
                     (number_of (doc frm !! "gross_purchase_amount")))
            (precision "salvage_value_percentage") in
        let* frm := model_sv i SalvageValuePercentage new_salvage_value_percentage frm in
        Ok (set_flag from_set_salvage false frm)
    end
  else if salvage_value_percentage_changed then
    let frm := set_flag from_set_salvage true frm in
    match finance_books frm !! i with
    | None => Thrown frm
    | Some row =>
        let new_expected_value_after_useful_life :=
          flt_number
            (num_mul (number_of (doc frm !! "gross_purchase_amount"))
                     (num_div (salvage_value_percentage row) (Fin 100)))
            (precision "gross_purchase_amount") in
        let* frm := model_sv i ExpectedValueAfterUsefulLife
                      new_expected_value_after_useful_life frm in
        Ok (set_flag from_set_salvage false frm)
    end
  else Ok frm.

(** The [expected_value_after_useful_life] handler of a row. *)
Definition on_expected_value_after_useful_life (i : nat) (frm : form) : result :=
  let* frm :=
    (if negb (flag frm from_set_salvage)
     then set_salvage_value_percentage_or_expected_value_after_useful_life frm i false true
     else Ok frm) in
  set_depreciation_rate i frm.

(** The [salvage_value_percentage] handler of a row. *)
Definition on_salvage_value_percentage (i : nat) (frm : form) : result :=
  if negb (flag frm from_set_salvage)
  then set_salvage_value_percentage_or_expected_value_after_useful_life frm i true false
  else Ok frm.

(** The [rate_of_depreciation] handler of a row. *)
Definition on_rate_of_depreciation (i : nat) (frm : form) : result :=
  let* frm :=
    (if negb (flag frm dont_change_rate)
     then model_sv i ExpectedValueAfterUsefulLife (Fin 0) frm
     else Ok frm) in
  Ok (set_flag dont_change_rate false frm).


(** The handler registered for a field of a finance book row. *)
Definition finance_book_handler (f : fb_field) (i : nat) (frm : form) : result :=
  match f with
  | SalvageValuePercentage => on_salvage_value_percentage i frm
  | ExpectedValueAfterUsefulLife => on_expected_value_after_useful_life i frm
  | RateOfDepreciation => on_rate_of_depreciation i frm
  end.

End FinanceBookHandlers.

(** Modelled from the spec:
    [frappe.model.set_value(row.doctype, row.name, fieldname, value)]
    belongs to the host framework, whose code is not part of the scripts.
    On a finance book row: the call is recorded, the row is written, and
    the handler of the field runs inside the call (the re-entrant
    field-change handlers of the spec's section 5, which the flags of
    [frappe.flags] are there to suppress), when [fires_number] says so. A row
    that does not exist is not written and runs no handler. [fuel] bounds
    the depth of handlers setting fields in turn. *)
Fixpoint model_set_value `{Framework} (fuel : nat) (i : nat) (f : fb_field)
    (v : number) (frm : form) : result :=
  match fuel with
  | O => OutOfFuel
  | S fuel =>
      let frm := emit (ModelSetValue i (fb_field_name f) v) frm in
      match finance_books frm !! i with
      | None => Ok frm
      | Some row =>
          let frm := set_finance_books (<[i := fb_set f v row]> (finance_books frm)) frm in
          if fires_number (fb_get f row) v
          then finance_book_handler (model_set_value fuel) f i frm
          else Ok frm
      end
  end.

(** The form a run leaves behind; [frm] when the budget ran out. *)
Definition form_after (r : result) (frm : form) : form :=
  match r with
  | Ok frm' | Thrown frm' => frm'
  | OutOfFuel => frm
  end.

(** *** Depreciation Schedule rows *)

Definition set_accumulated_depreciation_amount (v : Q) (row : schedule) : schedule :=
  {| finance_book_id := finance_book_id row;
     schedule_date := schedule_date row;
     depreciation_amount := depreciation_amount row;
     accumulated_depreciation_amount := v;
     journal_entry := journal_entry row |}.

(** [frm.doc.finance_books[Number(finance_book_id) - 1]]: [undefined]
    outside the array. *)
Definition finance_book_of (frm : form) (id : Z) : option finance_book :=
  if (1 <=? id)%Z then finance_books frm !! Z.to_nat (id - 1) else None.

Section Depreciation.

(** [a + b] on two numbers of the schedule: the addition of doubles, whose
    result is the double nearest to the sum, and is written to the row as
    it is, without rounding to a precision. *)
Variable add : Q -> Q -> Q.

(** The loop of [set_accumulated_depreciation] over [frm.doc.schedules],
    with the running total [accumulated_depreciation]. The script registers
    no handler for [accumulated_depreciation_amount], so setting it is the
    write alone. *)
Fixpoint accumulate (id : Z) (accumulated_depreciation : Q) (rows : list schedule)
    : list schedule :=
  match rows with
  | [] => []
  | row :: rest =>
      if (finance_book_id row =? id)%Z then
        let accumulated_depreciation :=
          add accumulated_depreciation (depreciation_amount row) in
        set_accumulated_depreciation_amount accumulated_depreciation row
          :: accumulate id accumulated_depreciation rest
      else row :: accumulate id accumulated_depreciation rest
  end.

(** [erpnext.asset.set_accumulated_depreciation(frm, finance_book_id)];
    reading [depreciation_method] of [undefined] throws. *)
Definition set_accumulated_depreciation (frm : form) (id : Z) : result :=
  match finance_book_of frm id with
  | None => Thrown frm
  | Some book =>
      if negb (depreciation_method book =? "Manual") then Ok frm
      else
        let accumulated_depreciation := flt (doc frm !! "opening_accumulated_depreciation") in
        Ok (set_schedules (accumulate id accumulated_depreciation (schedules frm)) frm)
  end.

(** The [depreciation_amount] handler of a schedule row. *)
Definition on_depreciation_amount (frm : form) (i : nat) : result :=
  match schedules frm !! i with
  | None => Thrown frm
  | Some row => set_accumulated_depreciation frm (finance_book_id row)
  end.

(** What the accumulated amount is specified by: [start] plus the
    [depreciation_amount] of the rows of [rows] that belong to finance
    book [id], added one after the other in list order. *)
Definition running_total (id : Z) (start : Q) (rows : list schedule) : Q :=
  fold_left add
    (map depreciation_amount
       (List.filter (fun row => (finance_book_id row =? id)%Z) rows))
    start.

End Depreciation.

(** Two schedule rows that differ at most in the accumulated amount they
    hold. *)
Definition same_but_accumulated (row1 row2 : schedule) : Prop :=
  row2 = set_accumulated_depreciation_amount (accumulated_depreciation_amount row2) row1.

(** The exact total of [depreciation_amount] over the rows of [rows] that
    belong to finance book [id]. *)
Fixpoint depreciation_total (id : Z) (rows : list schedule) : Q :=
  match rows with
  | [] => 0
  | row :: rest =>
      if (finance_book_id row =? id)%Z
      then depreciation_amount row + depreciation_total id rest
      else depreciation_total id rest
  end.

(** *** The asset value chart *)

(** An entry of the answer of [get_manual_depreciation_entries]. *)
Record depr_entry := DeprEntry { entry_posting_date : string; entry_value : Q }.

(** What [(await frappe.call({method: "get_manual_depreciation_entries",
    ..})).message] meets: the call is rejected, or resolves to no response
    object, and the expression throws; or the call resolves to a response
    whose [message] holds the entries, if it holds anything. *)
Inductive call_reply :=
| Rejected
| Resolved (message : option (list depr_entry)).

(** [depr_entries || []] for the [message] of a response. *)
Definition entries_of (reply : call_reply) : list depr_entry :=
  match reply with
  | Resolved (Some l) => l
  | _ => []
  end.

(** The two arrays [x_intervals] and [asset_values] the chart is built in;
    [None] is the JS [null]. *)
Definition series : Type := list string * list (option Q).

(** [x_intervals.push(label); asset_values.push(v)] *)
Definition push (c : series) (label : string) (v : option Q) : series :=
  ((fst c ++ [label])%list, (snd c ++ [v])%list).

(** [s.split(" ")[0]] *)
Fixpoint first_word (s : string) : string :=
  match s with
  | EmptyString => EmptyString
  | String c rest =>
      if (Ascii.nat_of_ascii c =? 32)%nat then EmptyString
      else String c (first_word rest)
  end.

(** [in_list(["Scrapped", "Sold"], frm.doc.status)] *)
Definition disposed (frm : form) : bool :=
  in_list ["Scrapped"; "Sold"] (str_of (doc frm !! "status")).

Section Chart.
Context `{Framework}.

(** [flt(frm.doc.gross_purchase_amount - x, precision('gross_purchase_amount'))] *)
Definition value_after (frm : form) (x : Q) : Q :=
  flt_round (flt (doc frm !! "gross_purchase_amount") - x)
            (precision "gross_purchase_amount").

(** The body of the loop over [frm.doc.schedules]. *)
Definition push_schedule (frm : form) (c : series) (v : schedule) : series :=
  let asset_value := value_after frm (accumulated_depreciation_amount v) in
  if truthy_str (journal_entry v) then
    push c (format_date (schedule_date v)) (Some asset_value)
  else if disposed frm then
    push c (format_date (schedule_date v)) None
  else
    push c (format_date (schedule_date v)) (Some asset_value).

(** The body of the loop over the manual depreciation entries; the last
    value pushed so far is read back from [asset_values]. *)
Definition push_entry (c : series) (v : depr_entry) : series :=
  let last_asset_value :=
    match List.last (snd c) None with Some x => x | None => 0%Q end in
  push c (format_date (entry_posting_date v))
    (Some (flt_round (last_asset_value - entry_value v)
                     (precision "gross_purchase_amount"))).

(** The series before the disposal point; [None] when the function
    throws: on [frm.doc.finance_books[0]] being [undefined], on
    [frm.doc.creation] not being a string, whose [split] is called, or on
    the [await] of a call that fails. The call is made only when
    depreciation is not calculated, after the opening point is pushed. *)
Definition chart_body (frm : form) (reply : call_reply) : option series :=
  let c : series :=
    ([format_date (str_of (doc frm !! "purchase_date"))],
     [Some (flt (doc frm !! "gross_purchase_amount"))]) in
  if truthy (doc frm !! "calculate_depreciation") then
    let opening : option series :=
      if truthy (doc frm !! "opening_accumulated_depreciation") then
        match finance_books frm !! 0%nat with
        | None => None
        | Some book =>
            let depreciation_date :=
              add_months (depreciation_start_date book)
                         (-1 * frequency_of_depreciation book) in
            Some (push c (format_date depreciation_date)
                    (Some (value_after frm
                             (flt (doc frm !! "opening_accumulated_depreciation")))))
        end
      else Some c in
    match opening with
    | None => None
    | Some c => Some (fold_left (push_schedule frm) (schedules frm) c)
    end
  else
    let opening : option series :=
      if truthy (doc frm !! "opening_accumulated_depreciation") then
        match doc frm !! "creation" with
        | Some (VStr creation) =>
            Some (push c (format_date (first_word creation))
                    (Some (value_after frm
                             (flt (doc frm !! "opening_accumulated_depreciation")))))
        | _ => None
        end
      else Some c in
    match opening, reply with
    | Some c, Resolved message =>
        Some (fold_left push_entry
                (match message with Some l => l | None => [] end) c)
    | _, _ => None
    end.

(** [setup_chart(frm)]; [reply] is the outcome of the call of
    [get_manual_depreciation_entries], made only when depreciation is not
    calculated. *)
Definition setup_chart (frm : form) (reply : call_reply) : result :=
  if (1 <? length (finance_books frm))%nat then Ok frm
  else
    match chart_body frm reply with
    | None => Thrown frm
    | Some c =>
        let c :=
          if disposed frm
          then push c (format_date (str_of (doc frm !! "disposal_date"))) (Some 0%Q)
          else c in
        Ok (emit (RenderGraph (fst c) (snd c)) frm)
    end.

(** *** Refresh *)

Definition add_custom_button (label group : string) (frm : form) : form :=
  emit (AddCustomButton label group) frm.

(** [frm.fields_dict[table].grid.toggle_enable(column, enable)] *)
Definition grid_toggle_enable (table column : string) (enable : bool) (frm : form) : form :=
  toggle_enable (table ++ "." ++ column) enable frm.

(** [make_schedules_editable] *)
Definition make_schedules_editable (frm : form) : form :=
  if (0 <? length (finance_books frm))%nat then
    let is_manual_hence_editable :=
      existsb (fun d => depreciation_method d =? "Manual") (finance_books frm) in
    let is_shift_hence_editable :=
      existsb (fun d => truthy_num (shift_based d)) (finance_books frm) in
    let frm := toggle_enable "schedules"
                 (is_manual_hence_editable || is_shift_hence_editable) frm in
    let frm := grid_toggle_enable "schedules" "schedule_date" is_manual_hence_editable frm in
    let frm := grid_toggle_enable "schedules" "depreciation_amount"
                 is_manual_hence_editable frm in
    grid_toggle_enable "schedules" "shift" is_shift_hence_editable frm
  else frm.

(** The part of [refresh] that runs for a submitted asset, up to the
    chart. [d] is [frm.doc], the same object throughout. *)
Definition refresh_submitted (frm : form) : form :=
  let d := doc frm in
  let frm :=
    if in_list ["Submitted"; "Partially Depreciated"; "Fully Depreciated"]
               (str_of (d !! "status")) then
      add_custom_button "Sell Asset" "Manage"
        (add_custom_button "Scrap Asset" "Manage"
          (add_custom_button "Transfer Asset" "Manage" frm))
    else if str_of (d !! "status") =? "Scrapped" then
      add_custom_button "Restore Asset" "Manage" frm
    else frm in
  let frm :=
    if truthy (d !! "maintenance_required")
       && negb (truthy (d !! "maintenance_schedule"))
    then add_custom_button "Maintain Asset" "Manage" frm else frm in
  let frm := add_custom_button "Repair Asset" "Manage" frm in
  let frm := add_custom_button "Split Asset" "Manage" frm in
  let frm :=
    if negb (str_of (d !! "status") =? "Fully Depreciated")
    then add_custom_button "Adjust Asset Value" "Manage" frm else frm in
  let frm :=
    if negb (truthy (d !! "calculate_depreciation"))
    then add_custom_button "Create Depreciation Entry" "Manage" frm else frm in
  let frm :=
    if truthy (d !! "purchase_receipt") || negb (truthy (d !! "is_existing_asset"))
    then add_custom_button "View General Ledger" "Manage" frm else frm in
  if strict_eq (d !! "depr_entry_posting_status") (Some (VStr "Failed"))
  then emit HeadlineAlert frm else frm.

(** [refresh(frm)]. [setup_chart] is asynchronous: when it throws, its
    promise is rejected and [refresh] goes on with the form as it was. *)
Definition refresh (frm : form) (reply : call_reply) : form :=
  let d := doc frm in
  let frm := toggle_reference_doc frm in
  let frm := toggle_display "next_depreciation_date"
               (num_lt (flt (d !! "docstatus")) 1) frm in
  let frm := make_schedules_editable frm in
  let frm :=
    if Qeq_bool (flt (d !! "docstatus")) 1 then
      let frm := refresh_submitted frm in
      match setup_chart frm reply with
      | Ok frm => frm
      | Thrown frm => frm
      | OutOfFuel => frm
      end
    else frm in
  let frm := toggle_reference_doc frm in
  if Qeq_bool (flt (d !! "docstatus")) 0 then
    let frm := toggle_reqd "finance_books" (truthy (d !! "calculate_depreciation")) frm in
    if truthy (d !! "is_composite_asset") && negb (truthy (d !! "capitalized_in"))
    then
      add_custom_button "Capitalize Asset" ""
        (emit (FormMessage "Capitalize this asset to confirm")
          (emit HidePrimaryAction frm))
    else frm
  else frm.

End Chart.

(** *** Status values *)

(** The statuses the data model lists for an Asset, and the same list
    with "Partially Depreciated". *)
Definition listed_statuses : list string :=
  ["Draft"; "Submitted"; "Scrapped"; "Sold"; "Fully Depreciated"].

Definition tested_statuses : list string :=
  "Partially Depreciated" :: listed_statuses.

(** Where a status stands with respect to an enumeration: it is that
    member of it, or it is outside. *)
Definition status_class (enumeration : list string) (s : string) : option string :=
  if in_list enumeration s then Some s else None.

(** The four tests the script makes on [frm.doc.status]: two in [refresh]
    for the buttons, one for "Adjust Asset Value", one in [setup_chart]. *)
Definition status_tests (s : string) : bool * bool * bool * bool :=
  (in_list ["Submitted"; "Partially Depreciated"; "Fully Depreciated"] s,
   s =? "Scrapped", s =? "Fully Depreciated", in_list ["Scrapped"; "Sold"] s).

(** The form with [frm.doc.status] replaced. *)
Definition with_status (s : string) (frm : form) : form :=
  set_doc (<["status" := VStr s]> (doc frm)) frm.

(** *** Further handlers of the Asset form and of the finance book rows *)

Definition set_depreciation_start_date (date : string) (row : finance_book)
    : finance_book :=
  {| depreciation_method := depreciation_method row;
     shift_based := shift_based row;
     total_number_of_depreciations := total_number_of_depreciations row;
     frequency_of_depreciation := frequency_of_depreciation row;
     expected_value_after_useful_life := expected_value_after_useful_life row;
     salvage_value_percentage := salvage_value_percentage row;
     rate_of_depreciation := rate_of_depreciation row;
     depreciation_start_date := date |}.

Section MoreHandlers.
Context `{Framework}.

Variable frm_sv : string -> value -> form -> result.

(** JS [Number(s)] of a string, [None] for [NaN]. *)
Variable to_number : string -> option Q.

(** [s == v] for a string [s] and a field read [v]: strings compare as
    strings, a number compares with the number the string converts to,
    and [undefined] equals no string. *)
Definition loose_eq_str (s : string) (v : option value) : bool :=
  match v with
  | Some (VStr t) => s =? t
  | Some (VNum q) =>
      match to_number s with Some p => Qeq_bool p q | None => false end
  | None => false
  end.

(** The [depreciation_start_date] handler of a finance book row. The row
    is read only once [frm.doc.available_for_use_date] is found truthy;
    the date is cleared by plain assignment, which runs no handler. *)
Definition on_depreciation_start_date (i : nat) (frm : form) : result :=
  if truthy (doc frm !! "available_for_use_date") then
    match finance_books frm !! i with
    | None => Thrown frm
    | Some book =>
        if loose_eq_str (depreciation_start_date book)
                        (doc frm !! "available_for_use_date")
        then
          let frm :=
            emit (Msgprint
                    {| title := "";
                       message := "Depreciation Posting Date should not be equal to Available for Use Date.";
                       indicator := "" |}) frm in
          Ok (set_finance_books
                (<[i := set_depreciation_start_date "" book]> (finance_books frm)) frm)
        else Ok frm
    end
  else Ok frm.

(** The [is_composite_asset] field-change handler. *)
Definition on_is_composite_asset (frm : form) : result :=
  let* frm :=
    (if truthy (doc frm !! "is_composite_asset") then
       let* frm := frm_sv "gross_purchase_amount" (VNum 0) frm in
       Ok (set_df_property "gross_purchase_amount" "read_only" true frm)
     else
       Ok (set_df_property "gross_purchase_amount" "read_only" false frm)) in
  Ok (toggle_reference_doc frm).

End MoreHandlers.

(** The rows [set_depreciation_rate] asks the server about: those with a
    number of depreciations, a frequency and an expected value. *)
Definition wants_rate (row : finance_book) : bool :=
  truthy_num (total_number_of_depreciations row)
  && truthy_num (frequency_of_depreciation row)
  && truthy_number (expected_value_after_useful_life row).

(** The values the manual depreciation entries leave, each the one before
    minus the entry's amount, rounded by [round]. *)
Fixpoint running_values (round : Q -> Q) (start : Q) (entries : list depr_entry)
    : list Q :=
  match entries with
  | [] => []
  | v :: rest =>
      let next := round (start - entry_value v)%Q in
      next :: running_values round next rest
  end.

End Asset.

(** ** Sales Order controller (the second script of asset.js) *)

Module SalesOrder.
Import Frappe.

(** A row of the Sales Order Item child table. *)
Record so_item := SoItem {
  name : string;
  item_code : string;
  item_name : string;
  uom : string;
  supplier : string;
  qty : Q;
  delivered_qty : Q;
  delivered_by_supplier : Q;
  stock_qty : Q;
  ordered_qty : Q;
  conversion_factor : Q
}.

(** A row of the Packed Item child table. *)
Record packed_item := PackedItem {
  parent_detail_docname : string;
  packed_ordered_qty : Q
}.

Record form := Form {
  doc : gmap string value;
  items : list so_item;
  packed_items : list packed_item;
  trace : list effect
}.

Definition add_custom_button (label group : string) (frm : form) : form :=
  {| doc := doc frm; items := items frm; packed_items := packed_items frm;
     trace := trace frm ++ [AddCustomButton label group] |}.

(** [list.indexOf(doc.fieldname) !== -1] on a list of string literals. *)
Definition index_of_found (l : list string) (v : option value) : bool :=
  existsb (fun s => strict_eq (Some (VStr s)) v) l.

Section Controller.
Context `{Framework}.

(** [this.frm.has_perm("submit")] and
    [frappe.boot.sysdefaults.over_billing_allowance]. *)
Variable has_perm_submit : bool.
Variable over_billing_allowance : Q.

(** [flt(doc.per_delivered, 6) < 100 || flt(doc.per_billed) < 100] *)
Definition not_fully_delivered_or_billed (d : gmap string value) : bool :=
  num_lt (flt_round (flt (d !! "per_delivered")) 6) 100
  || num_lt (flt (d !! "per_billed")) 100.

(** The buttons added when the order is neither closed nor on hold. [d] is
    the document [doc], the same object throughout the method. *)
Definition refresh_open (frm : form) : form :=
  let d := doc frm in
  let allow_delivery :=
    existsb (fun item => Qeq_bool (delivered_by_supplier item) 0
                         && num_gt (qty item) (delivered_qty item)) (items frm)
    && negb (truthy (d !! "skip_delivery_note")) in
  let frm :=
    if has_perm_submit then
      if not_fully_delivered_or_billed d then
        add_custom_button "Close" "Status" (add_custom_button "Hold" "Status" frm)
      else frm
    else frm in
  let frm :=
    if num_lt (flt_round (flt (d !! "per_picked")) 6) 100
       && num_lt (flt_round (flt (d !! "per_delivered")) 6) 100
    then add_custom_button "Pick List" "Create" frm else frm in
  let order_is_a_sale :=
    index_of_found ["Sales"; "Shopping Cart"] (d !! "order_type") in
  let order_is_maintenance :=
    index_of_found ["Maintenance"] (d !! "order_type") in
  let order_is_a_custom_sale :=
    negb (index_of_found ["Sales"; "Shopping Cart"; "Maintenance"] (d !! "order_type")) in
  let frm :=
    if num_lt (flt_round (flt (d !! "per_delivered")) 6) 100
       && (order_is_a_sale || order_is_a_custom_sale) && allow_delivery
    then add_custom_button "Work Order" "Create"
           (add_custom_button "Delivery Note" "Create" frm)
    else frm in
  let frm :=
    if num_lt (flt_round (flt (d !! "per_billed")) 6) 100
    then add_custom_button "Sales Invoice" "Create" frm else frm in
  let frm :=
    if negb (truthy (d !! "order_type"))
       || ((order_is_a_sale || order_is_a_custom_sale)
           && num_lt (flt_round (flt (d !! "per_delivered")) 6) 100)
    then add_custom_button "Request for Raw Materials" "Create"
           (add_custom_button "Material Request" "Create" frm)
    else frm in
  let frm :=
    if negb (truthy (d !! "is_internal_customer"))
    then add_custom_button "Purchase Order" "Create" frm else frm in
  let frm :=
    if num_lt (flt_round (flt (d !! "per_delivered")) 2) 100
       && (order_is_maintenance || order_is_a_custom_sale)
    then add_custom_button "Maintenance Schedule" "Create"
           (add_custom_button "Maintenance Visit" "Create" frm)
    else frm in
  let frm :=
    if num_lt (flt_round (flt (d !! "per_delivered")) 2) 100
    then add_custom_button "Project" "Create" frm else frm in
  let frm :=
    if negb (truthy (d !! "auto_repeat"))
    then add_custom_button "Subscription" "Create" frm else frm in
  if strict_eq (d !! "docstatus") (Some (VNum 1))
     && negb (truthy (d !! "inter_company_order_reference"))
  then
    if truthy (d !! "is_internal_customer") then
      let button_label :=
        if strict_eq (d !! "company") (d !! "represents_company")
        then "Internal Purchase Order" else "Inter Company Purchase Order" in
      add_custom_button button_label "Create" frm
    else frm
  else frm.

(** [SalesOrderController.refresh(doc)]: the custom buttons this method
    adds. The buttons of the parent controller ([super.refresh()]) and the
    [reqd] toggle of [order_type] are not part of the trace. *)
Definition refresh (frm : form) : form :=
  let d := doc frm in
  let frm :=
    if Qeq_bool (flt (d !! "docstatus")) 1 then
      let frm :=
        if has_perm_submit then
          if strict_eq (d !! "status") (Some (VStr "On Hold")) then
            let frm := add_custom_button "Resume" "Status" frm in
            if not_fully_delivered_or_billed d
            then add_custom_button "Close" "Status" frm else frm
          else if strict_eq (d !! "status") (Some (VStr "Closed")) then
            add_custom_button "Re-open" "Status" frm
          else frm
        else frm in
      if negb (strict_eq (d !! "status") (Some (VStr "Closed"))) then
        let frm :=
          if negb (strict_eq (d !! "status") (Some (VStr "On Hold")))
          then refresh_open frm else frm in
        if num_lt (flt_round (flt (d !! "per_billed")) (precision "per_billed"))
                  (100 + over_billing_allowance)
        then add_custom_button "Payment" "Create"
               (add_custom_button "Payment Request" "Create" frm)
        else frm
      else frm
    else frm in
  if strict_eq (d !! "docstatus") (Some (VNum 0))
  then add_custom_button "Quotation" "Get Items From" frm
  else frm.

End Controller.

(** Whether a refresh offers a button. *)
Definition offers (frm : form) (label group : string) : Prop :=
  In (AddCustomButton label group) (trace frm).

(** *** make_purchase_order *)

(** A row of the item selection dialog. *)
Record po_item := PoItem {
  po_name : string;
  po_item_name : string;
  po_item_code : string;
  pending_qty : Q;
  po_uom : string;
  po_supplier : string
}.

(** [make_purchase_order] either throws the message given to
    [frappe.throw], or shows the dialog with the rows of its table. *)
Inductive po_outcome := Throws (m : msg) | DialogShown (items_for_po : list po_item).

(** [get_ordered_qty(item, so)] *)
Definition get_ordered_qty (item : so_item) (frm : form) : Q :=
  if (0 <? length (packed_items frm))%nat then
    let packed :=
      filter (fun pi => parent_detail_docname pi = name item) (packed_items frm) in
    if (0 <? length packed)%nat then
      fold_left (fun sum pi => sum + packed_ordered_qty pi)%Q packed 0%Q
      / inject_Z (Z.of_nat (length packed))
    else ordered_qty item
  else ordered_qty item.

(** [set_po_items_data(dialog)] as first run, when the dialog's
    "Against Default Supplier" check still has its default 0. *)
Definition set_po_items_data (frm : form) : list po_item :=
  flat_map (fun d =>
    let ordered := get_ordered_qty d frm in
    let pending := ((stock_qty d - ordered) / conversion_factor d)%Q in
    if num_gt pending 0 then
      [{| po_name := name d; po_item_name := item_name d; po_item_code := item_code d;
          pending_qty := pending; po_uom := uom d; po_supplier := supplier d |}]
    else []) (items frm).

(** [pending_qty > 0] of the check that opens [make_purchase_order]. *)
Definition has_pending_qty (item : so_item) : bool :=
  let pending_qty := (stock_qty item - ordered_qty item)%Q in
  num_gt pending_qty 0.

Definition make_purchase_order (frm : form) : po_outcome :=
  let pending_items := existsb has_pending_qty (items frm) in
  if negb pending_items then
    Throws {| title := "Note";
              message := "Purchase Order already created for all Sales Order items";
              indicator := "" |}
  else DialogShown (set_po_items_data frm).

(** *** Delivery dates *)

(** A Sales Order Item as the delivery date code reads it: [None] is a
    date that is not set on the row. *)
Record delivery_item := DeliveryItem {
  row_name : string;
  delivery_date : option string
}.

(** JS truthiness of a date read. *)
Definition truthy_date (d : option string) : bool :=
  match d with Some s => truthy_str s | None => false end.

(** The [delivery_date] handler of the Sales Order form: every row without
    a delivery date takes [frm.doc.delivery_date]. *)
Definition on_delivery_date (order_date : option string) (rows : list delivery_item)
    : list delivery_item :=
  map (fun d =>
         if negb (truthy_date (delivery_date d))
         then {| row_name := row_name d; delivery_date := order_date |}
         else d) rows.

(** Equality of two dates as a JS [Set] sees them. *)
Definition same_date (a b : option string) : bool :=
  match a, b with
  | None, None => true
  | Some s, Some t => s =? t
  | _, _ => false
  end.

(** [[...new Set(delivery_dates)]]: the first occurrence of each date, in
    order. *)
Definition distinct_dates (dates : list (option string)) : list (option string) :=
  fold_left (fun seen d => if existsb (same_date d) seen then seen
                           else (seen ++ [d])%list) dates [].

(** [make_delivery_note_based_on_delivery_date] either asks which delivery
    dates to take, all of them ticked, or makes the delivery note at
    once. *)
Inductive delivery_outcome :=
| SelectDatesDialog (dates : list (option string))
| MakeDeliveryNote.

(** [selected] is [item_grid.get_selected().length]. *)
Definition make_delivery_note_based_on_delivery_date
    (selected : nat) (rows : list delivery_item) : delivery_outcome :=
  let delivery_dates := distinct_dates (map delivery_date rows) in
  if (selected =? 0)%nat && (1 <? length delivery_dates)%nat
  then SelectDatesDialog delivery_dates
  else MakeDeliveryNote.

End SalesOrder.

(** ** Documents and a framework to run the scripts on *)

Module Examples.
Import Frappe.

(** Rounding half up to [decimals] places. *)
Definition round_half_up (q : Q) (decimals : nat) : Q :=
  let scale := inject_Z (10 ^ Z.of_nat decimals) in
  Qred (inject_Z (Qfloor (q * scale + (1 # 2))) / scale).

(** Spaces become underscores and letters lower case. *)
Definition scrub_char (c : Ascii.ascii) : Ascii.ascii :=
  let n := Ascii.nat_of_ascii c in
  if (n =? 32)%nat then Ascii.ascii_of_nat 95
  else if ((65 <=? n) && (n <=? 90))%nat then Ascii.ascii_of_nat (n + 32)
  else c.

Fixpoint scrub_lower (txt : string) : string :=
  match txt with
  | EmptyString => EmptyString
  | String c rest => String (scrub_char c) (scrub_lower rest)
  end.

(** Two decimals everywhere, dates shown as stored, no calendar
    arithmetic, handlers fired only when the value changes, and a number
    that is not finite left as it is by [flt]. *)
Definition test_framework : Framework :=
  {| flt_round := round_half_up;
     precision := fun _ => 2%nat;
     format_date := fun s => s;
     add_months := fun date _ => date;
     scrub := scrub_lower;
     fires := fun old new => negb (strict_eq old (Some new));
     fires_number := fun old new => negb (number_strict_eq old new);
     flt_not_finite := fun v _ => v |}.

(** The doubles of IEEE 754, as far as they are finite. [binade a], for
    a positive [a], is the exponent [e] with 2^e <= a < 2^(e+1). *)
Definition binade (a : Q) : Z :=
  let e0 := (Z.log2 (Qnum a) - Z.log2 (Zpos (Qden a)))%Z in
  if Qle_bool (2 ^ e0) a then e0 else (e0 - 1)%Z.

(** The exponent of the last place of the double nearest to a positive
    [a]: 53 significant bits, and never below 2^-1074. *)
Definition ulp_exponent (a : Q) : Z := Z.max (binade a - 52) (-1074).

(** The integer nearest to [s]; of two that are as near, the even one. *)
Definition round_half_even (s : Q) : Z :=
  let f := Qfloor s in
  let r := (s - inject_Z f)%Q in
  if Qle_bool r (1 # 2)
  then (if Qeq_bool r (1 # 2) then (if Z.even f then f else f + 1) else f)%Z
  else (f + 1)%Z.

(** The double nearest to a positive rational, ties to the even
    significand. *)
Definition double_pos (a : Q) : Q :=
  inject_Z (round_half_even (a / 2 ^ ulp_exponent a)) * 2 ^ ulp_exponent a.

(** The double nearest to a rational. (Beyond the largest double JS rounds
    to an infinity; the examples stay far from it.) *)
Definition double (x : Q) : Q :=
  if Qeq_bool x 0 then 0
  else Qred (if Qle_bool 0 x then double_pos (Qabs x) else - double_pos (Qabs x)).

(** The addition of doubles of IEEE 754, on finite doubles. *)
Definition double_add (a b : Q) : Q := double (a + b).


(** A finance book and schedule rows for a manually depreciated asset. *)
Definition manual_book : Asset.finance_book :=
  {| Asset.depreciation_method := "Manual";
     Asset.shift_based := 0;
     Asset.total_number_of_depreciations := 3;
     Asset.frequency_of_depreciation := 12;
     Asset.expected_value_after_useful_life := Fin 100;
     Asset.salvage_value_percentage := Fin 10;
     Asset.rate_of_depreciation := Fin 0;
     Asset.depreciation_start_date := "2024-12-31" |}.

Definition straight_line_book : Asset.finance_book :=
  {| Asset.depreciation_method := "Straight Line";
     Asset.shift_based := 0;
     Asset.total_number_of_depreciations := 3;
     Asset.frequency_of_depreciation := 12;
     Asset.expected_value_after_useful_life := Fin 100;
     Asset.salvage_value_percentage := Fin 10;
     Asset.rate_of_depreciation := Fin 0;
     Asset.depreciation_start_date := "2024-12-31" |}.

(** A finance book whose salvage percentage is out of date: the expected
    value is 100 of a gross purchase amount of 1000, the percentage 0. *)
Definition stale_book : Asset.finance_book :=
  {| Asset.depreciation_method := "Straight Line";
     Asset.shift_based := 0;
     Asset.total_number_of_depreciations := 3;
     Asset.frequency_of_depreciation := 12;
     Asset.expected_value_after_useful_life := Fin 100;
     Asset.salvage_value_percentage := Fin 0;
     Asset.rate_of_depreciation := Fin 0;
     Asset.depreciation_start_date := "2024-12-31" |}.


Definition row (id : Z) (date : string) (amount accumulated : Q) (je : string)
    : Asset.schedule :=
  {| Asset.finance_book_id := id;
     Asset.schedule_date := date;
     Asset.depreciation_amount := amount;
     Asset.accumulated_depreciation_amount := accumulated;
     Asset.journal_entry := je |}.

Definition asset_doc (status : string) (calculate_depreciation opening : Q)
    : gmap string value :=
  list_to_map
    [("docstatus", VNum 1); ("status", VStr status);
     ("item_code", VStr "LAPTOP"); ("company", VStr "Pluckcart");
     ("gross_purchase_amount", VNum 1000);
     ("opening_accumulated_depreciation", VNum opening);
     ("calculate_depreciation", VNum calculate_depreciation);
     ("purchase_date", VStr "2024-01-01");
     ("creation", VStr "2024-01-02 10:00:00");
     ("disposal_date", VStr "2026-06-30")].

Definition asset_form (d : gmap string value) (books : list Asset.finance_book)
    (rows : list Asset.schedule) : Asset.form :=
  {| Asset.doc := d; Asset.finance_books := books; Asset.schedules := rows;
     Asset.df := ∅; Asset.flags := ∅; Asset.trace := [] |}.

(** A submitted asset with one manual book and three schedule rows, the
    second of which belongs to another book. *)
Definition manual_asset : Asset.form :=
  asset_form (asset_doc "Submitted" 1 50) [manual_book; straight_line_book]
    [row 1 "2024-12-31" 300 0 "JE-1"; row 2 "2024-12-31" 250 0 "";
     row 1 "2025-12-31" 300 0 ""].

(** A manually depreciated asset whose two schedule rows depreciate by
    0.1 and by 0.2, as the doubles these literals are. *)
Definition dimes_asset : Asset.form :=
  asset_form (asset_doc "Submitted" 1 0) [manual_book]
    [row 1 "2024-12-31" (double (1 # 10)) 0 "";
     row 1 "2025-12-31" (double (2 # 10)) 0 ""].

(** Assets with the stale book and with the rated book. *)
Definition stale_asset : Asset.form :=
  asset_form (asset_doc "Submitted" 1 0) [stale_book] [].


(** The asset with the stale book when its gross purchase amount is 0,
    the value the script itself sets for a composite asset. *)
Definition zero_gross_asset : Asset.form :=
  Asset.set_doc (<["gross_purchase_amount" := VNum 0]> (Asset.doc stale_asset))
    stale_asset.

(** A sold asset with its single book: one schedule row was posted, one
    was not. *)
Definition sold_asset : Asset.form :=
  asset_form (asset_doc "Sold" 1 50) [straight_line_book]
    [row 1 "2024-12-31" 300 350 "JE-1"; row 1 "2025-12-31" 300 650 ""].

(** An asset with depreciation calculated, an opening accumulated
    depreciation, and no finance book. *)
Definition bookless_asset : Asset.form :=
  asset_form (asset_doc "Submitted" 1 50) [] [row 1 "2024-12-31" 300 350 ""].

(** A draft asset that refers to purchase receipt PR-1; with and without
    an item code. *)
Definition purchased_doc (item_code : string) : gmap string value :=
  list_to_map
    [("docstatus", VNum 0); ("status", VStr "Draft");
     ("item_code", VStr item_code);
     ("purchase_receipt", VStr "PR-1");
     ("gross_purchase_amount", VNum 1000);
     ("purchase_receipt_amount", VNum 1000);
     ("asset_quantity", VNum 1)].

Definition purchased_asset : Asset.form :=
  asset_form (purchased_doc "LAPTOP") [] [].

Definition asset_without_item_code : Asset.form :=
  asset_form (purchased_doc "") [] [].

(** The purchase receipt PR-1: its only item is not the asset's item. *)
Definition receipt_of_another_item : Asset.purchase_doc :=
  {| Asset.company := "Pluckcart";
     Asset.bill_date := "";
     Asset.posting_date := "2024-01-01";
     Asset.doc_cost_center := "Main";
     Asset.items :=
       [{| Asset.item_code := "PRINTER"; Asset.qty := 2;
           Asset.valuation_rate := 400; Asset.cost_center := "";
           Asset.asset_location := "" |}] |}.

(** A submitted Sales Order that is neither delivered nor billed. *)
Definition open_order : SalesOrder.form :=
  {| SalesOrder.doc :=
       list_to_map
         [("docstatus", VNum 1); ("status", VStr "To Deliver and Bill");
          ("per_delivered", VNum 0); ("per_billed", VNum 0);
          ("per_picked", VNum 0); ("order_type", VStr "Sales")];
     SalesOrder.items :=
       [{| SalesOrder.name := "row-1"; SalesOrder.item_code := "LAPTOP";
           SalesOrder.item_name := "Laptop"; SalesOrder.uom := "Nos";
           SalesOrder.supplier := ""; SalesOrder.qty := 2;
           SalesOrder.delivered_qty := 0; SalesOrder.delivered_by_supplier := 0;
           SalesOrder.stock_qty := 2; SalesOrder.ordered_qty := 0;
           SalesOrder.conversion_factor := 1 |}];
     SalesOrder.packed_items := [];
     SalesOrder.trace := [] |}.

(** A submitted asset with its single book and a posted schedule row. *)
Definition submitted_asset : Asset.form :=
  asset_form (asset_doc "Submitted" 1 50) [straight_line_book]
    [row 1 "2024-12-31" 300 350 "JE-1"; row 1 "2025-12-31" 300 650 ""].

(** An asset whose depreciation is entered by hand, and the entries the
    server answers for it. *)
Definition manually_depreciated_asset : Asset.form :=
  asset_form (asset_doc "Submitted" 0 50) [] [].

Definition manual_entries : list Asset.depr_entry :=
  [{| Asset.entry_posting_date := "2024-06-30"; Asset.entry_value := 100 |};
   {| Asset.entry_posting_date := "2024-12-31"; Asset.entry_value := 150 |}].

(** The purchase receipt PR-1 when it does have the asset's item. *)
Definition receipt_of_the_item : Asset.purchase_doc :=
  {| Asset.company := "Pluckcart";
     Asset.bill_date := "";
     Asset.posting_date := "2024-01-01";
     Asset.doc_cost_center := "Main";
     Asset.items :=
       [{| Asset.item_code := "PRINTER"; Asset.qty := 2;
           Asset.valuation_rate := 400; Asset.cost_center := "";
           Asset.asset_location := "" |};
        {| Asset.item_code := "LAPTOP"; Asset.qty := 3;
           Asset.valuation_rate := 500; Asset.cost_center := "";
           Asset.asset_location := "Store" |}] |}.

End Examples.

(** * Properties *)

(** ** Facts about the framework vocabulary *)

Section FrappeFacts.
Import Frappe.

Lemma num_lt_iff a b : num_lt a b = true <-> (a < b)%Q.
Proof.
  unfold num_lt. rewrite negb_true_iff. split.
  - intros E. apply Qnot_le_lt. intros Hle.
    apply Qle_bool_iff in Hle. congruence.
  - intros Hlt. destruct (Qle_bool b a) eqn:E; [|reflexivity].
    apply Qle_bool_iff in E. exfalso. exact (Qle_not_lt _ _ E Hlt).
Qed.

Lemma num_lt_false_iff a b : num_lt a b = false <-> (b <= a)%Q.
Proof.
  unfold num_lt. rewrite negb_false_iff. apply Qle_bool_iff.
Qed.

End FrappeFacts.

(** ** The addition of doubles *)

Section DoubleFacts.
Import Examples.
Local Open Scope Q_scope.

Lemma two_power_pos z : 0 < 2 ^ z.
Proof. apply Qpower_0_lt. reflexivity. Qed.

Lemma two_power_plus n m : 2 ^ (n + m) == 2 ^ n * 2 ^ m.
Proof. apply Qpower_plus. discriminate. Qed.

Lemma two_power_le n m : (n <= m)%Z -> 2 ^ n <= 2 ^ m.
Proof. intros Hle. apply Qpower_le_compat_l; [exact Hle | discriminate]. Qed.

Lemma two_power_lt_inv n m : 2 ^ n < 2 ^ m -> (n < m)%Z.
Proof. intros Hlt. apply (Qpower_lt_compat_l_inv 2); [exact Hlt | reflexivity]. Qed.

Lemma two_power_Z n : (0 <= n)%Z -> inject_Z (2 ^ n) == 2 ^ n.
Proof. intros Hn. now rewrite Zpower_Qpower. Qed.

Lemma Zdiv_lt (a b c d : Z) :
  (0 < b)%Z -> (0 < d)%Z -> (a * d < c * b)%Z ->
  inject_Z a / inject_Z b < inject_Z c / inject_Z d.
Proof.
  intros Hb Hd Hlt. destruct b as [|b|b]; try lia. destruct d as [|d|d]; try lia.
  unfold Qdiv, Qlt, Qmult, Qinv, inject_Z. simpl. lia.
Qed.

Lemma Zdiv_le (a b c d : Z) :
  (0 < b)%Z -> (0 < d)%Z -> (a * d <= c * b)%Z ->
  inject_Z a / inject_Z b <= inject_Z c / inject_Z d.
Proof.
  intros Hb Hd Hlt. destruct b as [|b|b]; try lia. destruct d as [|d|d]; try lia.
  unfold Qdiv, Qle, Qmult, Qinv, inject_Z. simpl. lia.
Qed.

(** A power of two as a quotient of two powers of two with exponents that
    are not negative. *)
Lemma two_power_minus n m :
  (0 <= n)%Z -> (0 <= m)%Z -> 2 ^ (n - m) == inject_Z (2 ^ n) / inject_Z (2 ^ m).
Proof.
  intros Hn Hm. replace (n - m)%Z with (n + - m)%Z by lia.
  rewrite two_power_plus, Qpower_opp, !two_power_Z by lia. reflexivity.
Qed.

(** [binade a] is the exponent of the power of two at or below [a]. *)
Lemma binade_spec a : 0 < a -> 2 ^ binade a <= a /\ a < 2 ^ (binade a + 1).
Proof.
  intros Hpos. unfold binade.
  destruct a as [n d]. cbn [Qnum Qden].
  assert (Hn : (0 < n)%Z) by (unfold Qlt in Hpos; simpl in Hpos; lia).
  set (ln := Z.log2 n). set (ld := Z.log2 (Z.pos d)).
  assert (Hln : (2 ^ ln <= n < 2 ^ (ln + 1))%Z).
  { destruct (Z.log2_spec n Hn) as [H1 H2]. subst ln.
    rewrite <- Z.add_1_r in H2. now split. }
  assert (Hld : (2 ^ ld <= Z.pos d < 2 ^ (ld + 1))%Z).
  { destruct (Z.log2_spec (Z.pos d) ltac:(lia)) as [H1 H2]. subst ld.
    rewrite <- Z.add_1_r in H2. now split. }
  assert (Hln0 : (0 <= ln)%Z) by apply Z.log2_nonneg.
  assert (Hld0 : (0 <= ld)%Z) by apply Z.log2_nonneg.
  assert (Hpn : (0 < 2 ^ ln)%Z) by (apply Z.pow_pos_nonneg; lia).
  assert (Hpd : (0 < 2 ^ ld)%Z) by (apply Z.pow_pos_nonneg; lia).
  assert (Hupper : n # d < 2 ^ (ln - ld + 1)).
  { replace (ln - ld + 1)%Z with ((ln + 1) - ld)%Z by lia.
    rewrite two_power_minus, (Qmake_Qdiv n d) by lia.
    apply Zdiv_lt; nia. }
  assert (Hlower : 2 ^ (ln - ld - 1) < n # d).
  { replace (ln - ld - 1)%Z with (ln - (ld + 1))%Z by lia.
    rewrite two_power_minus, (Qmake_Qdiv n d) by lia.
    apply Zdiv_lt; nia. }
  destruct (Qle_bool (2 ^ (ln - ld)) (n # d)) eqn:E.
  - apply Qle_bool_iff in E. split; [exact E | exact Hupper].
  - split; [apply Qlt_le_weak; exact Hlower|].
    replace (ln - ld - 1 + 1)%Z with (ln - ld)%Z by lia.
    apply Qnot_le_lt. intros Hle. apply Qle_bool_iff in Hle. congruence.
Qed.

Lemma binade_unique a k : 2 ^ k <= a -> a < 2 ^ (k + 1) -> binade a = k.
Proof.
  intros Hlow Hhigh.
  assert (Hpos : 0 < a) by (eapply Qlt_le_trans; [apply (two_power_pos k) | exact Hlow]).
  destruct (binade_spec a Hpos) as [Hl Hh].
  assert (binade a < k + 1)%Z
    by (apply two_power_lt_inv; eapply Qle_lt_trans; eassumption).
  assert (k < binade a + 1)%Z
    by (apply two_power_lt_inv; eapply Qle_lt_trans; eassumption).
  lia.
Qed.

Lemma binade_mono a b : 0 < a -> a <= b -> (binade a <= binade b)%Z.
Proof.
  intros Ha Hab.
  assert (Hb : 0 < b) by (eapply Qlt_le_trans; eassumption).
  destruct (binade_spec a Ha) as [Hl _]. destruct (binade_spec b Hb) as [_ Hh].
  assert (binade a < binade b + 1)%Z; [|lia].
  apply two_power_lt_inv. eapply Qle_lt_trans; [exact Hl|].
  eapply Qle_lt_trans; eassumption.
Qed.

(** Rounding to the nearest integer. *)
Lemma round_half_even_bounds s :
  (Qfloor s <= round_half_even s <= Qfloor s + 1)%Z.
Proof.
  unfold round_half_even.
  destruct (Qle_bool _ _); [destruct (Qeq_bool _ _); [destruct (Z.even _)|]|]; lia.
Qed.

Lemma round_half_even_Z s k : s == inject_Z k -> round_half_even s = k.
Proof.
  intros Hs. unfold round_half_even.
  assert (Hf : Qfloor s = k) by (rewrite (Qfloor_comp _ _ Hs); apply Qfloor_Z).
  rewrite Hf.
  destruct (Qle_bool (s - inject_Z k) (1 # 2)) eqn:Hle.
  - destruct (Qeq_bool (s - inject_Z k) (1 # 2)) eqn:Heq; [|reflexivity].
    apply Qeq_bool_iff in Heq. lra.
  - assert (Hn : ~ s - inject_Z k <= 1 # 2)
      by (intros Hc; apply Qle_bool_iff in Hc; congruence).
    lra.
Qed.

Lemma round_half_even_mono s t :
  s <= t -> (round_half_even s <= round_half_even t)%Z.
Proof.
  intros Hst.
  assert (Hfloor := Qfloor_resp_le _ _ Hst).
  destruct (Z.eq_dec (Qfloor s) (Qfloor t)) as [Heq | Hne].
  - unfold round_half_even. rewrite <- Heq.
    set (f := Qfloor s).
    destruct (Qle_bool (s - inject_Z f) (1 # 2)) eqn:Hs1;
      destruct (Qeq_bool (s - inject_Z f) (1 # 2)) eqn:Hs2;
      destruct (Qle_bool (t - inject_Z f) (1 # 2)) eqn:Ht1;
      destruct (Qeq_bool (t - inject_Z f) (1 # 2)) eqn:Ht2;
      destruct (Z.even f); try lia;
      repeat match goal with
      | H : Qle_bool _ _ = true |- _ => apply Qle_bool_iff in H
      | H : Qeq_bool _ _ = true |- _ => apply Qeq_bool_iff in H
      | H : Qeq_bool _ _ = false |- _ => apply Qeq_bool_neq in H
      | H : Qle_bool ?a ?b = false |- _ =>
          assert (~ a <= b) by (intros Hc; apply Qle_bool_iff in Hc; congruence);
          clear H
      end; exfalso; lra.
  - assert (H1 := round_half_even_bounds s).
    assert (H2 := round_half_even_bounds t). lia.
Qed.

Lemma round_half_even_ge s k : inject_Z k <= s -> (k <= round_half_even s)%Z.
Proof.
  intros Hk. apply round_half_even_mono in Hk.
  now rewrite (round_half_even_Z (inject_Z k) k) in Hk by reflexivity.
Qed.

Lemma round_half_even_le s k : s <= inject_Z k -> (round_half_even s <= k)%Z.
Proof.
  intros Hk. apply round_half_even_mono in Hk.
  now rewrite (round_half_even_Z (inject_Z k) k) in Hk by reflexivity.
Qed.

(** The double nearest to a positive number lies between the multiples of
    its last place that the number lies between. *)
Lemma double_pos_le x k :
  x <= inject_Z k * 2 ^ ulp_exponent x ->
  double_pos x <= inject_Z k * 2 ^ ulp_exponent x.
Proof.
  intros Hx. unfold double_pos.
  apply Qmult_le_compat_r; [|apply Qlt_le_weak, two_power_pos].
  rewrite <- Zle_Qle. apply round_half_even_le.
  apply Qle_shift_div_r; [apply two_power_pos | exact Hx].
Qed.

Lemma double_pos_ge x k :
  inject_Z k * 2 ^ ulp_exponent x <= x ->
  inject_Z k * 2 ^ ulp_exponent x <= double_pos x.
Proof.
  intros Hx. unfold double_pos.
  apply Qmult_le_compat_r; [|apply Qlt_le_weak, two_power_pos].
  rewrite <- Zle_Qle. apply round_half_even_ge.
  apply Qle_shift_div_l; [apply two_power_pos | exact Hx].
Qed.

Lemma double_pos_nonneg x : 0 <= x -> 0 <= double_pos x.
Proof.
  intros Hx. assert (H := double_pos_ge x 0).
  rewrite Qmult_0_l in H. now apply H.
Qed.

(** A number in the binade of exponent [e] has at most 53 bits before its
    last place, and 53 of them in the normal range. *)
Lemma below_two_power_53 x :
  0 < x -> x <= inject_Z (2 ^ 53) * 2 ^ ulp_exponent x.
Proof.
  intros Hpos. destruct (binade_spec x Hpos) as [_ Hhigh].
  rewrite two_power_Z, <- two_power_plus by lia.
  apply Qlt_le_weak. eapply Qlt_le_trans; [exact Hhigh|].
  apply two_power_le. unfold ulp_exponent. lia.
Qed.

Lemma above_two_power_52 x :
  0 < x -> (-1074 <= binade x - 52)%Z ->
  inject_Z (2 ^ 52) * 2 ^ ulp_exponent x <= x.
Proof.
  intros Hpos Hnormal. destruct (binade_spec x Hpos) as [Hlow _].
  rewrite two_power_Z, <- two_power_plus by lia.
  eapply Qle_trans; [|exact Hlow].
  apply two_power_le. unfold ulp_exponent. lia.
Qed.

Lemma double_pos_mono x y : 0 < x -> x <= y -> double_pos x <= double_pos y.
Proof.
  intros Hx Hxy.
  assert (Hy : 0 < y) by (eapply Qlt_le_trans; eassumption).
  assert (Hbinade := binade_mono x y Hx Hxy).
  destruct (Z.eq_dec (ulp_exponent x) (ulp_exponent y)) as [Heq | Hne].
  - unfold double_pos. rewrite Heq.
    apply Qmult_le_compat_r; [|apply Qlt_le_weak, two_power_pos].
    rewrite <- Zle_Qle. apply round_half_even_mono.
    apply Qmult_le_compat_r; [exact Hxy|].
    apply Qlt_le_weak, Qinv_lt_0_compat, two_power_pos.
  - assert (Hlt : (ulp_exponent x < ulp_exponent y)%Z)
      by (unfold ulp_exponent in *; lia).
    assert (Hnormal : (-1074 <= binade y - 52)%Z)
      by (unfold ulp_exponent in *; lia).
    eapply Qle_trans; [apply (double_pos_le x (2 ^ 53)), below_two_power_53, Hx|].
    eapply Qle_trans;
      [|apply (double_pos_ge y (2 ^ 52)), above_two_power_52; assumption].
    rewrite !two_power_Z, <- !two_power_plus by lia.
    apply two_power_le. lia.
Qed.

(** [double] on the three kinds of numbers. *)
Lemma double_zero x : x == 0 -> double x = 0.
Proof.
  intros Hx. unfold double. apply Qeq_bool_iff in Hx. now rewrite Hx.
Qed.

Lemma double_positive x : 0 < x -> double x == double_pos x.
Proof.
  intros Hx. unfold double.
  destruct (Qeq_bool x 0) eqn:E; [apply Qeq_bool_iff in E; lra|].
  destruct (Qle_bool 0 x) eqn:E1.
  - rewrite Qred_correct. destruct x as [[|n|n] d]; try reflexivity.
    unfold Qlt in Hx; simpl in Hx; lia.
  - assert (~ 0 <= x) by (intros Hc; apply Qle_bool_iff in Hc; congruence). lra.
Qed.

Lemma double_negative x : x < 0 -> double x == - double_pos (- x).
Proof.
  intros Hx. unfold double.
  destruct (Qeq_bool x 0) eqn:E; [apply Qeq_bool_iff in E; lra|].
  destruct (Qle_bool 0 x) eqn:E1.
  - apply Qle_bool_iff in E1. lra.
  - rewrite Qred_correct. destruct x as [[|n|n] d]; try reflexivity.
    unfold Qlt in Hx; simpl in Hx; lia.
Qed.

Lemma double_sign x : (0 <= x -> 0 <= double x) /\ (x <= 0 -> double x <= 0).
Proof.
  destruct (Q_dec x 0) as [[Hneg | Hpos] | Hzero].
  - rewrite (double_negative x Hneg).
    assert (H := double_pos_nonneg (- x) ltac:(lra)). split; intros; lra.
  - rewrite (double_positive x Hpos).
    assert (H := double_pos_nonneg x ltac:(lra)). split; intros; lra.
  - rewrite (double_zero x Hzero). split; intros; lra.
Qed.

(** Rounding to the nearest double keeps the order. *)
Lemma double_mono x y : x <= y -> double x <= double y.
Proof.
  intros Hxy.
  destruct (Q_dec x 0) as [[Hx | Hx] | Hx].
  - destruct (Q_dec y 0) as [[Hy | Hy] | Hy].
    + rewrite (double_negative x Hx), (double_negative y Hy).
      assert (H := double_pos_mono (- y) (- x) ltac:(lra) ltac:(lra)). lra.
    + apply Qle_trans with 0; [apply double_sign | apply double_sign]; lra.
    + apply Qle_trans with 0; [apply double_sign | apply double_sign]; lra.
  - rewrite (double_positive x Hx), (double_positive y ltac:(lra)).
    now apply double_pos_mono.
  - apply Qle_trans with 0; [apply double_sign | apply double_sign]; lra.
Qed.

Lemma double_comp x y : x == y -> double x == double y.
Proof.
  intros Hxy. apply Qle_antisym; apply double_mono; lra.
Qed.

Lemma two_power_le_inv n m : 2 ^ n <= 2 ^ m -> (n <= m)%Z.
Proof. intros Hle. apply (Qpower_le_compat_l_inv 2); [exact Hle | reflexivity]. Qed.

Lemma double_pos_comp a b : 0 < a -> a == b -> double_pos a == double_pos b.
Proof.
  intros Ha Hab. apply Qle_antisym; apply double_pos_mono; lra.
Qed.

(** A positive multiple of its own last place is a double. *)
Lemma double_pos_fixed d k :
  d == inject_Z k * 2 ^ ulp_exponent d -> double_pos d == d.
Proof.
  intros Hd. unfold double_pos.
  rewrite (round_half_even_Z _ k); [symmetry; exact Hd|].
  rewrite Hd at 1. field. apply Qnot_eq_sym, Qlt_not_eq, two_power_pos.
Qed.

(** The double nearest to a positive number is a double. *)
Lemma double_pos_idempotent x :
  0 < x -> 0 < double_pos x -> double_pos (double_pos x) == double_pos x.
Proof.
  intros Hx Hd.
  set (u := ulp_exponent x). set (m := round_half_even (x / 2 ^ u)).
  assert (Hform : double_pos x == inject_Z m * 2 ^ u) by reflexivity.
  assert (Hu : 0 < 2 ^ u) by apply two_power_pos.
  assert (Hm53 : (m <= 2 ^ 53)%Z).
  { apply round_half_even_le, Qle_shift_div_r; [exact Hu|].
    now apply below_two_power_53. }
  assert (Hdbinade := binade_spec _ Hd).
  destruct (Z_le_gt_dec (-1074) (binade x - 52)) as [Hnormal | Hsub].
  - assert (Hux : u = (binade x - 52)%Z) by (subst u; unfold ulp_exponent; lia).
    assert (Hm52 : (2 ^ 52 <= m)%Z).
    { apply round_half_even_ge, Qle_shift_div_l; [exact Hu|].
      now apply above_two_power_52. }
    destruct (Z.eq_dec m (2 ^ 53)%Z) as [Htop | Hbelow].
    + assert (Hbin : binade (double_pos x) = (u + 53)%Z).
      { apply binade_unique; rewrite Hform, Htop, (two_power_Z 53) by lia;
          rewrite <- two_power_plus.
        - apply two_power_le. lia.
        - apply Qpower_lt_compat_l; [lia | reflexivity]. }
      apply (double_pos_fixed _ (2 ^ 52)).
      unfold ulp_exponent. rewrite Hbin.
      replace (Z.max (u + 53 - 52) (-1074)) with (1 + u)%Z by lia.
      rewrite Hform, Htop, (two_power_Z 53), (two_power_Z 52) by lia.
      rewrite <- !two_power_plus.
      replace (52 + (1 + u))%Z with (53 + u)%Z by lia. reflexivity.
    + assert (Hbin : binade (double_pos x) = (u + 52)%Z).
      { apply binade_unique; rewrite Hform.
        - rewrite (two_power_plus u 52), <- (two_power_Z 52), Qmult_comm by lia.
          apply Qmult_le_compat_r; [|lra]. rewrite <- Zle_Qle. exact Hm52.
        - replace (u + 52 + 1)%Z with (53 + u)%Z by lia.
          rewrite two_power_plus, <- (two_power_Z 53) by lia.
          apply Qmult_lt_compat_r; [exact Hu|]. rewrite <- Zlt_Qlt. lia. }
      apply (double_pos_fixed _ m).
      unfold ulp_exponent. rewrite Hbin.
      replace (Z.max (u + 52 - 52) (-1074)) with u by lia. exact Hform.
  - assert (Hux : u = (-1074)%Z) by (subst u; unfold ulp_exponent; lia).
    assert (Hm52 : (m <= 2 ^ 52)%Z).
    { apply round_half_even_le, Qle_shift_div_r; [exact Hu|].
      destruct (binade_spec x Hx) as [_ Hhigh].
      rewrite (two_power_Z 52), <- two_power_plus by lia.
      apply Qlt_le_weak. eapply Qlt_le_trans; [exact Hhigh|].
      apply two_power_le. lia. }
    assert (Hbin : (binade (double_pos x) <= -1022)%Z).
    { apply two_power_le_inv. eapply Qle_trans; [apply Hdbinade|].
      rewrite Hform. replace (-1022)%Z with (52 + u)%Z by lia.
      rewrite two_power_plus, <- (two_power_Z 52) by lia.
      apply Qmult_le_compat_r; [|lra]. rewrite <- Zle_Qle. exact Hm52. }
    apply (double_pos_fixed _ m).
    unfold ulp_exponent.
    replace (Z.max (binade (double_pos x) - 52) (-1074)) with u by lia.
    exact Hform.
Qed.

(** Rounding to the nearest double leaves a double as it is. *)
Lemma double_idempotent x : double (double x) == double x.
Proof.
  destruct (Q_dec x 0) as [[Hx | Hx] | Hx].
  - assert (Hd := double_pos_nonneg (- x) ltac:(lra)).
    rewrite (double_comp _ _ (double_negative x Hx)), (double_negative x Hx).
    destruct (Qle_lt_or_eq _ _ Hd) as [Hpos | Hzero].
    + rewrite double_negative by lra.
      rewrite (double_pos_comp (- - double_pos (- x)) (double_pos (- x)))
        by (try lra; ring).
      rewrite double_pos_idempotent by lra. reflexivity.
    + rewrite double_zero by lra. lra.
  - assert (Hd := double_pos_nonneg x ltac:(lra)).
    rewrite (double_comp _ _ (double_positive x Hx)), (double_positive x Hx).
    destruct (Qle_lt_or_eq _ _ Hd) as [Hpos | Hzero].
    + rewrite double_positive by lra. now apply double_pos_idempotent.
    + rewrite double_zero by lra. lra.
  - rewrite (double_zero x Hx). reflexivity.
Qed.

(** The addition of doubles gives a double, and does not give less when
    an amount that is not negative is added to a double. *)
Lemma double_add_representable a b :
  double (double_add a b) == double_add a b.
Proof. apply double_idempotent. Qed.

Lemma double_add_nonneg a b :
  double a == a -> 0 <= b -> a <= double_add a b.
Proof.
  intros Ha Hb. rewrite <- Ha at 1. apply double_mono. lra.
Qed.

End DoubleFacts.

(** ** TaxJar Settings *)

Section TaxJarSettingsFacts.
Import Frappe TaxJarSettings.

(** C10. After the [is_sandbox] handler, [api_key] is required exactly when
    [is_sandbox] is unset and [sandbox_api_key] exactly when it is set, so
    exactly one of the two is required; the [reqd] property of every other
    field, and the document, are as before. *)
Theorem is_sandbox_requires_exactly_one_key (frm : form) :
  let frm' := on_is_sandbox frm in
  (required frm' "api_key" <-> truthy (doc frm !! "is_sandbox") = false) /\
  (required frm' "sandbox_api_key" <-> truthy (doc frm !! "is_sandbox") = true) /\
  (required frm' "api_key" <-> ~ required frm' "sandbox_api_key") /\
  (forall fieldname, fieldname <> "api_key" -> fieldname <> "sandbox_api_key" ->
     df_reqd frm' !! fieldname = df_reqd frm !! fieldname) /\
  doc frm' = doc frm.
Proof.
  unfold on_is_sandbox, required, toggle_reqd; simpl.
  rewrite lookup_insert_ne by discriminate.
  rewrite !lookup_insert_eq.
  destruct (truthy (doc frm !! "is_sandbox")); simpl;
    repeat split; try congruence; try discriminate.
  - intros fieldname Ha Hs. rewrite !lookup_insert_ne by congruence. reflexivity.
  - intros fieldname Ha Hs. rewrite !lookup_insert_ne by congruence. reflexivity.
Qed.

End TaxJarSettingsFacts.

(** ** Asset: accumulated depreciation *)

Section AccumulatedDepreciation.
Import Frappe Asset.

(** The addition of the script's numbers, whatever its rounding. *)
Variable add : Q -> Q -> Q.

Lemma accumulate_length id : forall rows acc,
  length (accumulate add id acc rows) = length rows.
Proof.
  induction rows as [|row rest IH]; intros acc; simpl; [reflexivity|].
  destruct (finance_book_id row =? id)%Z; simpl; now rewrite IH.
Qed.

Lemma running_total_cons id acc row rows :
  running_total add id acc (row :: rows)
  = running_total add id
      (if (finance_book_id row =? id)%Z then add acc (depreciation_amount row) else acc)
      rows.
Proof.
  unfold running_total. cbn [List.filter].
  destruct (finance_book_id row =? id)%Z; reflexivity.
Qed.

(** The loop invariant: the running total on reaching a row is the start
    value with the amounts of the book's rows before it added in turn. *)
Lemma accumulate_lookup id : forall rows acc i row,
  rows !! i = Some row ->
  exists row', accumulate add id acc rows !! i = Some row' /\
    if (finance_book_id row =? id)%Z
    then row' = set_accumulated_depreciation_amount
                  (accumulated_depreciation_amount row') row
         /\ accumulated_depreciation_amount row'
            = running_total add id acc (take (S i) rows)
    else row' = row.
Proof.
  induction rows as [|r rest IH]; intros acc i row Hi; [discriminate|].
  destruct i as [|i]; simpl in Hi.
  - injection Hi as ->. cbn [accumulate take firstn]. rewrite running_total_cons.
    destruct (finance_book_id row =? id)%Z eqn:E; simpl.
    + eexists; split; [reflexivity|]. split; reflexivity.
    + eexists; split; reflexivity.
  - cbn [accumulate take firstn]. rewrite running_total_cons.
    destruct (finance_book_id r =? id)%Z eqn:E.
    + destruct (IH (add acc (depreciation_amount r)) i row Hi) as (row' & Hl & Hrow).
      exists row'. split; [exact Hl | exact Hrow].
    + destruct (IH acc i row Hi) as (row' & Hl & Hrow).
      exists row'. split; [exact Hl | exact Hrow].
Qed.

(** With an addition that does not round, the running total is the start
    value plus the exact total of the amounts. *)
Lemma running_total_exact id :
  (forall a b, add a b == a + b)%Q ->
  forall rows start,
    (running_total add id start rows == start + depreciation_total id rows)%Q.
Proof.
  intros Hexact. induction rows as [|row rest IH]; intros start.
  - unfold running_total. simpl. ring.
  - rewrite running_total_cons. cbn [depreciation_total].
    destruct (finance_book_id row =? id)%Z.
    + rewrite IH, Hexact. ring.
    + apply IH.
Qed.

(** C1. When the finance book numbered [id] is "Manual",
    [set_accumulated_depreciation] returns, keeps every row of another book
    as it is, and gives each row of book [id] the accumulated amount
    [opening_accumulated_depreciation] plus the [depreciation_amount] of
    the book's rows up to and including it, added one after the other in
    list order with the script's addition, no other field of the row
    changing; when the book is not "Manual" the form is returned
    unchanged. *)
Theorem set_accumulated_depreciation_running_total
    (frm : form) (id : Z) (book : finance_book) :
  finance_book_of frm id = Some book ->
  (depreciation_method book = "Manual" ->
   exists frm',
     set_accumulated_depreciation add frm id = Ok frm' /\
     doc frm' = doc frm /\ finance_books frm' = finance_books frm /\
     length (schedules frm') = length (schedules frm) /\
     forall i row, schedules frm !! i = Some row ->
       exists row', schedules frm' !! i = Some row' /\
         if (finance_book_id row =? id)%Z
         then row' = set_accumulated_depreciation_amount
                       (accumulated_depreciation_amount row') row
              /\ accumulated_depreciation_amount row'
                 = running_total add id
                     (flt (doc frm !! "opening_accumulated_depreciation"))
                     (take (S i) (schedules frm))
         else row' = row) /\
  (depreciation_method book <> "Manual" ->
   set_accumulated_depreciation add frm id = Ok frm).
Proof.
  intros Hbook. unfold set_accumulated_depreciation. rewrite Hbook. split.
  - intros ->. simpl. eexists. split; [reflexivity|]. simpl.
    repeat split; [apply accumulate_length|].
    intros i row Hi. now apply accumulate_lookup.
  - intros Hne. destruct (String.eqb_spec (depreciation_method book) "Manual");
      [contradiction|reflexivity].
Qed.

End AccumulatedDepreciation.

Section AccumulatedDepreciationExamples.
Import Frappe Asset.

(** The theorem with the addition of doubles, at the asset whose two rows
    depreciate by 0.1 and by 0.2: the second row gets the double
    1351079888211149 / 2^52, which JS prints as 0.30000000000000004 and
    computes for 0.1 + 0.2. *)
Lemma set_accumulated_depreciation_running_total_witness :
  finance_book_of Examples.dimes_asset 1 = Some Examples.manual_book /\
  exists frm' row',
    set_accumulated_depreciation Examples.double_add Examples.dimes_asset 1 = Ok frm' /\
    schedules frm' !! 1%nat = Some row' /\
    accumulated_depreciation_amount row' = (1351079888211149 # 4503599627370496)%Q.
Proof.
  split; [reflexivity|].
  destruct (set_accumulated_depreciation_running_total Examples.double_add
              Examples.dimes_asset 1 Examples.manual_book eq_refl)
    as [Hmanual _].
  destruct (Hmanual eq_refl) as (frm' & Hrun & _ & _ & _ & Hrows).
  destruct (Hrows 1%nat _ eq_refl) as (row' & Hrow & _ & Hsum).
  exists frm', row'. split; [exact Hrun|]. split; [exact Hrow|].
  rewrite Hsum. vm_compute. reflexivity.
Defined.

Example accumulate_example :
  map accumulated_depreciation_amount
      (accumulate Examples.double_add 1 50 (schedules Examples.manual_asset))
  = [(350 # 1)%Q; 0%Q; (650 # 1)%Q].
Proof. vm_compute. reflexivity. Qed.

End AccumulatedDepreciationExamples.

(** ** Asset: the value chart *)

Section ChartFacts.
Import Frappe Asset.
Context `{Framework}.

(** What a schedule row adds to the two arrays. *)
Lemma push_schedule_point frm c v :
  push_schedule frm c v
  = push c (format_date (schedule_date v))
      (if truthy_str (journal_entry v) || negb (disposed frm)
       then Some (flt_round (flt (doc frm !! "gross_purchase_amount")
                             - accumulated_depreciation_amount v)
                            (precision "gross_purchase_amount"))
       else None).
Proof.
  unfold push_schedule, value_after.
  destruct (truthy_str (journal_entry v)), (disposed frm); reflexivity.
Qed.

Lemma fold_push_schedule frm : forall rows c,
  fold_left (push_schedule frm) rows c
  = ((fst c ++ map (fun v => format_date (schedule_date v)) rows)%list,
     (snd c ++ map (fun v =>
        if truthy_str (journal_entry v) || negb (disposed frm)
        then Some (flt_round (flt (doc frm !! "gross_purchase_amount")
                              - accumulated_depreciation_amount v)
                             (precision "gross_purchase_amount"))
        else None) rows)%list).
Proof.
  induction rows as [|v rest IH]; intros [labels values]; simpl.
  - now rewrite !app_nil_r.
  - rewrite push_schedule_point, IH. unfold push. simpl.
    now rewrite <- !app_assoc.
Qed.

Lemma more_than_one_book frm :
  (length (finance_books frm) <= 1)%nat -> (1 <? length (finance_books frm))%nat = false.
Proof. intros Hle. apply Nat.ltb_ge. exact Hle. Qed.

(** C2, as the code has it. With depreciation calculated and exactly one
    finance book (or none, when there is no opening accumulated
    depreciation), [setup_chart] renders a graph whose series is: a prefix
    (the purchase point and the opening point), then for each schedule row
    in order its date with [gross_purchase_amount] minus the row's
    [accumulated_depreciation_amount], rounded to the precision of
    [gross_purchase_amount], or [null] when the row has no journal entry
    and the status is "Scrapped" or "Sold"; then, for those two statuses,
    the disposal date with value 0 as the last point. *)
Theorem setup_chart_schedule_series
    (frm : form) (reply : call_reply) :
  truthy (doc frm !! "calculate_depreciation") = true ->
  (length (finance_books frm) <= 1)%nat ->
  finance_books frm <> []
    \/ truthy (doc frm !! "opening_accumulated_depreciation") = false ->
  exists prefix_labels prefix_values,
    length prefix_labels = length prefix_values /\
    setup_chart frm reply
    = Ok (emit
        (RenderGraph
          (prefix_labels
             ++ map (fun v => format_date (schedule_date v)) (schedules frm)
             ++ (if disposed frm
                 then [format_date (str_of (doc frm !! "disposal_date"))]
                 else []))%list
          (prefix_values
             ++ map (fun v =>
                  if truthy_str (journal_entry v) || negb (disposed frm)
                  then Some (flt_round (flt (doc frm !! "gross_purchase_amount")
                                        - accumulated_depreciation_amount v)
                                       (precision "gross_purchase_amount"))
                  else None) (schedules frm)
             ++ (if disposed frm then [Some 0%Q] else []))%list)
        frm).
Proof.
  intros Hcalc Hlen Hbook.
  unfold setup_chart. rewrite (more_than_one_book _ Hlen).
  unfold chart_body. rewrite Hcalc.
  destruct (truthy (doc frm !! "opening_accumulated_depreciation")) eqn:Hopen.
  - destruct (finance_books frm) as [|book rest] eqn:Hbooks.
    + destruct Hbook as [Hne | Hfalse]; [now contradiction Hne | discriminate].
    + cbn [lookup list_lookup]. rewrite fold_push_schedule.
      eexists (_ :: _ :: nil), (_ :: _ :: nil). split; [reflexivity|].
      unfold push; destruct (disposed frm); cbn [fst snd];
        rewrite <- ?app_assoc, ?app_nil_r; reflexivity.
  - rewrite fold_push_schedule.
    eexists (_ :: nil), (_ :: nil). split; [reflexivity|].
    unfold push; destruct (disposed frm); cbn [fst snd];
      rewrite <- ?app_assoc, ?app_nil_r; reflexivity.
Qed.

(** C9. With more than one finance book [setup_chart] returns the form as
    it is, whatever the schedule rows and the server's answer are: nothing
    is rendered and no row is read. Hence a graph is rendered only with
    zero or one finance book. *)
Theorem setup_chart_skips_several_books
    (frm : form) (reply : call_reply) :
  ((1 < length (finance_books frm))%nat ->
   forall rows answer,
     setup_chart (set_schedules rows frm) answer = Ok (set_schedules rows frm)) /\
  ((exists labels values,
      setup_chart frm reply = Ok (emit (RenderGraph labels values) frm)) ->
   (length (finance_books frm) <= 1)%nat).
Proof.
  split.
  - intros Hlen rows answer. unfold setup_chart. simpl.
    apply Nat.ltb_lt in Hlen. now rewrite Hlen.
  - intros (labels & values & Hrun). unfold setup_chart in Hrun.
    destruct (1 <? length (finance_books frm))%nat eqn:Hlen.
    + injection Hrun as Hfrm. apply (f_equal trace) in Hfrm. simpl in Hfrm.
      apply (f_equal (@length effect)) in Hfrm. rewrite length_app in Hfrm.
      simpl in Hfrm. lia.
    + now apply Nat.ltb_ge in Hlen.
Qed.

End ChartFacts.

Section ChartExamples.
Import Frappe Asset.

(** The theorem at the sold asset of the examples. *)
Lemma setup_chart_schedule_series_witness :
  exists prefix_labels prefix_values,
    @setup_chart Examples.test_framework Examples.sold_asset (Resolved None)
    = Ok (emit (RenderGraph
                  (prefix_labels ++ ["2024-12-31"; "2025-12-31"; "2026-06-30"])%list
                  (prefix_values ++ [Some (650 # 1)%Q; None; Some 0%Q])%list)
               Examples.sold_asset).
Proof.
  destruct (@setup_chart_schedule_series Examples.test_framework
              Examples.sold_asset (Resolved None))
    as (pl & pv & _ & Hrun).
  - reflexivity.
  - simpl. lia.
  - left. discriminate.
  - exists pl, pv. exact Hrun.
Defined.

(** With no finance book the statement fails: depreciation is
    calculated and there is at most one book, yet reading
    [finance_books[0].depreciation_start_date] throws and no graph is
    rendered. *)
Lemma setup_chart_without_finance_book_throws :
  truthy (doc Examples.bookless_asset !! "calculate_depreciation") = true /\
  (length (finance_books Examples.bookless_asset) <= 1)%nat /\
  @setup_chart Examples.test_framework Examples.bookless_asset (Resolved None)
  = Thrown Examples.bookless_asset.
Proof. split; [reflexivity|]. split; [simpl; lia | reflexivity]. Qed.

End ChartExamples.

(** ** Sales Order: status buttons and purchase orders *)

Section SalesOrderFacts.
Import Frappe SalesOrder.

Lemma strict_eq_str v s : strict_eq v (Some (VStr s)) = true <-> v = Some (VStr s).
Proof.
  destruct v as [[q|t]|]; simpl; split; try discriminate.
  - intros E. apply String.eqb_eq in E. now subst.
  - intros E. injection E as ->. apply String.eqb_refl.
Qed.

Lemma strict_eq_str_false v s : strict_eq v (Some (VStr s)) = false <-> v <> Some (VStr s).
Proof.
  rewrite <- strict_eq_str. destruct (strict_eq v (Some (VStr s))); split; congruence.
Qed.

Lemma offers_add l g frm l' g' :
  offers (add_custom_button l g frm) l' g' <-> offers frm l' g' \/ (l = l' /\ g = g').
Proof.
  unfold offers, add_custom_button; simpl. rewrite in_app_iff. simpl.
  split; intros [Hin | Hnew]; auto.
  - destruct Hnew as [E | []]. injection E as -> ->. auto.
  - destruct Hnew as [-> ->]. auto.
Qed.

(** A step that adds buttons of another group offers the same buttons of
    group [g']. *)
Lemma offers_skip (c : bool) l g frm l' g' :
  g <> g' ->
  offers (if c then add_custom_button l g frm else frm) l' g' <-> offers frm l' g'.
Proof.
  intros Hg. destruct c; [|reflexivity]. rewrite offers_add. intuition congruence.
Qed.

Lemma offers_skip2 (c : bool) l1 l2 g frm l' g' :
  g <> g' ->
  offers (if c then add_custom_button l1 g (add_custom_button l2 g frm) else frm) l' g'
  <-> offers frm l' g'.
Proof.
  intros Hg. destruct c; [|reflexivity]. rewrite !offers_add. intuition congruence.
Qed.

Section Refresh.
Context `{Framework}.
Variable over_billing_allowance : Q.

(** The buttons of group "Status" after the steps of an open order. *)
Lemma refresh_open_status has_perm_submit frm l :
  offers (refresh_open has_perm_submit frm) l "Status"
  <-> offers frm l "Status"
      \/ (has_perm_submit = true
          /\ not_fully_delivered_or_billed (doc frm) = true
          /\ (l = "Hold" \/ l = "Close")).
Proof.
  unfold refresh_open. cbv zeta.
  match goal with
  | |- offers (if ?c then (if ?c' then _ else _) else _) _ _ <-> _ =>
      destruct c; [destruct c'|]
  end.
  all: rewrite ?offers_add.
  all: repeat first
    [ rewrite offers_skip by congruence
    | rewrite offers_skip2 by congruence ].
  all: destruct has_perm_submit;
    [destruct (not_fully_delivered_or_billed (doc frm))|];
    rewrite ?offers_add; intuition congruence.
Qed.

Lemma not_fully_delivered_or_billed_iff d :
  not_fully_delivered_or_billed d = true
  <-> (flt_round (flt (d !! "per_delivered")) 6 < 100)%Q
      \/ (flt (d !! "per_billed") < 100)%Q.
Proof.
  unfold not_fully_delivered_or_billed.
  rewrite orb_true_iff, !num_lt_iff. reflexivity.
Qed.

(** C7. For a submitted Sales Order and a user who may submit: when the
    status is neither "Closed" nor "On Hold", refresh adds the "Hold" button
    and the "Close" button exactly when [per_delivered] rounded to 6
    decimals is below 100 or [per_billed] is below 100; when the status is
    "On Hold" it adds "Resume"; when it is "Closed" it adds "Re-open". *)
Theorem refresh_status_buttons (frm : form) :
  doc frm !! "docstatus" = Some (VNum 1) ->
  let frm' := refresh true over_billing_allowance frm in
  let pending :=
    (flt_round (flt (doc frm !! "per_delivered")) 6 < 100)%Q
    \/ (flt (doc frm !! "per_billed") < 100)%Q in
  (doc frm !! "status" <> Some (VStr "Closed") ->
   doc frm !! "status" <> Some (VStr "On Hold") ->
   (offers frm' "Hold" "Status" <-> offers frm "Hold" "Status" \/ pending) /\
   (offers frm' "Close" "Status" <-> offers frm "Close" "Status" \/ pending)) /\
  (doc frm !! "status" = Some (VStr "On Hold") -> offers frm' "Resume" "Status") /\
  (doc frm !! "status" = Some (VStr "Closed") -> offers frm' "Re-open" "Status").
Proof.
  intros Hsub frm' pending. subst frm' pending.
  unfold refresh. cbv zeta. rewrite Hsub. cbn [flt strict_eq Qeq_bool].
  change (Qeq_bool 1 1) with true. change (Qeq_bool 1 0) with false. cbv iota.
  split; [|split].
  - intros Hclosed Hhold.
    apply strict_eq_str_false in Hclosed, Hhold. rewrite Hclosed, Hhold.
    cbn [negb].
    split; rewrite offers_skip2 by congruence;
      rewrite refresh_open_status, not_fully_delivered_or_billed_iff;
      intuition congruence.
  - intros Hhold. pose proof Hhold as Hb. apply strict_eq_str in Hb. rewrite Hb.
    rewrite Hhold. cbn [strict_eq String.eqb Ascii.eqb Bool.eqb negb].
    rewrite offers_skip2 by congruence.
    destruct (not_fully_delivered_or_billed (doc frm)); rewrite ?offers_add; auto.
  - intros Hclosed. rewrite Hclosed.
    cbn [strict_eq String.eqb Ascii.eqb Bool.eqb negb].
    rewrite offers_add. auto.
Qed.

End Refresh.

(** The theorem at the open order of the examples: "Hold" is offered. *)
Lemma refresh_status_buttons_witness :
  offers (@refresh Examples.test_framework true 0 Examples.open_order) "Hold" "Status".
Proof.
  destruct (@refresh_status_buttons Examples.test_framework 0
              Examples.open_order eq_refl) as [Hopen _].
  destruct Hopen as [Hhold _]; [discriminate | discriminate |].
  apply Hhold. right. left. reflexivity.
Defined.

Example refresh_open_order :
  trace (@refresh Examples.test_framework true 0 Examples.open_order)
  = [AddCustomButton "Hold" "Status"; AddCustomButton "Close" "Status";
     AddCustomButton "Pick List" "Create";
     AddCustomButton "Delivery Note" "Create";
     AddCustomButton "Work Order" "Create";
     AddCustomButton "Sales Invoice" "Create";
     AddCustomButton "Material Request" "Create";
     AddCustomButton "Request for Raw Materials" "Create";
     AddCustomButton "Purchase Order" "Create";
     AddCustomButton "Project" "Create";
     AddCustomButton "Subscription" "Create";
     AddCustomButton "Payment Request" "Create";
     AddCustomButton "Payment" "Create"].
Proof. vm_compute. reflexivity. Qed.

(** *** make_purchase_order *)

Lemma has_pending_qty_false item :
  has_pending_qty item = false <-> (stock_qty item - ordered_qty item <= 0)%Q.
Proof. unfold has_pending_qty, num_gt. apply num_lt_false_iff. Qed.

Lemma has_pending_qty_true item :
  has_pending_qty item = true <-> (0 < stock_qty item - ordered_qty item)%Q.
Proof. unfold has_pending_qty, num_gt. apply num_lt_iff. Qed.

Lemma no_pending_items l :
  existsb has_pending_qty l = false
  <-> Forall (fun item => (stock_qty item - ordered_qty item <= 0)%Q) l.
Proof.
  induction l as [|item rest IH]; simpl.
  - split; [constructor | reflexivity].
  - rewrite orb_false_iff, IH, has_pending_qty_false. split.
    + intros [Hitem Hrest]. now constructor.
    + intros Hall. inversion Hall; subst. auto.
Qed.

(** C8. [make_purchase_order] throws "Purchase Order already created for
    all Sales Order items", and shows no dialog, if and only if every item
    has [stock_qty - ordered_qty <= 0]; when some item has a positive
    pending quantity it throws nothing and shows the selection dialog. *)
Theorem make_purchase_order_throws_iff_nothing_pending (frm : form) :
  (make_purchase_order frm
   = Throws {| title := "Note";
               message := "Purchase Order already created for all Sales Order items";
               indicator := "" |}
   <-> Forall (fun item => (stock_qty item - ordered_qty item <= 0)%Q) (items frm)) /\
  ((exists m, make_purchase_order frm = Throws m)
   <-> Forall (fun item => (stock_qty item - ordered_qty item <= 0)%Q) (items frm)) /\
  (Exists (fun item => (0 < stock_qty item - ordered_qty item)%Q) (items frm) ->
   make_purchase_order frm = DialogShown (set_po_items_data frm)).
Proof.
  unfold make_purchase_order.
  destruct (existsb has_pending_qty (items frm)) eqn:Hpending; simpl.
  - assert (Hnot : ~ Forall (fun item => (stock_qty item - ordered_qty item <= 0)%Q)
                      (items frm)).
    { intros Hall. apply no_pending_items in Hall. congruence. }
    repeat split; try discriminate; try contradiction; auto.
    intros (m & Hm). discriminate.
  - apply no_pending_items in Hpending.
    repeat split; auto.
    + eauto.
    + intros Hex. apply Exists_exists in Hex as (item & Hin & Hpos).
      rewrite Forall_forall in Hpending. specialize (Hpending item Hin).
      exfalso. exact (Qle_not_lt _ _ Hpending Hpos).
Qed.

End SalesOrderFacts.

(** ** Asset: the purchase reference handlers *)

Section ReferenceFacts.
Import Frappe Asset.
Context `{Framework}.

Ltac split_ifs :=
  repeat match goal with
         | |- context [if ?c then _ else _] => destruct c
         end.

Lemma toggle_reference_doc_doc frm : doc (toggle_reference_doc frm) = doc frm.
Proof. unfold toggle_reference_doc. split_ifs; reflexivity. Qed.

Lemma toggle_reference_doc_trace frm : trace (toggle_reference_doc frm) = trace frm.
Proof. unfold toggle_reference_doc. split_ifs; reflexivity. Qed.

(** Clearing a reference field re-enters its handler, which finds the
    field empty and only toggles field properties. *)
Lemma clear_reference fuel doctype fieldname frm :
  asset_handler (frm_set_value fuel) fieldname
  = reference_changed (frm_set_value fuel) doctype fieldname ->
  exists frm',
    frm_set_value (S fuel) fieldname (VStr "") frm = Ok frm' /\
    doc frm' = <[fieldname := VStr ""]> (doc frm) /\
    trace frm' = trace frm.
Proof.
  intros Hhandler. cbn [frm_set_value].
  destruct (fires (doc frm !! fieldname) (VStr "")).
  - rewrite Hhandler. unfold reference_changed.
    rewrite toggle_reference_doc_doc. cbn [doc set_doc].
    rewrite lookup_insert_eq. cbn [truthy truthy_str String.eqb negb].
    eexists. split; [reflexivity|].
    rewrite toggle_reference_doc_doc, toggle_reference_doc_trace. split; reflexivity.
  - eexists. split; [reflexivity|]. split; reflexivity.
Qed.

Lemma reference_changed_spec fuel doctype fieldname frm :
  asset_handler (frm_set_value fuel) fieldname
  = reference_changed (frm_set_value fuel) doctype fieldname ->
  truthy (doc frm !! fieldname) = true ->
  (truthy (doc frm !! "item_code") = false ->
   exists frm',
     reference_changed (frm_set_value (S fuel)) doctype fieldname frm = Ok frm' /\
     doc frm' = <[fieldname := VStr ""]> (doc frm) /\
     trace frm' = (trace frm ++ [Msgprint {| title := "Not Allowed";
                                            message := "Please select Item Code first";
                                            indicator := "" |}])%list) /\
  (truthy (doc frm !! "item_code") = true ->
   exists frm',
     reference_changed (frm_set_value (S fuel)) doctype fieldname frm = Ok frm' /\
     doc frm' = doc frm /\
     trace frm' = (trace frm ++ [GetDoc doctype (str_of (doc frm !! fieldname))])%list).
Proof.
  intros Hhandler Hset. split; intros Hitem.
  - unfold reference_changed. rewrite toggle_reference_doc_doc, Hset, Hitem.
    destruct (clear_reference fuel doctype fieldname (toggle_reference_doc frm) Hhandler)
      as (frm' & Hrun & Hdoc & Htrace).
    rewrite Hrun. cbn [bind]. eexists. split; [reflexivity|].
    cbn [doc trace emit]. rewrite Hdoc, Htrace.
    rewrite toggle_reference_doc_doc, toggle_reference_doc_trace. split; reflexivity.
  - unfold reference_changed. rewrite toggle_reference_doc_doc, Hset, Hitem.
    eexists. split; [reflexivity|]. cbn [doc trace emit].
    rewrite toggle_reference_doc_doc, toggle_reference_doc_trace. split; reflexivity.
Qed.

(** C4. When [purchase_receipt] is set and [item_code] is empty, the
    [purchase_receipt] handler returns with the field reset to the empty
    string and with exactly one new effect, the message "Please select
    Item Code first": no purchase document is fetched. When [item_code] is
    set, the document is left as it is and the only new effect is the
    fetch of the purchase receipt: no message, no clearing. The same holds
    of the [purchase_invoice] handler and its field. *)
Theorem reference_handlers_need_item_code (fuel : nat) (frm : form) :
  (truthy (doc frm !! "purchase_receipt") = true ->
   (truthy (doc frm !! "item_code") = false ->
    exists frm',
      on_purchase_receipt (frm_set_value (S fuel)) frm = Ok frm' /\
      doc frm' = <["purchase_receipt" := VStr ""]> (doc frm) /\
      trace frm' = (trace frm ++ [Msgprint {| title := "Not Allowed";
                                             message := "Please select Item Code first";
                                             indicator := "" |}])%list) /\
   (truthy (doc frm !! "item_code") = true ->
    exists frm',
      on_purchase_receipt (frm_set_value (S fuel)) frm = Ok frm' /\
      doc frm' = doc frm /\
      trace frm' = (trace frm ++ [GetDoc "Purchase Receipt"
                                    (str_of (doc frm !! "purchase_receipt"))])%list)) /\
  (truthy (doc frm !! "purchase_invoice") = true ->
   (truthy (doc frm !! "item_code") = false ->
    exists frm',
      on_purchase_invoice (frm_set_value (S fuel)) frm = Ok frm' /\
      doc frm' = <["purchase_invoice" := VStr ""]> (doc frm) /\
      trace frm' = (trace frm ++ [Msgprint {| title := "Not Allowed";
                                             message := "Please select Item Code first";
                                             indicator := "" |}])%list) /\
   (truthy (doc frm !! "item_code") = true ->
    exists frm',
      on_purchase_invoice (frm_set_value (S fuel)) frm = Ok frm' /\
      doc frm' = doc frm /\
      trace frm' = (trace frm ++ [GetDoc "Purchase Invoice"
                                    (str_of (doc frm !! "purchase_invoice"))])%list)).
Proof.
  split; intros Hset.
  - apply (reference_changed_spec fuel "Purchase Receipt" "purchase_receipt");
      [reflexivity | exact Hset].
  - apply (reference_changed_spec fuel "Purchase Invoice" "purchase_invoice");
      [reflexivity | exact Hset].
Qed.

(** Setting a field whose handler leaves the form alone is the write. *)
Lemma frm_set_value_plain fuel fieldname v frm :
  (forall sv frm', asset_handler sv fieldname frm' = Ok frm') ->
  frm_set_value (S fuel) fieldname v frm
  = Ok (set_doc (<[fieldname := v]> (doc frm)) frm).
Proof.
  intros Hplain. cbn [frm_set_value]. rewrite Hplain. now destruct (fires _ _).
Qed.

Lemma find_no_match {A} (p : A -> bool) (l : list A) :
  (forall x, In x l -> p x = false) -> find p l = None.
Proof.
  induction l as [|x l IH]; intros Hall; simpl; [reflexivity|].
  rewrite (Hall x) by now left. apply IH. intros y Hy. apply Hall. now right.
Qed.

(** The missing-item branch in general: whatever the form and the
    purchase receipt, when no item of the receipt is the asset's item the
    function throws after clearing the reference and printing the
    message, and the amounts are as they were. *)
Lemma set_values_from_purchase_receipt_without_item fuel frm purchase_doc :
  scrub "Purchase Receipt" = "purchase_receipt" ->
  (forall item, In item (items purchase_doc) ->
     strict_eq (Some (VStr (item_code item))) (doc frm !! "item_code") = false) ->
  exists frm',
    set_values_from_purchase_doc (frm_set_value (S (S fuel))) frm
      "Purchase Receipt" purchase_doc = Thrown frm' /\
    doc frm' !! "purchase_receipt" = Some (VStr "") /\
    doc frm' !! "gross_purchase_amount" = doc frm !! "gross_purchase_amount" /\
    doc frm' !! "purchase_receipt_amount" = doc frm !! "purchase_receipt_amount" /\
    doc frm' !! "asset_quantity" = doc frm !! "asset_quantity" /\
    trace frm'
    = (trace frm
       ++ [Msgprint
             {| title := "Invalid Purchase Receipt";
                message := "The selected Purchase Receipt does not contain the selected Asset Item.";
                indicator := "red" |}])%list.
Proof.
  intros Hscrub Hnone. unfold set_values_from_purchase_doc.
  rewrite (frm_set_value_plain _ "company") by reflexivity. cbn [bind].
  set (frm1 := set_doc _ frm).
  assert (Hstep2 : exists d2,
    (if truthy_str (bill_date purchase_doc)
     then frm_set_value (S (S fuel)) "purchase_date" (VStr (bill_date purchase_doc)) frm1
     else frm_set_value (S (S fuel)) "purchase_date" (VStr (posting_date purchase_doc)) frm1)
    = Ok (set_doc (<["purchase_date" := VStr d2]> (doc frm1)) frm1)).
  { destruct (truthy_str (bill_date purchase_doc)); eexists;
      now rewrite (frm_set_value_plain _ "purchase_date") by reflexivity. }
  destruct Hstep2 as (d2 & ->). cbn [bind].
  set (frm2 := set_doc _ frm1).
  assert (Hstep3 : exists frm3,
    (if negb (truthy (doc frm2 !! "is_existing_asset"))
        && negb (truthy (doc frm2 !! "available_for_use_date"))
     then frm_set_value (S (S fuel)) "available_for_use_date"
            (VStr (str_of (doc frm2 !! "purchase_date"))) frm2
     else Ok frm2) = Ok frm3 /\
    trace frm3 = trace frm /\
    (forall k, k <> "company" -> k <> "purchase_date" -> k <> "available_for_use_date" ->
       doc frm3 !! k = doc frm !! k)).
  { destruct (_ && _).
    - rewrite (frm_set_value_plain _ "available_for_use_date") by reflexivity.
      eexists. split; [reflexivity|]. split; [reflexivity|].
      intros k Hc Hp Ha. subst frm2 frm1. cbn [doc set_doc].
      now rewrite !lookup_insert_ne by congruence.
    - exists frm2. split; [reflexivity|]. split; [reflexivity|].
      intros k Hc Hp Ha. subst frm2 frm1. cbn [doc set_doc].
      now rewrite !lookup_insert_ne by congruence. }
  destruct Hstep3 as (frm3 & -> & Htrace3 & Hdoc3). cbn [bind].
  rewrite (Hdoc3 "item_code") by congruence.
  rewrite (find_no_match _ _ Hnone).
  rewrite Hscrub.
  destruct (clear_reference (S fuel) "Purchase Receipt" "purchase_receipt" frm3 eq_refl)
    as (frm4 & -> & Hdoc4 & Htrace4).
  cbn [bind]. eexists. split; [reflexivity|]. cbn [doc trace emit].
  rewrite Hdoc4, Htrace4, Htrace3, lookup_insert_eq.
  rewrite !lookup_insert_ne by congruence.
  rewrite !Hdoc3 by congruence. repeat split; reflexivity.
Qed.

End ReferenceFacts.

Section ReferenceExamples.
Import Frappe Asset.

Example on_purchase_receipt_without_item_code :
  exists frm',
    on_purchase_receipt (@frm_set_value Examples.test_framework 1)
      Examples.asset_without_item_code = Ok frm' /\
    doc frm' !! "purchase_receipt" = Some (VStr "") /\
    trace frm' = [Msgprint {| title := "Not Allowed";
                              message := "Please select Item Code first";
                              indicator := "" |}].
Proof. eexists. split; [vm_compute; reflexivity|]. split; reflexivity. Qed.

(** C3, on the code. For the purchase receipt of another item the function
    clears [purchase_receipt] and prints the message, and then does not
    return: it throws on [item.item_code]. The amounts are as before. *)
Theorem set_values_from_purchase_doc_missing_item_throws :
  exists frm',
    @set_values_from_purchase_doc Examples.test_framework
      (@frm_set_value Examples.test_framework 2)
      Examples.purchased_asset "Purchase Receipt" Examples.receipt_of_another_item
    = Thrown frm' /\
    doc frm' !! "purchase_receipt" = Some (VStr "") /\
    last (trace frm')
    = Some (Msgprint
        {| title := "Invalid Purchase Receipt";
           message := "The selected Purchase Receipt does not contain the selected Asset Item.";
           indicator := "red" |}) /\
    doc frm' !! "gross_purchase_amount" = Some (VNum 1000) /\
    doc frm' !! "purchase_receipt_amount" = Some (VNum 1000) /\
    doc frm' !! "asset_quantity" = Some (VNum 1).
Proof.
  eexists. split; [vm_compute; reflexivity|]. repeat split; reflexivity.
Qed.

End ReferenceExamples.

(** ** Asset Finance Book: the flags that suppress re-entrant handlers *)

Section FlagFacts.
Import Frappe Asset.
Context `{Framework}.

Lemma flag_set_flag name b frm : flag (set_flag name b frm) name = b.
Proof. unfold flag, set_flag; cbn [flags]. now rewrite lookup_insert_eq. Qed.

Lemma flag_set_flag_ne name name' b frm :
  name <> name' -> flag (set_flag name b frm) name' = flag frm name'.
Proof.
  intros Hne. unfold flag, set_flag; cbn [flags]. now rewrite lookup_insert_ne.
Qed.


(** The row a handler works on is still there after a field of it was
    set. *)
Lemma lookup_written i (row : finance_book) f v (books : list finance_book) :
  books !! i = Some row -> <[i := fb_set f v row]> books !! i = Some (fb_set f v row).
Proof.
  intros Hrow. apply list_lookup_insert_eq. eapply lookup_lt_Some. exact Hrow.
Qed.


(** Setting a field of a row while the handler of that field is
    suppressed: the write, the record of the call, and for the expected
    value possibly the remote call of [set_depreciation_rate]. *)
Lemma model_set_value_salvage_suppressed fuel i row v frm :
  finance_books frm !! i = Some row ->
  flag frm from_set_salvage = true ->
  model_set_value (S fuel) i SalvageValuePercentage v frm
  = Ok (set_finance_books
          (<[i := fb_set SalvageValuePercentage v row]> (finance_books frm))
          (emit (ModelSetValue i "salvage_value_percentage" v) frm)).
Proof.
  intros Hrow Hflag. cbn [model_set_value finance_books emit fb_field_name].
  rewrite Hrow. destruct (fires_number _ _); [|reflexivity].
  cbn [finance_book_handler]. unfold on_salvage_value_percentage.
  unfold flag in *. cbn [flags set_finance_books emit]. now rewrite Hflag.
Qed.




End FlagFacts.

Section FlagExamples.
Import Frappe Asset.



(** With a gross purchase amount of 0 the percentage the script computes
    is 100 * 100 / 0, which is [Infinity]: that is what is written to the
    row, once, and the flag is clear again afterwards all the same. *)
Example salvage_percentage_of_zero_gross :
  exists frm',
    @on_expected_value_after_useful_life Examples.test_framework
      (@model_set_value Examples.test_framework 3) 0 Examples.zero_gross_asset = Ok frm' /\
    flag frm' from_set_salvage = false /\
    finance_books frm'
    = [fb_set SalvageValuePercentage (Inf false) Examples.stale_book] /\
    updates (trace frm') = [ModelSetValue 0 "salvage_value_percentage" (Inf false)].
Proof.
  exists (form_after
            (@on_expected_value_after_useful_life Examples.test_framework
               (@model_set_value Examples.test_framework 3) 0 Examples.zero_gross_asset)
            Examples.zero_gross_asset).
  repeat match goal with |- _ /\ _ => split end; vm_compute; reflexivity.
Qed.

End FlagExamples.

(** ** Asset: the statuses the form depends on *)

Section StatusFacts.
Import Frappe Asset.
Context `{Framework}.

Lemma outside_tested_statuses s :
  in_list tested_statuses s = false -> status_tests s = (false, false, false, false).
Proof.
  unfold in_list, tested_statuses, listed_statuses, status_tests. simpl.
  rewrite !orb_false_iff. intros (Hpd & Hd & Hsub & Hscr & Hsold & Hfd & _).
  unfold in_list. simpl. now rewrite Hpd, Hsub, Hscr, Hsold, Hfd.
Qed.

Lemma same_class_same_tests s1 s2 :
  status_class tested_statuses s1 = status_class tested_statuses s2 ->
  status_tests s1 = status_tests s2.
Proof.
  unfold status_class.
  destruct (in_list tested_statuses s1) eqn:H1, (in_list tested_statuses s2) eqn:H2;
    intros E; try discriminate.
  - now injection E as ->.
  - now rewrite (outside_tested_statuses _ H1), (outside_tested_statuses _ H2).
Qed.

Ltac split_ifs :=
  repeat match goal with
         | |- context [if ?c then _ else _] => destruct c
         end.

Lemma make_schedules_editable_doc frm : doc (make_schedules_editable frm) = doc frm.
Proof. unfold make_schedules_editable. split_ifs; reflexivity. Qed.

Lemma refresh_submitted_doc frm : doc (refresh_submitted frm) = doc frm.
Proof. unfold refresh_submitted. cbv zeta. split_ifs; reflexivity. Qed.

(** Replacing the status commutes with every step that does not read it,
    and with the steps that read it when the four tests come out the
    same. *)
Lemma toggle_reference_doc_with_status s frm :
  toggle_reference_doc (with_status s frm) = with_status s (toggle_reference_doc frm).
Proof.
  unfold toggle_reference_doc, with_status. cbn [doc set_doc].
  rewrite !lookup_insert_ne by congruence. split_ifs; reflexivity.
Qed.

Lemma toggle_display_with_status fieldname show s frm :
  toggle_display fieldname show (with_status s frm)
  = with_status s (toggle_display fieldname show frm).
Proof. reflexivity. Qed.

Lemma make_schedules_editable_with_status s frm :
  make_schedules_editable (with_status s frm) = with_status s (make_schedules_editable frm).
Proof.
  unfold make_schedules_editable, with_status. cbn [finance_books set_doc].
  split_ifs; reflexivity.
Qed.

Lemma refresh_submitted_with_status s frm :
  status_tests s = status_tests (str_of (doc frm !! "status")) ->
  refresh_submitted (with_status s frm) = with_status s (refresh_submitted frm).
Proof.
  unfold status_tests. intros Htests. injection Htests as Hlist Hscrapped Hfully _.
  unfold refresh_submitted, with_status. cbv zeta. cbn [doc set_doc].
  rewrite lookup_insert_eq, !lookup_insert_ne by congruence. cbn [str_of].
  unfold in_list in *. cbn [existsb] in *.
  rewrite Hlist, Hscrapped, Hfully. split_ifs; reflexivity.
Qed.

Lemma disposed_with_status s frm :
  status_tests s = status_tests (str_of (doc frm !! "status")) ->
  disposed (with_status s frm) = disposed frm.
Proof.
  unfold status_tests. intros Htests. injection Htests as _ _ _ Hdisposed.
  unfold disposed, with_status. cbn [doc set_doc]. rewrite lookup_insert_eq.
  cbn [str_of]. unfold in_list in *. cbn [existsb] in *. exact Hdisposed.
Qed.

Lemma fold_left_pointwise {A B} (f g : A -> B -> A) :
  (forall a b, f a b = g a b) -> forall l a, fold_left f l a = fold_left g l a.
Proof.
  intros Hfg. induction l as [|b l IH]; intros a; simpl; [reflexivity|].
  now rewrite Hfg, IH.
Qed.

Lemma chart_body_with_status s frm reply :
  status_tests s = status_tests (str_of (doc frm !! "status")) ->
  chart_body (with_status s frm) reply = chart_body frm reply.
Proof.
  intros Htests. unfold chart_body.
  assert (Hpush : forall c v, push_schedule (with_status s frm) c v = push_schedule frm c v).
  { intros c v. unfold push_schedule, value_after.
    rewrite (disposed_with_status _ _ Htests).
    unfold with_status. cbn [doc set_doc].
    rewrite !lookup_insert_ne by congruence. reflexivity. }
  unfold value_after.
  change (finance_books (with_status s frm)) with (finance_books frm).
  change (schedules (with_status s frm)) with (schedules frm).
  change (doc (with_status s frm)) with (<["status" := VStr s]> (doc frm)).
  rewrite !lookup_insert_ne by congruence.
  destruct (truthy (doc frm !! "calculate_depreciation")); [|reflexivity].
  destruct (truthy (doc frm !! "opening_accumulated_depreciation")).
  - destruct (finance_books frm !! 0%nat); [|reflexivity].
    now rewrite (fold_left_pointwise _ _ Hpush).
  - now rewrite (fold_left_pointwise _ _ Hpush).
Qed.

Lemma setup_chart_with_status s frm reply :
  status_tests s = status_tests (str_of (doc frm !! "status")) ->
  setup_chart (with_status s frm) reply
  = match setup_chart frm reply with
    | Ok frm' => Ok (with_status s frm')
    | Thrown frm' => Thrown (with_status s frm')
    | OutOfFuel => OutOfFuel
    end.
Proof.
  intros Htests. unfold setup_chart.
  rewrite (chart_body_with_status _ _ _ Htests), (disposed_with_status _ _ Htests).
  change (finance_books (with_status s frm)) with (finance_books frm).
  change (doc (with_status s frm) !! "disposal_date")
    with (<["status" := VStr s]> (doc frm) !! "disposal_date").
  rewrite lookup_insert_ne by congruence.
  split_ifs; try reflexivity.
  all: destruct (chart_body frm reply); reflexivity.
Qed.

Lemma refresh_with_status s frm reply :
  status_tests s = status_tests (str_of (doc frm !! "status")) ->
  refresh (with_status s frm) reply = with_status s (refresh frm reply).
Proof.
  intros Htests. unfold refresh. cbv zeta.
  change (doc (with_status s frm)) with (<["status" := VStr s]> (doc frm)).
  rewrite !lookup_insert_ne by congruence.
  rewrite toggle_reference_doc_with_status, toggle_display_with_status,
    make_schedules_editable_with_status.
  set (frm1 := make_schedules_editable _).
  assert (Hdoc1 : doc frm1 = doc frm).
  { subst frm1. rewrite make_schedules_editable_doc. cbn [doc toggle_display
      set_df_property set_df]. apply toggle_reference_doc_doc. }
  rewrite refresh_submitted_with_status by (now rewrite Hdoc1).
  rewrite setup_chart_with_status
    by (now rewrite refresh_submitted_doc, Hdoc1).
  assert (Hlast : forall frm2,
    (let frm3 := toggle_reference_doc (with_status s frm2) in
     if Qeq_bool (flt (doc frm !! "docstatus")) 0 then
       let frm4 := toggle_reqd "finance_books"
                     (truthy (doc frm !! "calculate_depreciation")) frm3 in
       if truthy (doc frm !! "is_composite_asset")
          && negb (truthy (doc frm !! "capitalized_in"))
       then add_custom_button "Capitalize Asset" ""
              (emit (FormMessage "Capitalize this asset to confirm")
                 (emit HidePrimaryAction frm4))
       else frm4
     else frm3)
    = with_status s
        (let frm3 := toggle_reference_doc frm2 in
         if Qeq_bool (flt (doc frm !! "docstatus")) 0 then
           let frm4 := toggle_reqd "finance_books"
                         (truthy (doc frm !! "calculate_depreciation")) frm3 in
           if truthy (doc frm !! "is_composite_asset")
              && negb (truthy (doc frm !! "capitalized_in"))
           then add_custom_button "Capitalize Asset" ""
                  (emit (FormMessage "Capitalize this asset to confirm")
                     (emit HidePrimaryAction frm4))
           else frm4
         else frm3)).
  { intros frm2. cbv zeta. rewrite toggle_reference_doc_with_status.
    generalize (toggle_reference_doc frm2). intros frm3.
    destruct (Qeq_bool _ 0); [|reflexivity].
    destruct (_ && _); reflexivity. }
  cbv zeta in Hlast.
  destruct (Qeq_bool (flt (doc frm !! "docstatus")) 1).
  - destruct (setup_chart (refresh_submitted frm1) reply) as [frm2|frm2|];
      apply Hlast.
  - apply Hlast.
Qed.

(** C6, as the code has it. The status-dependent behaviour of the form
    (the buttons, alerts and chart of [refresh], and the field properties
    it sets) is determined by where the status stands in the six-value
    set {Draft, Submitted, Partially Depreciated, Scrapped, Sold, Fully
    Depreciated}: two statuses that are the same member of it, or are both
    outside it, give the same behaviour. *)
Theorem refresh_determined_by_tested_status
    (frm : form) (reply : call_reply) (s1 s2 : string) :
  status_class tested_statuses s1 = status_class tested_statuses s2 ->
  trace (refresh (with_status s1 frm) reply)
  = trace (refresh (with_status s2 frm) reply) /\
  df (refresh (with_status s1 frm) reply)
  = df (refresh (with_status s2 frm) reply).
Proof.
  intros Hclass. apply same_class_same_tests in Hclass.
  assert (Hfrm : with_status s2 frm = with_status s2 (with_status s1 frm)).
  { unfold with_status. cbn [doc set_doc]. now rewrite insert_insert_eq. }
  rewrite Hfrm, (refresh_with_status s2 (with_status s1 frm)).
  - split; reflexivity.
  - unfold with_status. cbn [doc set_doc]. rewrite lookup_insert_eq. cbn [str_of].
    now symmetry.
Qed.

End StatusFacts.

Section StatusExamples.
Import Frappe Asset.

(** The theorem at two statuses outside the set. *)
Lemma refresh_determined_by_tested_status_witness :
  trace (@refresh Examples.test_framework
           (with_status "In Maintenance" Examples.submitted_asset) (Resolved None))
  = trace (@refresh Examples.test_framework
             (with_status "Out of Order" Examples.submitted_asset) (Resolved None)).
Proof.
  exact (proj1 (@refresh_determined_by_tested_status Examples.test_framework
                  Examples.submitted_asset (Resolved None) "In Maintenance" "Out of Order"
                  eq_refl)).
Defined.

(** With the five listed values the statement fails: "Partially
    Depreciated" and "In Maintenance" are both outside them, yet a
    submitted asset is offered the Transfer, Scrap and Sell buttons for
    the first and not for the second. *)
Lemma refresh_tells_partially_depreciated_apart :
  status_class listed_statuses "Partially Depreciated"
  = status_class listed_statuses "In Maintenance" /\
  In (AddCustomButton "Transfer Asset" "Manage")
     (trace (@refresh Examples.test_framework
               (with_status "Partially Depreciated" Examples.submitted_asset) (Resolved None))) /\
  ~ In (AddCustomButton "Transfer Asset" "Manage")
       (trace (@refresh Examples.test_framework
                 (with_status "In Maintenance" Examples.submitted_asset) (Resolved None))).
Proof.
  split; [reflexivity|]. split.
  - vm_compute. auto.
  - vm_compute. intuition discriminate.
Qed.

Example refresh_sold_asset :
  trace (@refresh Examples.test_framework Examples.sold_asset (Resolved None))
  = [AddCustomButton "Repair Asset" "Manage";
     AddCustomButton "Split Asset" "Manage";
     AddCustomButton "Adjust Asset Value" "Manage";
     AddCustomButton "View General Ledger" "Manage";
     RenderGraph
       ["2024-01-01"; "2024-12-31"; "2024-12-31"; "2025-12-31"; "2026-06-30"]
       [Some (1000 # 1)%Q; Some (950 # 1)%Q; Some (650 # 1)%Q; None; Some 0%Q]].
Proof. vm_compute. reflexivity. Qed.

End StatusExamples.

(** ** Asset: more on the accumulated depreciation *)

Section AccumulatedDepreciationMore.
Import Frappe Asset.

(** The addition of the script's numbers, whatever its rounding. *)
Variable add : Q -> Q -> Q.

Lemma accumulate_idempotent id : forall rows acc,
  accumulate add id acc (accumulate add id acc rows) = accumulate add id acc rows.
Proof.
  induction rows as [|row rest IH]; intros acc; simpl; [reflexivity|].
  destruct (finance_book_id row =? id)%Z eqn:E; simpl; rewrite E, IH; reflexivity.
Qed.

(** Rows that differ at most in the accumulated amounts they hold are
    given the same accumulated amounts. *)
Lemma accumulate_ignores_stored id : forall rows1 rows2 acc,
  Forall2 same_but_accumulated rows1 rows2 ->
  forall i row', accumulate add id acc rows1 !! i = Some row' ->
    finance_book_id row' = id ->
    accumulate add id acc rows2 !! i = Some row'.
Proof.
  induction rows1 as [|row1 rest1 IH]; intros rows2 acc Hsame i row' Hi Hid;
    [discriminate|].
  destruct rows2 as [|row2 rest2]; [inversion Hsame|].
  apply Forall2_cons_1 in Hsame as [Hrow Hrest].
  assert (Hbook : finance_book_id row2 = finance_book_id row1)
    by (rewrite Hrow; reflexivity).
  assert (Hamount : depreciation_amount row2 = depreciation_amount row1)
    by (rewrite Hrow; reflexivity).
  cbn [accumulate] in *. rewrite Hbook, Hamount.
  destruct (finance_book_id row1 =? id)%Z eqn:E.
  - destruct i as [|i]; cbn [lookup list_lookup] in *.
    + injection Hi as <-. rewrite Hrow. reflexivity.
    + now apply IH.
  - destruct i as [|i]; cbn [lookup list_lookup] in *.
    + injection Hi as <-. apply Z.eqb_neq in E. contradiction.
    + now apply IH.
Qed.

(** X1. [set_accumulated_depreciation] computes the accumulated amounts
    from the opening accumulated depreciation and the depreciation
    amounts alone, never from the accumulated amounts the rows hold:
    with any other amounts stored in the rows, the rows of a Manual book
    get the same result. In particular, running it on its own result
    changes nothing. *)
Theorem set_accumulated_depreciation_ignores_stored_amounts
    (frm frm' : form) (id : Z) (rows : list schedule) :
  set_accumulated_depreciation add frm id = Ok frm' ->
  Forall2 same_but_accumulated (schedules frm) rows ->
  set_accumulated_depreciation add frm' id = Ok frm' /\
  exists frm'',
    set_accumulated_depreciation add (set_schedules rows frm) id = Ok frm'' /\
    forall book, finance_book_of frm id = Some book ->
      depreciation_method book = "Manual" ->
      forall i row', schedules frm' !! i = Some row' -> finance_book_id row' = id ->
        schedules frm'' !! i = Some row'.
Proof.
  unfold set_accumulated_depreciation, finance_book_of. intros Hrun Hsame.
  cbn [finance_books set_schedules doc schedules].
  destruct (if (1 <=? id)%Z then finance_books frm !! Z.to_nat (id - 1) else None)
    as [book|] eqn:Hbook; [|discriminate].
  destruct (negb (depreciation_method book =? "Manual")) eqn:Hmanual.
  - injection Hrun as <-. rewrite Hbook, Hmanual. split; [reflexivity|].
    eexists. split; [reflexivity|].
    intros book' Hbook' Hmethod. injection Hbook' as <-.
    rewrite Hmethod, String.eqb_refl in Hmanual. discriminate.
  - injection Hrun as <-. cbn [finance_books set_schedules doc schedules].
    rewrite Hbook, Hmanual. split; [now rewrite accumulate_idempotent|].
    eexists. split; [reflexivity|].
    intros _ _ _ i row' Hi Hid. cbn [schedules set_schedules].
    now apply (accumulate_ignores_stored id (schedules frm)).
Qed.

(** X2. [set_accumulated_depreciation] throws exactly when [finance_book_id]
    does not number one of the asset's finance books (it is below 1 or
    above their count), and then the form is as it was; it never runs out
    of budget. *)
Theorem set_accumulated_depreciation_throws_iff (frm : form) (id : Z) :
  ((exists frm', set_accumulated_depreciation add frm id = Thrown frm')
   <-> (id < 1 \/ Z.of_nat (length (finance_books frm)) < id)%Z) /\
  (forall frm', set_accumulated_depreciation add frm id = Thrown frm' -> frm' = frm) /\
  set_accumulated_depreciation add frm id <> OutOfFuel.
Proof.
  unfold set_accumulated_depreciation, finance_book_of.
  destruct (1 <=? id)%Z eqn:Hlow.
  - apply Z.leb_le in Hlow.
    destruct (finance_books frm !! Z.to_nat (id - 1)) as [book|] eqn:Hbook.
    + apply lookup_lt_Some in Hbook.
      repeat split.
      * intros (frm' & Hrun). destruct (negb _); discriminate.
      * intros [Hid | Hid]; lia.
      * intros frm' Hrun. destruct (negb _); discriminate.
      * destruct (negb _); discriminate.
    + apply lookup_ge_None in Hbook.
      repeat split.
      * intros _. right. lia.
      * intros _. eauto.
      * intros frm' Hrun. now injection Hrun.
      * discriminate.
  - apply Z.leb_gt in Hlow. repeat split.
    + intros _. left. lia.
    + intros _. eauto.
    + intros frm' Hrun. now injection Hrun.
    + discriminate.
Qed.

Section Monotone.

(** The numbers the addition gives: with doubles, the doubles. Adding an
    amount that is not negative to one of them never gives less, as
    rounding to the nearest double keeps the order and leaves a double as
    it is. *)
Variable representable : Q -> Prop.
Hypothesis add_representable : forall a b, representable (add a b).
Hypothesis add_nonneg : forall a b, representable a -> (0 <= b)%Q -> (a <= add a b)%Q.

Lemma running_total_representable id : forall rows start,
  representable start -> representable (running_total add id start rows).
Proof.
  induction rows as [|row rest IH]; intros start Hstart; [exact Hstart|].
  rewrite running_total_cons. apply IH.
  destruct (finance_book_id row =? id)%Z; [apply add_representable | exact Hstart].
Qed.

Lemma running_total_ge id : forall rows start,
  representable start ->
  Forall (fun row => (0 <= depreciation_amount row)%Q) rows ->
  (start <= running_total add id start rows)%Q.
Proof.
  induction rows as [|row rest IH]; intros start Hstart Hpos; [apply Qle_refl|].
  inversion Hpos as [|? ? Hrow Hrest]; subst.
  rewrite running_total_cons.
  destruct (finance_book_id row =? id)%Z.
  - apply Qle_trans with (add start (depreciation_amount row)).
    + now apply add_nonneg.
    + apply IH; [apply add_representable | exact Hrest].
  - now apply IH.
Qed.

Lemma running_total_take_le id : forall rows i j start,
  representable start ->
  Forall (fun row => (0 <= depreciation_amount row)%Q) rows ->
  (i <= j)%nat ->
  (running_total add id start (take i rows)
   <= running_total add id start (take j rows))%Q.
Proof.
  induction rows as [|row rest IH]; intros i j start Hstart Hpos Hij.
  - rewrite !take_nil. apply Qle_refl.
  - inversion Hpos as [|? ? Hrow Hrest]; subst.
    destruct i as [|i].
    + rewrite take_0. apply (running_total_ge id (take j (row :: rest)) start Hstart).
      now apply Forall_take.
    + destruct j as [|j]; [lia|]. cbn [take firstn].
      rewrite !running_total_cons. apply IH; [|exact Hrest|lia].
      destruct (finance_book_id row =? id)%Z; [apply add_representable | exact Hstart].
Qed.

End Monotone.

(** X3. With no negative depreciation amount, the accumulated amounts that
    [set_accumulated_depreciation] writes for a Manual book start at or
    above the opening accumulated depreciation and never decrease from one
    row of the book to a later one. This holds for every addition that
    does not give less when an amount that is not negative is added to a
    number it can give: the exact addition, and the rounding addition of
    doubles ([double_add_representable], [double_add_nonneg]). *)
Theorem accumulated_depreciation_never_decreases
    (representable : Q -> Prop)
    (frm frm' : form) (id : Z) (book : finance_book)
    (i j : nat) (row_i row_j : schedule) :
  (forall a b, representable (add a b)) ->
  (forall a b, representable a -> (0 <= b)%Q -> (a <= add a b)%Q) ->
  representable (flt (doc frm !! "opening_accumulated_depreciation")) ->
  finance_book_of frm id = Some book ->
  depreciation_method book = "Manual" ->
  Forall (fun row => (0 <= depreciation_amount row)%Q) (schedules frm) ->
  set_accumulated_depreciation add frm id = Ok frm' ->
  (i <= j)%nat ->
  schedules frm' !! i = Some row_i -> finance_book_id row_i = id ->
  schedules frm' !! j = Some row_j -> finance_book_id row_j = id ->
  (flt (doc frm !! "opening_accumulated_depreciation")
   <= accumulated_depreciation_amount row_i)%Q /\
  (accumulated_depreciation_amount row_i <= accumulated_depreciation_amount row_j)%Q.
Proof.
  intros Hrep Hnonneg Hopening Hbook Hmanual Hpos Hrun Hij Hi Hidi Hj Hidj.
  unfold set_accumulated_depreciation in Hrun.
  rewrite Hbook, Hmanual, String.eqb_refl in Hrun. cbn [negb] in Hrun.
  injection Hrun as <-.
  cbn [schedules set_schedules] in Hi, Hj.
  set (opening := flt (doc frm !! "opening_accumulated_depreciation")) in *.
  assert (Hacc : forall k row', accumulate add id opening (schedules frm) !! k = Some row' ->
            finance_book_id row' = id ->
            accumulated_depreciation_amount row'
            = running_total add id opening (take (S k) (schedules frm))).
  { intros k row' Hk Hid.
    assert (Hlen : (k < length (schedules frm))%nat).
    { apply lookup_lt_Some in Hk. now rewrite accumulate_length in Hk. }
    destruct (lookup_lt_is_Some_2 _ _ Hlen) as [row Hrow].
    destruct (accumulate_lookup add id _ opening k row Hrow) as (row'' & Hk' & Hspec).
    rewrite Hk in Hk'. injection Hk' as <-.
    destruct (finance_book_id row =? id)%Z eqn:E.
    - apply Hspec.
    - subst row'. apply Z.eqb_neq in E. contradiction. }
  rewrite (Hacc i row_i Hi Hidi), (Hacc j row_j Hj Hidj). split.
  - apply (running_total_ge representable Hrep Hnonneg); [exact Hopening|].
    now apply Forall_take.
  - apply (running_total_take_le representable Hrep Hnonneg);
      [exact Hopening | exact Hpos | lia].
Qed.

End AccumulatedDepreciationMore.

Section AccumulatedDepreciationMoreExamples.
Import Frappe Asset.

(** The theorem with the addition of doubles, at the example asset and at
    the same asset with other accumulated amounts stored in its rows:
    both runs give the third row, the second of book 1, the amount 650. *)
Lemma set_accumulated_depreciation_ignores_stored_amounts_witness :
  exists frm' frm'',
    set_accumulated_depreciation Examples.double_add Examples.manual_asset 1 = Ok frm' /\
    set_accumulated_depreciation Examples.double_add frm' 1 = Ok frm' /\
    set_accumulated_depreciation Examples.double_add
      (set_schedules
         [Examples.row 1 "2024-12-31" 300 999 "JE-1";
          Examples.row 2 "2024-12-31" 250 7 "";
          Examples.row 1 "2025-12-31" 300 (-5) ""]
         Examples.manual_asset) 1 = Ok frm'' /\
    schedules frm'' !! 2%nat = Some (Examples.row 1 "2025-12-31" 300 650 "").
Proof.
  destruct (set_accumulated_depreciation_ignores_stored_amounts Examples.double_add
              Examples.manual_asset
              (form_after
                 (set_accumulated_depreciation Examples.double_add Examples.manual_asset 1)
                 Examples.manual_asset)
              1
              [Examples.row 1 "2024-12-31" 300 999 "JE-1";
               Examples.row 2 "2024-12-31" 250 7 "";
               Examples.row 1 "2025-12-31" 300 (-5) ""])
    as (Hagain & frm'' & Hother & Hsame).
  - vm_compute. reflexivity.
  - repeat constructor.
  - eexists. exists frm''. split; [vm_compute; reflexivity|].
    split; [exact Hagain|]. split; [exact Hother|].
    apply (Hsame Examples.manual_book eq_refl eq_refl 2%nat); vm_compute; reflexivity.
Defined.

(** The theorem with the addition of doubles, whose results are the
    doubles, at the asset whose two rows depreciate by 0.1 and by 0.2:
    the accumulated amounts 0.1 and 0.30000000000000004 do not fall below
    the opening amount 0, nor the second below the first. *)
Lemma accumulated_depreciation_never_decreases_witness :
  (0 <= 3602879701896397 # 36028797018963968)%Q /\
  (3602879701896397 # 36028797018963968 <= 1351079888211149 # 4503599627370496)%Q.
Proof.
  exact (accumulated_depreciation_never_decreases Examples.double_add
           (fun a => (Examples.double a == a)%Q)
           Examples.dimes_asset
           (set_schedules
              (accumulate Examples.double_add 1 0 (schedules Examples.dimes_asset))
              Examples.dimes_asset)
           1 Examples.manual_book 0 1
           (Examples.row 1 "2024-12-31" (Examples.double (1 # 10))
              (3602879701896397 # 36028797018963968) "")
           (Examples.row 1 "2025-12-31" (Examples.double (2 # 10))
              (1351079888211149 # 4503599627370496) "")
           double_add_representable double_add_nonneg
           ltac:(vm_compute; reflexivity)
           eq_refl eq_refl
           ltac:(repeat constructor; vm_compute; discriminate)
           ltac:(vm_compute; reflexivity)
           ltac:(lia)
           ltac:(vm_compute; reflexivity) eq_refl
           ltac:(vm_compute; reflexivity) eq_refl).
Defined.

End AccumulatedDepreciationMoreExamples.

(** ** Asset: more on the value chart *)

Section ChartMore.
Import Frappe Asset.
Context `{Framework}.

(** The loop over the manual depreciation entries, started on a series
    whose last value is [start]. *)
Lemma fold_push_entry : forall entries c start,
  List.last (snd c) None = Some start ->
  fold_left push_entry entries c
  = ((fst c ++ map (fun v => format_date (entry_posting_date v)) entries)%list,
     (snd c ++ map Some
        (running_values (fun x => flt_round x (precision "gross_purchase_amount"))
           start entries))%list).
Proof.
  induction entries as [|v rest IH]; intros [labels values] start Hlast; simpl.
  - now rewrite !app_nil_r.
  - simpl in Hlast. unfold push_entry at 2. cbn [snd fst]. rewrite Hlast.
    erewrite IH by (unfold push; cbn [snd]; apply last_last).
    unfold push. cbn [fst snd]. now rewrite <- !app_assoc.
Qed.

Lemma render_graph_inv frm labels values labels' values' :
  Ok (emit (RenderGraph labels values) frm) = Ok (emit (RenderGraph labels' values') frm) ->
  labels = labels' /\ values = values'.
Proof.
  intros E. injection E as E. apply app_inv_head in E. now injection E.
Qed.

Lemma not_rendered frm labels values : Ok frm <> Ok (emit (RenderGraph labels values) frm).
Proof.
  intros E. injection E as E. apply (f_equal trace) in E. cbn [trace emit] in E.
  apply (f_equal (@length effect)) in E. rewrite length_app in E. simpl in E. lia.
Qed.

(** What [chart_body] builds, whichever branch runs: as many labels as
    values, the purchase point first, one point for the opening
    accumulated depreciation when there is one, and one point per schedule
    row or manual entry; and no [null] unless the asset is disposed. *)
Lemma chart_body_shape frm reply c :
  chart_body frm reply = Some c ->
  length (fst c) = length (snd c) /\
  hd_error (fst c) = Some (format_date (str_of (doc frm !! "purchase_date"))) /\
  hd_error (snd c) = Some (Some (flt (doc frm !! "gross_purchase_amount"))) /\
  length (snd c)
  = (1 + (if truthy (doc frm !! "opening_accumulated_depreciation") then 1 else 0)
     + (if truthy (doc frm !! "calculate_depreciation")
        then length (schedules frm)
        else length (entries_of reply)))%nat /\
  (disposed frm = false -> Forall (fun v => v <> None) (snd c)).
Proof.
  assert (Hlen : forall round start l,
            length (running_values round start l) = length l).
  { intros round start l. revert start.
    induction l as [|v l IH]; intros start; simpl; [reflexivity|]. now rewrite IH. }
  unfold chart_body.
  destruct (truthy (doc frm !! "calculate_depreciation")).
  - destruct (truthy (doc frm !! "opening_accumulated_depreciation")).
    + destruct (finance_books frm !! 0%nat) as [book|]; [|discriminate].
      rewrite fold_push_schedule. intros E. injection E as <-.
      unfold push. cbn [fst snd app hd_error length].
      rewrite ?length_app, ?length_map. repeat split; try lia.
      intros Hd. rewrite Hd. repeat (apply List.Forall_cons; [congruence|]).
      apply List.Forall_map, List.Forall_forall. intros v _.
      destruct (truthy_str (journal_entry v)); cbn; congruence.
    + rewrite fold_push_schedule. intros E. injection E as <-.
      cbn [fst snd app hd_error length].
      rewrite ?length_app, ?length_map. repeat split; try lia.
      intros Hd. rewrite Hd. repeat (apply List.Forall_cons; [congruence|]).
      apply List.Forall_map, List.Forall_forall. intros v _.
      destruct (truthy_str (journal_entry v)); cbn; congruence.
  - destruct (truthy (doc frm !! "opening_accumulated_depreciation")).
    + destruct (doc frm !! "creation") as [[q|creation]|]; try discriminate.
      destruct reply as [|message]; [discriminate|].
      erewrite fold_push_entry by reflexivity. intros E. injection E as <-.
      unfold push. cbn [fst snd app hd_error length entries_of].
      rewrite ?length_app, ?length_map, ?Hlen.
      repeat split; try (destruct message; cbn [length]; lia).
      intros _. repeat (apply List.Forall_cons; [congruence|]).
      apply List.Forall_map, List.Forall_forall. intros v _. congruence.
    + destruct reply as [|message]; [discriminate|].
      erewrite fold_push_entry by reflexivity. intros E. injection E as <-.
      cbn [fst snd app hd_error length entries_of].
      rewrite ?length_app, ?length_map, ?Hlen.
      repeat split; try (destruct message; cbn [length]; lia).
      intros _. repeat (apply List.Forall_cons; [congruence|]).
      apply List.Forall_map, List.Forall_forall. intros v _. congruence.
Qed.

(** X4. Every graph [setup_chart] renders has as many labels as values, starts
    with the purchase date and the gross purchase amount, and has one
    point for the purchase, one for the opening accumulated depreciation
    when there is one, one per schedule row (or per manual depreciation
    entry when depreciation is not calculated), and one for the disposal
    of a scrapped or sold asset. *)
Theorem setup_chart_point_count
    (frm : form) (reply : call_reply)
    (labels : list string) (values : list (option Q)) :
  setup_chart frm reply = Ok (emit (RenderGraph labels values) frm) ->
  length labels = length values /\
  hd_error labels = Some (format_date (str_of (doc frm !! "purchase_date"))) /\
  hd_error values = Some (Some (flt (doc frm !! "gross_purchase_amount"))) /\
  length values
  = (1 + (if truthy (doc frm !! "opening_accumulated_depreciation") then 1 else 0)
     + (if truthy (doc frm !! "calculate_depreciation")
        then length (schedules frm)
        else length (entries_of reply))
     + (if disposed frm then 1 else 0))%nat.
Proof.
  unfold setup_chart. destruct (1 <? length (finance_books frm))%nat.
  { intros E. now apply not_rendered in E. }
  destruct (chart_body frm reply) as [c|] eqn:Hbody; [|discriminate].
  destruct (chart_body_shape _ _ _ Hbody) as (Hlen & Hl & Hv & Hcount & _).
  destruct c as [cl cv]. cbn [fst snd] in *.
  destruct (disposed frm); intros E; apply render_graph_inv in E as [<- <-].
  - unfold push. cbn [fst snd]. rewrite !length_app, Hlen, Hcount. cbn [length].
    repeat split; try lia.
    + destruct cl; [discriminate | exact Hl].
    + destruct cv; [discriminate | exact Hv].
  - cbn [fst snd]. rewrite Hcount. repeat split; try assumption; lia.
Qed.

(** X5. The graph of an asset that is neither scrapped nor sold has no gap:
    no value of the series is [null]. *)
Theorem setup_chart_gaps_only_when_disposed
    (frm : form) (reply : call_reply)
    (labels : list string) (values : list (option Q)) :
  disposed frm = false ->
  setup_chart frm reply = Ok (emit (RenderGraph labels values) frm) ->
  Forall (fun v => v <> None) values.
Proof.
  intros Hd. unfold setup_chart. destruct (1 <? length (finance_books frm))%nat.
  { intros E. now apply not_rendered in E. }
  destruct (chart_body frm reply) as [c|] eqn:Hbody; [|discriminate].
  destruct (chart_body_shape _ _ _ Hbody) as (_ & _ & _ & _ & Hsome).
  rewrite Hd. intros E. apply render_graph_inv in E as [_ <-]. now apply Hsome.
Qed.

(** [split(" ")[0]] of a stamp made of a date without spaces, a space and
    a time is the date. *)
Lemma first_word_of_stamp (date time : string) :
  Forall (fun c => Ascii.nat_of_ascii c <> 32%nat) (list_ascii_of_string date) ->
  first_word (date ++ " " ++ time) = date.
Proof.
  intros Hdate. induction date as [|c date IH]; [reflexivity|].
  cbn [list_ascii_of_string] in Hdate. inversion Hdate as [|? ? Hc Hrest]; subst.
  change (first_word (String c date ++ " " ++ time))
    with (if (Ascii.nat_of_ascii c =? 32)%nat then EmptyString
          else String c (first_word (date ++ " " ++ time))).
  destruct (Nat.eqb_spec (Ascii.nat_of_ascii c) 32); [contradiction|].
  now rewrite (IH Hrest).
Qed.

(** The graph of an asset without calculated depreciation, when the call
    resolves and the creation stamp, if it is read, is a string. *)
Lemma setup_chart_manual_series frm message :
  truthy (doc frm !! "calculate_depreciation") = false ->
  (length (finance_books frm) <= 1)%nat ->
  (truthy (doc frm !! "opening_accumulated_depreciation") = true ->
   exists creation, doc frm !! "creation" = Some (VStr creation)) ->
  let round := fun x => flt_round x (precision "gross_purchase_amount") in
  let gross := flt (doc frm !! "gross_purchase_amount") in
  let opening := flt (doc frm !! "opening_accumulated_depreciation") in
  let has_opening := truthy (doc frm !! "opening_accumulated_depreciation") in
  let start := if has_opening then round (gross - opening)%Q else gross in
  let entries := entries_of (Resolved message) in
  setup_chart frm (Resolved message)
  = Ok (emit
      (RenderGraph
        ((format_date (str_of (doc frm !! "purchase_date"))
            :: (if has_opening
                then [format_date (first_word (str_of (doc frm !! "creation")))]
                else []))
           ++ map (fun v => format_date (entry_posting_date v)) entries
           ++ (if disposed frm
               then [format_date (str_of (doc frm !! "disposal_date"))]
               else []))%list
        ((Some gross :: (if has_opening then [Some start] else []))
           ++ map Some (running_values round start entries)
           ++ (if disposed frm then [Some 0%Q] else []))%list)
      frm).
Proof.
  intros Hcalc Hlen Hcreation round gross opening has_opening start entries.
  unfold setup_chart. rewrite (more_than_one_book _ Hlen).
  unfold chart_body. rewrite Hcalc.
  subst start has_opening entries.
  destruct (truthy (doc frm !! "opening_accumulated_depreciation")).
  - destruct (Hcreation eq_refl) as [creation ->].
    erewrite fold_push_entry by reflexivity.
    unfold push, value_after, entries_of. destruct (disposed frm); cbn [fst snd str_of];
      rewrite <- ?app_assoc, ?app_nil_r; reflexivity.
  - erewrite fold_push_entry by reflexivity.
    unfold push, entries_of. destruct (disposed frm); cbn [fst snd];
      rewrite <- ?app_assoc, ?app_nil_r; reflexivity.
Qed.

(** X6. Without calculated depreciation and with at most one finance
    book, [setup_chart] throws when the call of
    [get_manual_depreciation_entries] fails, and when there is an opening
    accumulated depreciation while [creation] is not a string. Otherwise
    it renders: after the purchase point (and the opening point), each
    manual depreciation entry the server answered gives the value before
    it minus the entry's amount, rounded to the precision of
    [gross_purchase_amount]; a disposed asset ends at 0. *)
Theorem setup_chart_manual_entries
    (frm : form) (reply : call_reply) :
  truthy (doc frm !! "calculate_depreciation") = false ->
  (length (finance_books frm) <= 1)%nat ->
  let round := fun x => flt_round x (precision "gross_purchase_amount") in
  let gross := flt (doc frm !! "gross_purchase_amount") in
  let opening := flt (doc frm !! "opening_accumulated_depreciation") in
  let has_opening := truthy (doc frm !! "opening_accumulated_depreciation") in
  let start := if has_opening then round (gross - opening)%Q else gross in
  let entries := entries_of reply in
  (reply = Rejected
   \/ (has_opening = true /\ forall creation, doc frm !! "creation" <> Some (VStr creation)) ->
   setup_chart frm reply = Thrown frm) /\
  (reply <> Rejected ->
   (has_opening = true -> exists creation, doc frm !! "creation" = Some (VStr creation)) ->
   exists prefix_labels,
     length prefix_labels = (if has_opening then 2 else 1)%nat /\
     setup_chart frm reply
     = Ok (emit
         (RenderGraph
           (prefix_labels
              ++ map (fun v => format_date (entry_posting_date v)) entries
              ++ (if disposed frm
                  then [format_date (str_of (doc frm !! "disposal_date"))]
                  else []))%list
           ((Some gross :: (if has_opening then [Some start] else []))
              ++ map Some (running_values round start entries)
              ++ (if disposed frm then [Some 0%Q] else []))%list)
         frm)).
Proof.
  intros Hcalc Hlen round gross opening has_opening start entries. split.
  - intros Hthrows. unfold setup_chart. rewrite (more_than_one_book _ Hlen).
    unfold chart_body. rewrite Hcalc. subst has_opening.
    destruct Hthrows as [-> | [Hopen Hcreation]].
    + destruct (truthy (doc frm !! "opening_accumulated_depreciation"));
        [destruct (doc frm !! "creation") as [[q|creation]|]|]; reflexivity.
    + rewrite Hopen.
      destruct (doc frm !! "creation") as [[q|creation]|]; try reflexivity.
      now contradiction (Hcreation creation).
  - intros Hreply Hcreation.
    destruct reply as [|message]; [now contradiction Hreply|].
    eexists. split; [|apply (setup_chart_manual_series frm message Hcalc Hlen Hcreation)].
    subst has_opening.
    destruct (truthy (doc frm !! "opening_accumulated_depreciation")); reflexivity.
Qed.

(** X7. The opening point of the chart of an asset without calculated
    depreciation is dated at the day the asset was created: when
    [creation] is a date without spaces, a space and a time, the second
    point of a rendered graph has that date, formatted, as its label, and
    the gross purchase amount minus the opening accumulated depreciation,
    rounded, as its value. *)
Theorem setup_chart_opening_point
    (frm : form) (reply : call_reply) (date time : string)
    (labels : list string) (values : list (option Q)) :
  truthy (doc frm !! "calculate_depreciation") = false ->
  truthy (doc frm !! "opening_accumulated_depreciation") = true ->
  doc frm !! "creation" = Some (VStr (date ++ " " ++ time)) ->
  Forall (fun c => Ascii.nat_of_ascii c <> 32%nat) (list_ascii_of_string date) ->
  setup_chart frm reply = Ok (emit (RenderGraph labels values) frm) ->
  labels !! 1%nat = Some (format_date date) /\
  values !! 1%nat
  = Some (Some (value_after frm (flt (doc frm !! "opening_accumulated_depreciation")))).
Proof.
  intros Hcalc Hopen Hcreation Hdate Hrun.
  assert (Hlen : (length (finance_books frm) <= 1)%nat).
  { unfold setup_chart in Hrun.
    destruct (1 <? length (finance_books frm))%nat eqn:E.
    - now apply not_rendered in Hrun.
    - now apply Nat.ltb_ge in E. }
  destruct reply as [|message].
  { unfold setup_chart in Hrun. rewrite (more_than_one_book _ Hlen) in Hrun.
    unfold chart_body in Hrun. rewrite Hcalc, Hopen, Hcreation in Hrun. discriminate. }
  rewrite (setup_chart_manual_series frm message Hcalc Hlen) in Hrun
    by (intros _; eauto).
  apply render_graph_inv in Hrun as [<- <-].
  rewrite Hopen, Hcreation. cbn [str_of]. rewrite (first_word_of_stamp _ _ Hdate).
  split; reflexivity.
Qed.

End ChartMore.

(** ** Asset: more on the purchase reference and the purchase document *)

Section ReferenceMore.
Import Frappe Asset.
Context `{Framework}.

Lemma toggle_reference_doc_books frm :
  finance_books (toggle_reference_doc frm) = finance_books frm.
Proof.
  unfold toggle_reference_doc.
  repeat match goal with |- context [if ?c then _ else _] => destruct c end;
    reflexivity.
Qed.

Lemma insert_pair_again {A} (m : gmap (string * string) A) k1 v1 k2 v2 :
  k1 <> k2 ->
  <[k1 := v1]> (<[k2 := v2]> (<[k1 := v1]> (<[k2 := v2]> m)))
  = <[k1 := v1]> (<[k2 := v2]> m).
Proof.
  intros Hne. apply map_eq. intros k. rewrite !lookup_insert.
  repeat case_decide; congruence.
Qed.

Lemma insert_four_again {A} (m : gmap (string * string) A) k1 v1 k2 v2 k3 v3 k4 v4 :
  k1 <> k2 -> k1 <> k3 -> k1 <> k4 -> k2 <> k3 -> k2 <> k4 -> k3 <> k4 ->
  <[k1 := v1]> (<[k2 := v2]> (<[k3 := v3]> (<[k4 := v4]>
    (<[k1 := v1]> (<[k2 := v2]> (<[k3 := v3]> (<[k4 := v4]> m)))))))
  = <[k1 := v1]> (<[k2 := v2]> (<[k3 := v3]> (<[k4 := v4]> m))).
Proof.
  intros H12 H13 H14 H23 H24 H34.
  apply map_eq. intros k. rewrite !lookup_insert.
  repeat case_decide; congruence.
Qed.

(** X8. [toggle_reference_doc] is idempotent: it only reads the document, so a
    second run (as [refresh] does) sets the same properties again. *)
Theorem toggle_reference_doc_idempotent (frm : form) :
  toggle_reference_doc (toggle_reference_doc frm) = toggle_reference_doc frm.
Proof.
  unfold toggle_reference_doc at 1.
  rewrite !toggle_reference_doc_doc.
  unfold toggle_reference_doc.
  destruct frm as [d books rows props fl tr]. cbn [doc].
  set (c1 := truthy (d !! "purchase_receipt") && truthy (d !! "purchase_invoice")
             && strict_eq (d !! "docstatus") (Some (VNum 1))).
  set (c2 := truthy (d !! "is_existing_asset") || truthy (d !! "is_composite_asset")).
  set (c3 := truthy (d !! "purchase_receipt")).
  set (c4 := truthy (d !! "purchase_invoice")).
  destruct c1; [|destruct c2; [|destruct c3; [|destruct c4]]].
  all: cbv [toggle_reqd set_df_property set_df doc finance_books schedules df flags trace].
  - now rewrite insert_pair_again by congruence.
  - now rewrite insert_pair_again by congruence.
  - now rewrite insert_pair_again by congruence.
  - now rewrite insert_pair_again by congruence.
  - now rewrite insert_four_again by congruence.
Qed.

(** [for_each_row] over rows that exist never throws: it leaves the form
    as it is but for one [get_depreciation_rate] call per row that has a
    number of depreciations, a frequency and an expected value. *)
Lemma for_each_row_calls : forall rows frm,
  Forall (fun i => (i < length (finance_books frm))%nat) rows ->
  exists frm',
    for_each_row rows frm = Ok frm' /\
    doc frm' = doc frm /\ finance_books frm' = finance_books frm /\
    schedules frm' = schedules frm /\ df frm' = df frm /\ flags frm' = flags frm /\
    trace frm'
    = (trace frm
       ++ map (Call "get_depreciation_rate")
            (List.filter (fun i => match finance_books frm !! i with
                                   | Some row => wants_rate row
                                   | None => false
                                   end) rows))%list.
Proof.
  induction rows as [|i rest IH]; intros frm Hall.
  - exists frm. cbn. rewrite app_nil_r. repeat split; reflexivity.
  - inversion Hall as [|? ? Hi Hrest]; subst.
    destruct (lookup_lt_is_Some_2 _ _ Hi) as [row Hrow].
    cbn [for_each_row List.filter]. unfold set_depreciation_rate at 1.
    rewrite Hrow. fold (wants_rate row).
    destruct (wants_rate row); cbn [bind].
    + destruct (IH (emit (Call "get_depreciation_rate" i) frm) Hrest)
        as (frm' & Hrun & Hdoc & Hbooks & Hrows & Hdf & Hflags & Htrace).
      exists frm'. rewrite Hrun, Hdoc, Hbooks, Hrows, Hdf, Hflags, Htrace.
      cbn [doc finance_books schedules df flags trace emit map].
      rewrite <- app_assoc. repeat split; reflexivity.
    + destruct (IH frm Hrest)
        as (frm' & Hrun & Hdoc & Hbooks & Hrows & Hdf & Hflags & Htrace).
      exists frm'. rewrite Hrun, Hdoc, Hbooks, Hrows, Hdf, Hflags, Htrace.
      repeat split; reflexivity.
Qed.

(** X9. The [gross_purchase_amount] handler never throws. It changes nothing
    on the form and asks the server for the depreciation rate of exactly
    the finance book rows that have a number of depreciations, a frequency
    and an expected value, once each, in row order. *)
Theorem on_gross_purchase_amount_calls (frm : form) :
  exists frm',
    on_gross_purchase_amount frm = Ok frm' /\
    doc frm' = doc frm /\ finance_books frm' = finance_books frm /\
    schedules frm' = schedules frm /\ df frm' = df frm /\ flags frm' = flags frm /\
    trace frm'
    = (trace frm
       ++ map (Call "get_depreciation_rate")
            (List.filter (fun i => match finance_books frm !! i with
                                   | Some row => wants_rate row
                                   | None => false
                                   end)
               (seq 0 (length (finance_books frm)))))%list.
Proof.
  unfold on_gross_purchase_amount. apply for_each_row_calls.
  apply List.Forall_forall. intros i Hi. apply in_seq in Hi. lia.
Qed.

(** Setting [gross_purchase_amount] through the form: the write, and at
    most remote calls. *)
Lemma frm_set_value_gross fuel v frm :
  exists frm',
    frm_set_value (S fuel) "gross_purchase_amount" v frm = Ok frm' /\
    doc frm' = <["gross_purchase_amount" := v]> (doc frm) /\
    finance_books frm' = finance_books frm /\ schedules frm' = schedules frm /\
    df frm' = df frm /\ flags frm' = flags frm /\
    exists rows, trace frm' = (trace frm ++ map (Call "get_depreciation_rate") rows)%list.
Proof.
  cbn [frm_set_value]. destruct (fires _ _).
  - change (asset_handler (frm_set_value fuel) "gross_purchase_amount")
      with on_gross_purchase_amount.
    unfold on_gross_purchase_amount.
    edestruct (for_each_row_calls (seq 0 (length (finance_books frm)))
                 (set_doc (<["gross_purchase_amount" := v]> (doc frm)) frm))
      as (frm' & Hrun & Hdoc & Hbooks & Hrows & Hdf & Hflags & Htrace).
    { apply List.Forall_forall. intros j Hj. apply in_seq in Hj.
      cbn [finance_books set_doc]. lia. }
    exists frm'. split; [exact Hrun|]. rewrite Hdoc, Hbooks, Hrows, Hdf, Hflags.
    repeat split. eexists. exact Htrace.
  - eexists. split; [reflexivity|]. repeat split. exists []. cbn. now rewrite app_nil_r.
Qed.

(** X10. The callback of the [is_grouped_asset] request always returns. It sets
    [gross_purchase_amount] and [purchase_receipt_amount] to the item's
    valuation rate times the quantity, rounded; the quantity is the
    item's for a grouped asset and 1 otherwise; the cost center is the
    item's, or the purchase document's when the item has none; and the
    purchase references are left alone. *)
Theorem is_grouped_asset_callback_sets_amounts
    (fuel : nat) (frm : form) (purchase_doc : purchase_doc) (item : purchase_item)
    (is_grouped_asset : option value) :
  let asset_quantity := if truthy is_grouped_asset then qty item else 1%Q in
  let purchase_amount :=
    flt_round (valuation_rate item * asset_quantity) (precision "gross_purchase_amount") in
  exists frm',
    is_grouped_asset_callback (frm_set_value (S fuel)) frm purchase_doc item
      is_grouped_asset = Ok frm' /\
    doc frm' !! "gross_purchase_amount" = Some (VNum purchase_amount) /\
    doc frm' !! "purchase_receipt_amount" = Some (VNum purchase_amount) /\
    doc frm' !! "asset_quantity" = Some (VNum asset_quantity) /\
    doc frm' !! "cost_center"
    = Some (VStr (if truthy_str (cost_center item) then cost_center item
                  else doc_cost_center purchase_doc)) /\
    doc frm' !! "location"
    = (if truthy_str (asset_location item) then Some (VStr (asset_location item))
       else doc frm !! "location") /\
    doc frm' !! "purchase_receipt" = doc frm !! "purchase_receipt" /\
    doc frm' !! "purchase_invoice" = doc frm !! "purchase_invoice" /\
    finance_books frm' = finance_books frm.
Proof.
  intros asset_quantity purchase_amount. unfold is_grouped_asset_callback.
  fold asset_quantity. fold purchase_amount.
  destruct (frm_set_value_gross fuel (VNum purchase_amount) frm)
    as (frm1 & -> & Hdoc1 & Hbooks1 & _).
  cbn [bind].
  rewrite (frm_set_value_plain _ "purchase_receipt_amount") by reflexivity. cbn [bind].
  rewrite (frm_set_value_plain _ "asset_quantity") by reflexivity. cbn [bind].
  rewrite (frm_set_value_plain _ "cost_center") by reflexivity. cbn [bind].
  destruct (truthy_str (asset_location item)).
  - rewrite (frm_set_value_plain _ "location") by reflexivity.
    eexists. split; [reflexivity|]. cbn [doc set_doc finance_books]. rewrite Hdoc1, Hbooks1.
    repeat split; now simplify_map_eq.
  - eexists. split; [reflexivity|]. cbn [doc set_doc finance_books]. rewrite Hdoc1, Hbooks1.
    repeat split; now simplify_map_eq.
Qed.

(** X11. When the purchase document has the asset's item,
    [set_values_from_purchase_doc] returns after asking for the item's
    [is_grouped_asset]: the company is the document's, the purchase date
    is the bill date when the document has one and the posting date
    otherwise, [available_for_use_date] takes the purchase date only when
    it was unset on an asset that is not an existing one, and neither the
    item code, the purchase references nor any message is touched. *)
Theorem set_values_from_purchase_doc_with_item
    (fuel : nat) (frm : form) (doctype : string)
    (purchase_doc : purchase_doc) (item : purchase_item) :
  find (fun item => strict_eq (Some (VStr (item_code item))) (doc frm !! "item_code"))
       (items purchase_doc) = Some item ->
  let purchase_date :=
    if truthy_str (bill_date purchase_doc) then bill_date purchase_doc
    else posting_date purchase_doc in
  exists frm',
    set_values_from_purchase_doc (frm_set_value (S fuel)) frm doctype purchase_doc
    = Ok frm' /\
    doc frm' !! "company" = Some (VStr (company purchase_doc)) /\
    doc frm' !! "purchase_date" = Some (VStr purchase_date) /\
    doc frm' !! "available_for_use_date"
    = (if negb (truthy (doc frm !! "is_existing_asset"))
          && negb (truthy (doc frm !! "available_for_use_date"))
       then Some (VStr purchase_date)
       else doc frm !! "available_for_use_date") /\
    (forall k, k <> "company" -> k <> "purchase_date" -> k <> "available_for_use_date" ->
       doc frm' !! k = doc frm !! k) /\
    trace frm'
    = (trace frm ++ [GetValue "Item" (item_code item) "is_grouped_asset"])%list.
Proof.
  intros Hfind purchase_date. unfold set_values_from_purchase_doc.
  rewrite (frm_set_value_plain _ "company") by reflexivity. cbn [bind].
  assert (Hdate :
    (if truthy_str (bill_date purchase_doc)
     then frm_set_value (S fuel) "purchase_date" (VStr (bill_date purchase_doc))
            (set_doc (<["company" := VStr (company purchase_doc)]> (doc frm)) frm)
     else frm_set_value (S fuel) "purchase_date" (VStr (posting_date purchase_doc))
            (set_doc (<["company" := VStr (company purchase_doc)]> (doc frm)) frm))
    = Ok (set_doc (<["purchase_date" := VStr purchase_date]>
                     (<["company" := VStr (company purchase_doc)]> (doc frm))) frm)).
  { subst purchase_date. destruct (truthy_str (bill_date purchase_doc));
      now rewrite (frm_set_value_plain _ "purchase_date") by reflexivity. }
  rewrite Hdate. cbn [bind doc set_doc].
  rewrite !lookup_insert_ne by congruence. rewrite lookup_insert_eq. cbn [str_of].
  destruct (negb (truthy (doc frm !! "is_existing_asset"))
            && negb (truthy (doc frm !! "available_for_use_date"))).
  - rewrite (frm_set_value_plain _ "available_for_use_date") by reflexivity.
    cbn [bind doc set_doc]. rewrite !lookup_insert_ne by congruence. rewrite Hfind.
    eexists. split; [reflexivity|]. cbn [doc set_doc trace emit].
    repeat split; try (now simplify_map_eq).
    intros k Hc Hp Ha. now rewrite !lookup_insert_ne by congruence.
  - cbn [bind doc set_doc]. rewrite !lookup_insert_ne by congruence. rewrite Hfind.
    eexists. split; [reflexivity|]. cbn [doc set_doc trace emit].
    repeat split; try (now simplify_map_eq).
    intros k Hc Hp Ha. now rewrite !lookup_insert_ne by congruence.
Qed.

(** X12. Marking an asset as composite sets its gross purchase amount to 0 and
    makes the field read-only, and, unless both purchase references are
    set on a submitted asset, stops requiring either of them; clearing the
    mark makes the gross purchase amount editable again and leaves its
    value. *)
Theorem on_is_composite_asset_locks_gross_amount (fuel : nat) (frm : form) :
  exists frm',
    on_is_composite_asset (frm_set_value (S fuel)) frm = Ok frm' /\
    finance_books frm' = finance_books frm /\
    if truthy (doc frm !! "is_composite_asset") then
      doc frm' = <["gross_purchase_amount" := VNum 0]> (doc frm) /\
      df frm' !! ("gross_purchase_amount", "read_only") = Some true /\
      (truthy (doc frm !! "purchase_receipt") && truthy (doc frm !! "purchase_invoice")
         && strict_eq (doc frm !! "docstatus") (Some (VNum 1)) = false ->
       df frm' !! ("purchase_receipt", "reqd") = Some false /\
       df frm' !! ("purchase_invoice", "reqd") = Some false)
    else
      doc frm' = doc frm /\
      df frm' !! ("gross_purchase_amount", "read_only") = Some false.
Proof.
  unfold on_is_composite_asset.
  destruct (truthy (doc frm !! "is_composite_asset")) eqn:Hcomposite.
  - destruct (frm_set_value_gross fuel (VNum 0) frm)
      as (frm1 & -> & Hdoc1 & Hbooks1 & _ & Hdf1 & _).
    cbn [bind]. eexists. split; [reflexivity|].
    rewrite toggle_reference_doc_books, toggle_reference_doc_doc.
    cbn [finance_books doc set_df_property set_df]. split; [exact Hbooks1|].
    split; [exact Hdoc1|].
    unfold toggle_reference_doc.
    cbn [doc set_df_property set_df]. rewrite Hdoc1.
    rewrite !lookup_insert_ne by congruence. rewrite Hcomposite, orb_true_r.
    destruct (truthy (doc frm !! "purchase_receipt")
              && truthy (doc frm !! "purchase_invoice")
              && strict_eq (doc frm !! "docstatus") (Some (VNum 1))).
    + unfold set_df_property, set_df. cbn [df]. split; [now simplify_map_eq|].
      discriminate.
    + unfold toggle_reqd, set_df_property, set_df. cbn [df].
      split; [now simplify_map_eq|]. intros _. split; now simplify_map_eq.
  - cbn [bind]. eexists. split; [reflexivity|].
    rewrite toggle_reference_doc_books, toggle_reference_doc_doc.
    cbn [finance_books doc set_df_property set_df]. repeat split.
    unfold toggle_reference_doc. cbn [doc set_df_property set_df].
    repeat match goal with |- context [if ?c then _ else _] => destruct c end;
      unfold toggle_reqd, set_df_property, set_df; cbn [df]; now simplify_map_eq.
Qed.

End ReferenceMore.

(** ** Asset Finance Book: more on the row handlers *)

Section FinanceBookMore.
Import Frappe Asset.
Context `{Framework}.

Lemma model_set_value_step fuel i f v frm row :
  finance_books frm !! i = Some row ->
  model_set_value (S fuel) i f v frm
  = let frm1 :=
      set_finance_books (<[i := fb_set f v row]> (finance_books frm))
        (emit (ModelSetValue i (fb_field_name f) v) frm) in
    if fires_number (fb_get f row) v
    then finance_book_handler (model_set_value fuel) f i frm1
    else Ok frm1.
Proof.
  intros Hrow. cbn [model_set_value finance_books emit]. now rewrite Hrow.
Qed.

(** X13. An edit of [rate_of_depreciation] that does not come from
    [set_depreciation_rate] (both flags clear) resets the row's expected
    value after useful life to 0 and keeps the rate; the handlers this
    sets off end with both flags clear, only write fields of the row, and
    issue no remote call, since an expected value of 0 asks for no
    rate. *)
Theorem on_rate_of_depreciation_resets_expected_value
    (fuel i : nat) (row : finance_book) (frm : form) :
  finance_books frm !! i = Some row ->
  flag frm dont_change_rate = false ->
  flag frm from_set_salvage = false ->
  exists frm' row' new,
    on_rate_of_depreciation (model_set_value (S (S fuel))) i frm = Ok frm' /\
    finance_books frm' !! i = Some row' /\
    expected_value_after_useful_life row' = Fin 0 /\
    rate_of_depreciation row' = rate_of_depreciation row /\
    flag frm' dont_change_rate = false /\
    flag frm' from_set_salvage = false /\
    doc frm' = doc frm /\
    trace frm' = (trace frm ++ new)%list /\
    Forall (fun e => is_update e = true) new.
Proof.
  intros Hrow Hrate Hsalvage.
  unfold on_rate_of_depreciation. rewrite Hrate. cbn [negb].
  rewrite (model_set_value_step _ _ _ _ _ _ Hrow). cbv zeta.
  cbn [fb_field_name fb_get].
  set (row0 := fb_set ExpectedValueAfterUsefulLife (Fin 0) row).
  set (frm2 := set_finance_books _ _).
  assert (Hrow2 : finance_books frm2 !! i = Some row0).
  { subst frm2. cbn [finance_books set_finance_books]. now apply lookup_written. }
  destruct (fires_number _ _).
  - cbn [finance_book_handler]. unfold on_expected_value_after_useful_life.
    replace (flag frm2 from_set_salvage) with false by (symmetry; exact Hsalvage).
    cbn [negb].
    unfold set_salvage_value_percentage_or_expected_value_after_useful_life.
    set (frm3 := set_flag from_set_salvage true frm2).
    assert (Hrow3 : finance_books frm3 !! i = Some row0) by exact Hrow2.
    rewrite Hrow3.
    rewrite (model_set_value_salvage_suppressed fuel i row0 _ frm3 Hrow3
               (flag_set_flag _ _ _)).
    cbn [bind].
    match goal with
    | |- context [fb_set SalvageValuePercentage ?v row0] => set (pct := v)
    end.
    set (row1 := fb_set SalvageValuePercentage pct row0).
    match goal with
    | |- context [set_depreciation_rate i ?f] => set (frm5 := f)
    end.
    assert (Hrow5 : finance_books frm5 !! i = Some row1).
    { subst frm5 frm3. cbn [finance_books set_finance_books set_flag emit].
      apply list_lookup_insert_eq. eapply lookup_lt_Some. exact Hrow2. }
    unfold set_depreciation_rate. rewrite Hrow5.
    replace (truthy_number (expected_value_after_useful_life row1)) with false
      by reflexivity.
    rewrite andb_false_r. cbn [bind].
    exists (set_flag dont_change_rate false frm5), row1. eexists.
    split; [reflexivity|]. split; [exact Hrow5|].
    split; [reflexivity|]. split; [reflexivity|].
    split; [apply flag_set_flag|].
    split.
    { rewrite flag_set_flag_ne by discriminate. subst frm5. apply flag_set_flag. }
    split; [reflexivity|]. split.
    { subst frm5 frm3 frm2. cbn [trace set_flag set_finance_books emit].
      rewrite <- app_assoc. reflexivity. }
    repeat constructor.
  - cbn [bind].
    exists (set_flag dont_change_rate false frm2), row0. eexists.
    split; [reflexivity|]. split; [exact Hrow2|].
    split; [reflexivity|]. split; [reflexivity|].
    split; [apply flag_set_flag|].
    split.
    { rewrite flag_set_flag_ne by discriminate. exact Hsalvage. }
    split; [reflexivity|]. split; [reflexivity|].
    repeat constructor.
Qed.

(** X14. The [depreciation_start_date] handler never leaves a row whose
    depreciation start date equals the asset's available-for-use date:
    when the two are equal it prints the message and clears the row's
    date, touching nothing else; otherwise, and whenever the asset has no
    available-for-use date (even if the row does not exist), it leaves the
    form as it is. *)
Theorem on_depreciation_start_date_differs
    (to_number : string -> option Q) (i : nat) (frm : form) :
  (truthy (doc frm !! "available_for_use_date") = false ->
   on_depreciation_start_date to_number i frm = Ok frm) /\
  (forall date book,
     doc frm !! "available_for_use_date" = Some (VStr date) -> date <> "" ->
     finance_books frm !! i = Some book ->
     exists frm' book',
       on_depreciation_start_date to_number i frm = Ok frm' /\
       finance_books frm' !! i = Some book' /\
       depreciation_start_date book' <> date /\
       doc frm' = doc frm /\
       (depreciation_start_date book <> date -> frm' = frm) /\
       (depreciation_start_date book = date ->
        book' = set_depreciation_start_date "" book /\
        trace frm'
        = (trace frm
           ++ [Msgprint
                 {| title := "";
                    message := "Depreciation Posting Date should not be equal to Available for Use Date.";
                    indicator := "" |}])%list)).
Proof.
  unfold on_depreciation_start_date. split.
  - intros ->. reflexivity.
  - intros date book Hdate Hset Hbook. rewrite Hdate, Hbook.
    cbn [truthy loose_eq_str].
    replace (truthy_str date) with true
      by (symmetry; unfold truthy_str; apply negb_true_iff;
          now apply String.eqb_neq).
    destruct (String.eqb_spec (depreciation_start_date book) date) as [Heq | Hne].
    + eexists. exists (set_depreciation_start_date "" book).
      split; [reflexivity|]. cbn [finance_books set_finance_books emit doc trace].
      split; [apply list_lookup_insert_eq; eapply lookup_lt_Some; exact Hbook|].
      split; [cbn; congruence|]. split; [reflexivity|].
      split; [intros Hne; contradiction|]. intros _. split; reflexivity.
    + exists frm, book. split; [reflexivity|]. split; [exact Hbook|].
      split; [exact Hne|]. split; [reflexivity|].
      split; [reflexivity|]. intros Heq. contradiction.
Qed.

End FinanceBookMore.

Section FinanceBookMoreExamples.
Import Frappe Asset.

Lemma on_rate_of_depreciation_resets_expected_value_witness :
  exists frm' row',
    @on_rate_of_depreciation
      (@model_set_value Examples.test_framework 2) 0 Examples.manual_asset = Ok frm' /\
    finance_books frm' !! 0%nat = Some row' /\
    expected_value_after_useful_life row' = Fin 0.
Proof.
  destruct (@on_rate_of_depreciation_resets_expected_value Examples.test_framework
              0 0%nat Examples.manual_book Examples.manual_asset
              eq_refl eq_refl eq_refl)
    as (frm' & row' & new & Hrun & Hrow & Hexpected & _).
  exists frm', row'. split; [exact Hrun|]. split; [exact Hrow | exact Hexpected].
Defined.

End FinanceBookMoreExamples.

(** ** Asset: the buttons of refresh *)

Section AssetRefreshMore.
Import Frappe Asset.
Context `{Framework}.

Lemma make_schedules_editable_trace frm :
  trace (make_schedules_editable frm) = trace frm.
Proof.
  unfold make_schedules_editable.
  destruct (0 <? length (finance_books frm))%nat; reflexivity.
Qed.

(** An effect is in the trace after a conditional step exactly when it
    was there before or the step added it. *)
Lemma in_trace_step (c : bool) e' frm e :
  In e (trace (if c then emit e' frm else frm))
  <-> In e (trace frm) \/ (c = true /\ e' = e).
Proof.
  destruct c; cbn [trace emit].
  - rewrite in_app_iff. simpl. intuition congruence.
  - intuition congruence.
Qed.

Lemma in_trace_emit e' frm e :
  In e (trace (emit e' frm)) <-> In e (trace frm) \/ e' = e.
Proof. cbn [trace emit]. rewrite in_app_iff. simpl. intuition congruence. Qed.

(** The "Manage" buttons of a submitted asset, by status. *)
Lemma refresh_submitted_buttons frm label :
  In (AddCustomButton label "Manage") (trace (refresh_submitted frm))
  <-> In (AddCustomButton label "Manage") (trace frm)
      \/ (in_list ["Submitted"; "Partially Depreciated"; "Fully Depreciated"]
                  (str_of (doc frm !! "status")) = true
          /\ (label = "Transfer Asset" \/ label = "Scrap Asset" \/ label = "Sell Asset"))
      \/ (in_list ["Submitted"; "Partially Depreciated"; "Fully Depreciated"]
                  (str_of (doc frm !! "status")) = false
          /\ str_of (doc frm !! "status") = "Scrapped" /\ label = "Restore Asset")
      \/ (truthy (doc frm !! "maintenance_required") = true
          /\ truthy (doc frm !! "maintenance_schedule") = false
          /\ label = "Maintain Asset")
      \/ label = "Repair Asset" \/ label = "Split Asset"
      \/ (str_of (doc frm !! "status") <> "Fully Depreciated"
          /\ label = "Adjust Asset Value")
      \/ (truthy (doc frm !! "calculate_depreciation") = false
          /\ label = "Create Depreciation Entry")
      \/ ((truthy (doc frm !! "purchase_receipt") = true
           \/ truthy (doc frm !! "is_existing_asset") = false)
          /\ label = "View General Ledger").
Proof.
  unfold refresh_submitted, add_custom_button. cbv zeta.
  rewrite !in_trace_step, !in_trace_emit.
  destruct (in_list _ (str_of (doc frm !! "status"))).
  - rewrite !in_trace_step, !in_trace_emit.
    rewrite ?negb_true_iff, ?andb_true_iff, ?orb_true_iff, ?negb_true_iff.
    destruct (String.eqb_spec (str_of (doc frm !! "status")) "Fully Depreciated");
      intuition congruence.
  - rewrite !in_trace_step.
    rewrite ?negb_true_iff, ?andb_true_iff, ?orb_true_iff, ?negb_true_iff.
    destruct (String.eqb_spec (str_of (doc frm !! "status")) "Scrapped");
      destruct (String.eqb_spec (str_of (doc frm !! "status")) "Fully Depreciated");
      intuition congruence.
Qed.

Lemma in_list_iff l v : in_list l v = true <-> In v l.
Proof.
  unfold in_list. rewrite existsb_exists. split.
  - intros (x & Hx & E). apply String.eqb_eq in E. now subst.
  - intros Hin. exists v. split; [assumption | apply String.eqb_refl].
Qed.

(** The trace after the chart: what was there, and at most one graph. *)
Lemma setup_chart_adds_graph frm reply :
  exists graph,
    trace (match setup_chart frm reply with
           | Ok frm' => frm'
           | Thrown frm' => frm'
           | OutOfFuel => frm
           end) = (trace frm ++ graph)%list /\
    forall label group, ~ In (AddCustomButton label group) graph.
Proof.
  unfold setup_chart. destruct (1 <? length (finance_books frm))%nat.
  - exists []. rewrite app_nil_r. split; [reflexivity | intros ? ? []].
  - destruct (chart_body frm reply) as [c|].
    + eexists [_]. split; [reflexivity|]. intros label group [E | []]. discriminate.
    + exists []. rewrite app_nil_r. split; [reflexivity | intros ? ? []].
Qed.

(** X15. On a submitted asset, refresh always offers "Repair Asset" and "Split
    Asset"; it offers "Transfer Asset", "Scrap Asset" and "Sell Asset"
    exactly for the statuses Submitted, Partially Depreciated and Fully
    Depreciated, "Restore Asset" exactly for Scrapped, and "Adjust Asset
    Value" exactly when the status is not Fully Depreciated. So a scrapped
    asset can be restored but not transferred, scrapped again or sold. *)
Theorem refresh_manage_buttons_by_status
    (frm : form) (reply : call_reply) :
  doc frm !! "docstatus" = Some (VNum 1) ->
  (forall label, ~ In (AddCustomButton label "Manage") (trace frm)) ->
  let offered label :=
    In (AddCustomButton label "Manage") (trace (refresh frm reply)) in
  let status := str_of (doc frm !! "status") in
  offered "Repair Asset" /\ offered "Split Asset" /\
  (forall label,
     label = "Transfer Asset" \/ label = "Scrap Asset" \/ label = "Sell Asset" ->
     (offered label
      <-> status = "Submitted" \/ status = "Partially Depreciated"
          \/ status = "Fully Depreciated")) /\
  (offered "Restore Asset" <-> status = "Scrapped") /\
  (offered "Adjust Asset Value" <-> status <> "Fully Depreciated").
Proof.
  intros Hsub Hfresh offered status.
  assert (Hoffered : forall label,
    offered label
    <-> In (AddCustomButton label "Manage")
           (trace (refresh_submitted
                     (make_schedules_editable
                        (toggle_display "next_depreciation_date"
                           (num_lt (flt (doc frm !! "docstatus")) 1)
                           (toggle_reference_doc frm)))))).
  { intros label. subst offered. cbv beta. unfold refresh. cbv zeta.
    rewrite Hsub. cbn [flt].
    change (Qeq_bool 1 1) with true. change (Qeq_bool 1 0) with false. cbv iota.
    rewrite toggle_reference_doc_trace.
    match goal with
    | |- context [setup_chart ?f reply] =>
        destruct (setup_chart_adds_graph f reply) as (graph & -> & Hgraph)
    end.
    rewrite in_app_iff. specialize (Hgraph label "Manage"). tauto. }
  assert (Hstatus :
    in_list ["Submitted"; "Partially Depreciated"; "Fully Depreciated"] status = true
    <-> status = "Submitted" \/ status = "Partially Depreciated"
        \/ status = "Fully Depreciated").
  { rewrite in_list_iff. simpl. intuition congruence. }
  assert (Hrest : forall label,
    offered label
    <-> (in_list ["Submitted"; "Partially Depreciated"; "Fully Depreciated"] status = true
          /\ (label = "Transfer Asset" \/ label = "Scrap Asset" \/ label = "Sell Asset"))
      \/ (in_list ["Submitted"; "Partially Depreciated"; "Fully Depreciated"] status = false
          /\ status = "Scrapped" /\ label = "Restore Asset")
      \/ (truthy (doc frm !! "maintenance_required") = true
          /\ truthy (doc frm !! "maintenance_schedule") = false
          /\ label = "Maintain Asset")
      \/ label = "Repair Asset" \/ label = "Split Asset"
      \/ (status <> "Fully Depreciated" /\ label = "Adjust Asset Value")
      \/ (truthy (doc frm !! "calculate_depreciation") = false
          /\ label = "Create Depreciation Entry")
      \/ ((truthy (doc frm !! "purchase_receipt") = true
           \/ truthy (doc frm !! "is_existing_asset") = false)
          /\ label = "View General Ledger")).
  { intros label. rewrite Hoffered, refresh_submitted_buttons.
    rewrite make_schedules_editable_trace, make_schedules_editable_doc.
    cbn [trace doc toggle_display set_df_property set_df].
    rewrite toggle_reference_doc_trace, toggle_reference_doc_doc.
    fold status. specialize (Hfresh label). tauto. }
  assert (Hscrapped : status = "Scrapped" ->
    in_list ["Submitted"; "Partially Depreciated"; "Fully Depreciated"] status = false).
  { intros ->. reflexivity. }
  split; [apply Hrest; tauto|]. split; [apply Hrest; tauto|].
  split; [|split].
  - intros label Hlabel. rewrite Hrest, <- Hstatus.
    destruct (in_list _ status); intuition congruence.
  - rewrite Hrest. specialize (Hscrapped). intuition congruence.
  - rewrite Hrest. intuition congruence.
Qed.

(** X16. On a draft, refresh adds no "Manage" button and renders no chart: the
    only effects it can add are those of an uncapitalized composite
    asset, whose primary action is hidden behind "Capitalize Asset"; and
    the finance books are required exactly when depreciation is
    calculated. *)
Theorem refresh_draft_asset
    (frm : form) (reply : call_reply) :
  doc frm !! "docstatus" = Some (VNum 0) ->
  trace (refresh frm reply)
  = (trace frm
     ++ (if truthy (doc frm !! "is_composite_asset")
            && negb (truthy (doc frm !! "capitalized_in"))
         then [HidePrimaryAction;
               FormMessage "Capitalize this asset to confirm";
               AddCustomButton "Capitalize Asset" ""]
         else []))%list /\
  df (refresh frm reply) !! ("finance_books", "reqd")
  = Some (truthy (doc frm !! "calculate_depreciation")) /\
  df (refresh frm reply) !! ("next_depreciation_date", "hidden") = Some false.
Proof.
  intros Hdraft. unfold refresh. cbv zeta. rewrite Hdraft. cbn [flt].
  change (Qeq_bool 0 1) with false. change (Qeq_bool 0 0) with true.
  change (num_lt 0 1) with true. cbv iota.
  set (frm1 := toggle_reference_doc (make_schedules_editable _)).
  assert (Htrace : trace frm1 = trace frm).
  { subst frm1. rewrite toggle_reference_doc_trace, make_schedules_editable_trace.
    cbn [trace toggle_display set_df_property set_df].
    apply toggle_reference_doc_trace. }
  assert (Hhidden : df frm1 !! ("next_depreciation_date", "hidden") = Some false).
  { subst frm1. unfold toggle_reference_doc, make_schedules_editable.
    repeat match goal with |- context [if ?c then _ else _] => destruct c end;
      cbv [grid_toggle_enable toggle_enable toggle_display toggle_reqd
           set_df_property set_df df doc finance_books schedules flags trace negb];
      now simplify_map_eq. }
  destruct (truthy (doc frm !! "is_composite_asset")
            && negb (truthy (doc frm !! "capitalized_in"))).
  - cbn [trace df add_custom_button emit toggle_reqd set_df_property set_df].
    rewrite Htrace, <- !app_assoc. split; [reflexivity|].
    split; now simplify_map_eq.
  - cbn [trace df toggle_reqd set_df_property set_df].
    rewrite Htrace, app_nil_r. split; [reflexivity|].
    split; now simplify_map_eq.
Qed.

End AssetRefreshMore.

(** ** Sales Order: more on refresh, the purchase order dialog and the
    delivery dates *)

Section SalesOrderMore.
Import Frappe SalesOrder.

Section OrderRefreshMore.
Context `{Framework}.
Variable over_billing_allowance : Q.

(** X17. Without the submit permission, refresh adds no button of group
    "Status" (Hold, Close, Resume, Re-open), whatever the order is. *)
Theorem refresh_without_submit_permission (frm : form) (label : string) :
  offers (refresh false over_billing_allowance frm) label "Status"
  <-> offers frm label "Status".
Proof.
  unfold refresh. cbv zeta.
  rewrite offers_skip by congruence.
  destruct (Qeq_bool (flt (doc frm !! "docstatus")) 1); [|reflexivity].
  destruct (negb (strict_eq (doc frm !! "status") (Some (VStr "Closed"))));
    [|reflexivity].
  rewrite offers_skip2 by congruence.
  destruct (negb (strict_eq (doc frm !! "status") (Some (VStr "On Hold"))));
    [|reflexivity].
  rewrite refresh_open_status. intuition congruence.
Qed.

(** X18. A closed order is offered "Re-open", with the submit permission, and
    nothing else; a draft is offered "Quotation" under "Get Items From"
    and nothing else. *)
Theorem refresh_closed_or_draft_order (has_perm_submit : bool) (frm : form) :
  (doc frm !! "docstatus" = Some (VNum 1) ->
   doc frm !! "status" = Some (VStr "Closed") ->
   trace (refresh has_perm_submit over_billing_allowance frm)
   = (trace frm
      ++ (if has_perm_submit then [AddCustomButton "Re-open" "Status"] else []))%list) /\
  (doc frm !! "docstatus" = Some (VNum 0) ->
   trace (refresh has_perm_submit over_billing_allowance frm)
   = (trace frm ++ [AddCustomButton "Quotation" "Get Items From"])%list).
Proof.
  split.
  - intros Hsub Hclosed. unfold refresh. cbv zeta. rewrite Hsub, Hclosed.
    cbn [flt strict_eq String.eqb Ascii.eqb Bool.eqb negb].
    change (Qeq_bool 1 1) with true. change (Qeq_bool 1 0) with false. cbv iota.
    destruct has_perm_submit; cbn [trace add_custom_button];
      now rewrite ?app_nil_r.
  - intros Hdraft. unfold refresh. cbv zeta. rewrite Hdraft.
    cbn [flt strict_eq].
    change (Qeq_bool 0 1) with false. change (Qeq_bool 0 0) with true. cbv iota.
    reflexivity.
Qed.

End OrderRefreshMore.

(** *** The rows of the purchase order dialog *)

Lemma pending_over_factor (pending factor : Q) :
  (0 < factor)%Q -> num_gt (pending / factor) 0 = num_gt pending 0.
Proof.
  intros Hpos. unfold num_gt.
  destruct (num_lt 0 pending) eqn:E.
  - apply num_lt_iff in E. apply num_lt_iff.
    apply Qlt_shift_div_l; [exact Hpos|]. now rewrite Qmult_0_l.
  - apply num_lt_false_iff in E. apply num_lt_false_iff.
    apply Qle_shift_div_r; [exact Hpos|]. now rewrite Qmult_0_l.
Qed.

(** X19. Every row of the item selection dialog has a positive pending
    quantity. When the order has no packed items and every conversion
    factor is positive, the rows are, in order, exactly the items whose
    stock quantity exceeds the ordered quantity, so a dialog that is shown
    is never empty. *)
Theorem purchase_order_dialog_rows (frm : form) :
  Forall (fun row => (0 < pending_qty row)%Q) (set_po_items_data frm) /\
  (packed_items frm = [] ->
   Forall (fun item => (0 < conversion_factor item)%Q) (items frm) ->
   map po_name (set_po_items_data frm)
   = map name (List.filter has_pending_qty (items frm)) /\
   forall rows, make_purchase_order frm = DialogShown rows -> rows <> []).
Proof.
  split.
  - unfold set_po_items_data. apply List.Forall_forall. intros row Hin.
    apply in_flat_map in Hin as (d & _ & Hrow).
    destruct (num_gt _ 0) eqn:E; [|contradiction].
    destruct Hrow as [<- | []]. cbn [pending_qty]. now apply num_lt_iff in E.
  - intros Hpacked Hfactors.
    assert (Hrows : map po_name (set_po_items_data frm)
                    = map name (List.filter has_pending_qty (items frm))).
    { unfold set_po_items_data, get_ordered_qty. rewrite Hpacked. cbn [length Nat.ltb Nat.leb].
      induction Hfactors as [|item rest Hitem Hrest IH]; [reflexivity|].
      cbn [flat_map List.filter]. rewrite pending_over_factor by exact Hitem.
      fold (has_pending_qty item).
      destruct (has_pending_qty item); cbn [app map]; now rewrite IH. }
    split; [exact Hrows|].
    intros rows Hshown. unfold make_purchase_order in Hshown.
    destruct (existsb has_pending_qty (items frm)) eqn:Hpending;
      [|discriminate].
    cbn [negb] in Hshown. injection Hshown as <-.
    intros Hnil. rewrite Hnil in Hrows. cbn [map] in Hrows.
    apply existsb_exists in Hpending as (item & Hin & Hitem).
    assert (Hfilter : In item (List.filter has_pending_qty (items frm)))
      by (apply filter_In; auto).
    destruct (List.filter has_pending_qty (items frm)); [contradiction | discriminate].
Qed.

(** *** Delivery dates *)

Lemma same_date_eq a b : same_date a b = true <-> a = b.
Proof.
  destruct a as [s|], b as [t|]; simpl; split; try congruence.
  - intros E. apply String.eqb_eq in E. now subst.
  - intros E. injection E as ->. apply String.eqb_refl.
Qed.

Lemma seen_before d seen : existsb (same_date d) seen = true <-> In d seen.
Proof.
  rewrite existsb_exists. split.
  - intros (x & Hx & E). apply same_date_eq in E. now subst.
  - intros Hin. exists d. split; [exact Hin | now apply same_date_eq].
Qed.

(** The loop behind [distinct_dates], from any list of dates seen so far
    that has no repetition. *)
Lemma distinct_from : forall dates seen,
  List.NoDup seen ->
  let result :=
    fold_left (fun seen d => if existsb (same_date d) seen then seen
                             else (seen ++ [d])%list) dates seen in
  List.NoDup result /\ forall d, In d result <-> In d seen \/ In d dates.
Proof.
  induction dates as [|x rest IH]; intros seen Hseen; cbn [fold_left].
  - split; [exact Hseen|]. intros d. simpl. tauto.
  - destruct (existsb (same_date x) seen) eqn:E.
    + apply seen_before in E.
      destruct (IH seen Hseen) as [Hnodup Hin]. split; [exact Hnodup|].
      intros d. rewrite Hin. simpl. intuition congruence.
    + assert (Hfresh : ~ In x seen).
      { intros Hin. apply seen_before in Hin. congruence. }
      assert (Hseen' : List.NoDup (seen ++ [x])).
      { apply List.NoDup_app; [exact Hseen | repeat constructor; intros [] |].
        intros a Ha [<- | []]. contradiction. }
      destruct (IH (seen ++ [x])%list Hseen') as [Hnodup Hin]. split; [exact Hnodup|].
      intros d. rewrite Hin, in_app_iff. simpl. tauto.
Qed.

Lemma distinct_dates_spec dates :
  List.NoDup (distinct_dates dates) /\
  forall d, In d (distinct_dates dates) <-> In d dates.
Proof.
  destruct (distinct_from dates [] (List.NoDup_nil _)) as [Hnodup Hin].
  split; [exact Hnodup|]. intros d. unfold distinct_dates. rewrite Hin. simpl. tauto.
Qed.

(** Several distinct dates exactly when two of the dates differ. *)
Lemma several_distinct_dates dates :
  (1 < length (distinct_dates dates))%nat
  <-> exists a b, In a dates /\ In b dates /\ a <> b.
Proof.
  destruct (distinct_dates_spec dates) as [Hnodup Hin]. split.
  - intros Hlen. destruct (distinct_dates dates) as [|a [|b rest]] eqn:E;
      simpl in Hlen; try lia.
    exists a, b. split; [apply Hin; simpl; auto|].
    split; [apply Hin; simpl; auto|].
    inversion Hnodup as [|? ? Hnotin _]; subst. intros ->. apply Hnotin. simpl. auto.
  - intros (a & b & Ha & Hb & Hne). apply Hin in Ha, Hb.
    destruct (distinct_dates dates) as [|x [|y rest]]; simpl in *; try lia.
    destruct Ha as [<- | []], Hb as [<- | []]. contradiction.
Qed.

Lemma dates_dialog_shown_iff selected rows :
  (exists dates,
     make_delivery_note_based_on_delivery_date selected rows = SelectDatesDialog dates)
  <-> selected = 0%nat
      /\ exists r1 r2, In r1 rows /\ In r2 rows
                       /\ delivery_date r1 <> delivery_date r2.
Proof.
  unfold make_delivery_note_based_on_delivery_date.
  set (dates := map delivery_date rows).
  assert (Hdiffer :
    (exists a b, In a dates /\ In b dates /\ a <> b)
    <-> exists r1 r2, In r1 rows /\ In r2 rows /\ delivery_date r1 <> delivery_date r2).
  { subst dates. split.
    - intros (a & b & Ha & Hb & Hne).
      apply in_map_iff in Ha as (r1 & <- & H1), Hb as (r2 & <- & H2). eauto.
    - intros (r1 & r2 & H1 & H2 & Hne).
      exists (delivery_date r1), (delivery_date r2).
      split; [now apply in_map|]. split; [now apply in_map | exact Hne]. }
  rewrite <- Hdiffer, <- several_distinct_dates.
  destruct (Nat.eqb_spec selected 0) as [-> | Hsel]; cbn [andb].
  - destruct (Nat.ltb_spec 1 (length (distinct_dates dates))).
    + split; [intros _; split; [reflexivity | assumption] | eauto].
    + split; [intros (d & Hd); discriminate | intros [_ Hlt]; lia].
  - split; [intros (d & Hd); discriminate | intros [Hzero _]; contradiction].
Qed.

(** X20. [make_delivery_note_based_on_delivery_date] asks for the dates exactly
    when no row is selected and two rows have different delivery dates;
    the dialog then lists every delivery date of the order once, and no
    other date. Otherwise the delivery note is made at once. *)
Theorem delivery_note_dialog_iff (selected : nat) (rows : list delivery_item) :
  let outcome := make_delivery_note_based_on_delivery_date selected rows in
  ((exists dates, outcome = SelectDatesDialog dates)
   <-> selected = 0%nat
       /\ exists r1 r2, In r1 rows /\ In r2 rows
                        /\ delivery_date r1 <> delivery_date r2) /\
  (forall dates, outcome = SelectDatesDialog dates ->
     List.NoDup dates /\
     forall d, In d dates <-> exists r, In r rows /\ delivery_date r = d) /\
  (outcome = MakeDeliveryNote
   <-> selected <> 0%nat
       \/ forall r1 r2, In r1 rows -> In r2 rows -> delivery_date r1 = delivery_date r2).
Proof.
  cbv zeta. split; [apply dates_dialog_shown_iff|]. split.
  - unfold make_delivery_note_based_on_delivery_date. intros ds Hshown.
    destruct ((selected =? 0)%nat && _); [|discriminate].
    injection Hshown as <-.
    destruct (distinct_dates_spec (map delivery_date rows)) as [Hnodup Hin].
    split; [exact Hnodup|].
    intros d. rewrite Hin, in_map_iff.
    split; intros (r & Hr1 & Hr2); exists r; tauto.
  - pose proof (dates_dialog_shown_iff selected rows) as Hiff.
    destruct (make_delivery_note_based_on_delivery_date selected rows) as [ds|].
    + split; [discriminate|]. intros Hnot. exfalso.
      destruct (proj1 Hiff (ex_intro _ ds eq_refl)) as (Hzero & r1 & r2 & H1 & H2 & Hne).
      destruct Hnot as [Hsel | Hsame]; [contradiction | exact (Hne (Hsame r1 r2 H1 H2))].
    + split; [|reflexivity]. intros _.
      destruct (Nat.eq_dec selected 0) as [Hzero | Hsel]; [|now left].
      right. intros r1 r2 H1 H2.
      destruct (decide (delivery_date r1 = delivery_date r2)) as [Heq | Hne];
        [exact Heq|].
      exfalso. destruct (proj2 Hiff) as (ds & Hds); [|discriminate]. eauto 8.
Qed.

(** X21. The [delivery_date] handler of the order gives every row that has no
    delivery date the order's date and leaves the other rows as they are;
    running it again changes nothing when the order has a date. If no
    row had a date, all rows then share the order's date and the
    delivery note is made without asking for dates. *)
Theorem on_delivery_date_fills_rows
    (order_date : option string) (rows : list delivery_item) :
  let rows' := on_delivery_date order_date rows in
  length rows' = length rows /\
  (forall i r, rows !! i = Some r ->
     exists r', rows' !! i = Some r' /\ row_name r' = row_name r /\
       delivery_date r'
       = (if truthy_date (delivery_date r) then delivery_date r else order_date)) /\
  (truthy_date order_date = true -> on_delivery_date order_date rows' = rows') /\
  (Forall (fun r => truthy_date (delivery_date r) = false) rows ->
   forall selected,
     make_delivery_note_based_on_delivery_date selected rows' = MakeDeliveryNote).
Proof.
  cbv zeta. split; [apply length_map|]. split; [|split].
  - intros i r Hr. unfold on_delivery_date. rewrite list_lookup_fmap, Hr. cbn.
    destruct (truthy_date (delivery_date r)); cbn; eauto.
  - intros Hdate. unfold on_delivery_date. rewrite map_map. apply map_ext.
    intros r. destruct (truthy_date (delivery_date r)) eqn:E; cbn [negb].
    + now rewrite E.
    + cbn [delivery_date]. now rewrite Hdate.
  - intros Hunset selected.
    destruct (make_delivery_note_based_on_delivery_date selected
                (on_delivery_date order_date rows)) as [dates|] eqn:Hout;
      [|reflexivity].
    exfalso.
    destruct (proj1 (dates_dialog_shown_iff selected (on_delivery_date order_date rows))
                (ex_intro _ dates Hout)) as (_ & r1 & r2 & H1 & H2 & Hne).
    apply Hne.
    assert (Hall : forall r, In r (on_delivery_date order_date rows) ->
                     delivery_date r = order_date).
    { intros r Hin. unfold on_delivery_date in Hin.
      apply in_map_iff in Hin as (r0 & <- & Hin0).
      rewrite List.Forall_forall in Hunset. rewrite (Hunset r0 Hin0). reflexivity. }
    now rewrite (Hall r1 H1), (Hall r2 H2).
Qed.

End SalesOrderMore.

(** ** The further properties at the example documents *)

Section MoreExamples.
Import Frappe Asset.

Lemma setup_chart_point_count_witness :
  length ["2024-01-01"; "2024-12-31"; "2024-12-31"; "2025-12-31"; "2026-06-30"]
  = length [Some (1000 # 1)%Q; Some (950 # 1)%Q; Some (650 # 1)%Q; None; Some 0%Q].
Proof.
  exact (proj1 (@setup_chart_point_count Examples.test_framework
                  Examples.sold_asset (Resolved None) _ _ ltac:(vm_compute; reflexivity))).
Defined.

Lemma setup_chart_gaps_only_when_disposed_witness :
  Forall (fun v : option Q => v <> None)
    [Some (1000 # 1)%Q; Some (950 # 1)%Q; Some (650 # 1)%Q; Some (350 # 1)%Q].
Proof.
  exact (@setup_chart_gaps_only_when_disposed Examples.test_framework
           Examples.submitted_asset (Resolved None)
           ["2024-01-01"; "2024-12-31"; "2024-12-31"; "2025-12-31"] _
           eq_refl ltac:(vm_compute; reflexivity)).
Defined.

(** The manually depreciated asset: the graph when the server answers two
    entries, and the throw when the call fails. *)
Lemma setup_chart_manual_entries_witness :
  (exists prefix_labels,
     @setup_chart Examples.test_framework Examples.manually_depreciated_asset
       (Resolved (Some Examples.manual_entries))
     = Ok (emit (RenderGraph
                   (prefix_labels ++ ["2024-06-30"; "2024-12-31"])%list
                   [Some (1000 # 1)%Q; Some (950 # 1)%Q; Some (850 # 1)%Q;
                    Some (700 # 1)%Q])
                Examples.manually_depreciated_asset)) /\
  @setup_chart Examples.test_framework Examples.manually_depreciated_asset Rejected
  = Thrown Examples.manually_depreciated_asset.
Proof.
  split.
  - destruct (@setup_chart_manual_entries Examples.test_framework
                Examples.manually_depreciated_asset
                (Resolved (Some Examples.manual_entries)) eq_refl ltac:(simpl; lia))
      as [_ Hrenders].
    destruct (Hrenders ltac:(discriminate) ltac:(intros _; eexists; reflexivity))
      as (pl & _ & Hrun).
    exists pl. exact Hrun.
  - destruct (@setup_chart_manual_entries Examples.test_framework
                Examples.manually_depreciated_asset Rejected eq_refl ltac:(simpl; lia))
      as [Hthrows _].
    apply Hthrows. left. reflexivity.
Defined.

(** The manually depreciated asset was created on 2024-01-02 at 10:00:00:
    its opening point is dated 2024-01-02. *)
Lemma setup_chart_opening_point_witness :
  exists labels values,
    @setup_chart Examples.test_framework Examples.manually_depreciated_asset
      (Resolved (Some Examples.manual_entries))
    = Ok (emit (RenderGraph labels values) Examples.manually_depreciated_asset) /\
    labels !! 1%nat = Some "2024-01-02" /\
    values !! 1%nat = Some (Some (950 # 1)%Q).
Proof.
  exists ["2024-01-01"; "2024-01-02"; "2024-06-30"; "2024-12-31"],
         [Some (1000 # 1)%Q; Some (950 # 1)%Q; Some (850 # 1)%Q; Some (700 # 1)%Q].
  split; [vm_compute; reflexivity|].
  exact (@setup_chart_opening_point Examples.test_framework
           Examples.manually_depreciated_asset
           (Resolved (Some Examples.manual_entries)) "2024-01-02" "10:00:00"
           ["2024-01-01"; "2024-01-02"; "2024-06-30"; "2024-12-31"]
           [Some (1000 # 1)%Q; Some (950 # 1)%Q; Some (850 # 1)%Q; Some (700 # 1)%Q]
           eq_refl eq_refl eq_refl
           ltac:(repeat constructor; vm_compute; discriminate)
           ltac:(vm_compute; reflexivity)).
Defined.

Lemma set_values_from_purchase_doc_with_item_witness :
  exists frm',
    @set_values_from_purchase_doc Examples.test_framework
      (@frm_set_value Examples.test_framework 1)
      Examples.purchased_asset "Purchase Receipt" Examples.receipt_of_the_item
    = Ok frm' /\
    doc frm' !! "purchase_date" = Some (VStr "2024-01-01") /\
    trace frm' = [GetValue "Item" "LAPTOP" "is_grouped_asset"].
Proof.
  destruct (@set_values_from_purchase_doc_with_item Examples.test_framework 0
              Examples.purchased_asset "Purchase Receipt" Examples.receipt_of_the_item
              {| item_code := "LAPTOP"; qty := 3; valuation_rate := 500;
                 cost_center := ""; asset_location := "Store" |} eq_refl)
    as (frm' & Hrun & _ & Hdate & _ & _ & Htrace).
  exists frm'. split; [exact Hrun|]. split; [exact Hdate | exact Htrace].
Defined.

Lemma refresh_manage_buttons_by_status_witness :
  In (AddCustomButton "Transfer Asset" "Manage")
     (trace (@refresh Examples.test_framework Examples.submitted_asset (Resolved None))).
Proof.
  destruct (@refresh_manage_buttons_by_status Examples.test_framework
              Examples.submitted_asset (Resolved None) eq_refl (fun label H => H))
    as (_ & _ & Hmove & _).
  apply (Hmove "Transfer Asset"); auto.
Defined.

Lemma refresh_draft_asset_witness :
  trace (@refresh Examples.test_framework Examples.purchased_asset (Resolved None)) = [].
Proof.
  exact (proj1 (@refresh_draft_asset Examples.test_framework
                  Examples.purchased_asset (Resolved None) eq_refl)).
Defined.

End MoreExamples.
